(** * Dublr dapp: a shallow embedding of the client-side JavaScript

    The development follows the layout of the repository:

    - [Js]      : the fragments of JavaScript semantics the sources rely on
                  (truthiness, string helpers, promise outcomes);
    - [Format]  : the display helpers of [dataflow-nodes.js];
    - [Rpc]     : [rpcCall] and [fetchWithTimeout];
    - [Nodes]   : the dataflow node functions of [dataflow-nodes.js];
    - [Idb]     : [idb.js], the persistent preference store;
    - [Wallet]  : the wallet-provider event handlers of [wallet.js];
    - [Core]    : the dataflow core ([dataflow-lib.js]), which the repository
                  imports but does not contain;
    - [Vocab]   : the predicates the properties are stated with.

    [Decimal] instantiates the library functions the sources call, for
    running the model on examples.  Definitions come first, the properties
    proved about them afterwards. *)

From Stdlib Require Import ZArith List String Ascii Bool Lia DecimalString.
From stdpp Require Import gmap strings.
Import ListNotations.
Open Scope string_scope.
Open Scope Z_scope.

(* ================================================================== *)
(** * JavaScript basics *)
(* ================================================================== *)

Module Js.

(** A JavaScript value as the dataflow graph stores it.  Objects are opaque
    and compared by reference. *)
Inductive Val : Type :=
| VUndef
| VBool (b : bool)
| VNum (z : Z)
| VStr (s : string)
| VRef (r : nat).

#[export] Instance Val_eq_dec : EqDecision Val.
Proof. solve_decision. Defined.

(** The argument of one [dataflow.set({ ... })] call: the object literal's
    fields in source order. *)
Definition Batch : Type := list (string * Val).

Definition of_str (o : option string) : Val :=
  match o with Some s => VStr s | None => VUndef end.

(** What a function body does when it finishes: a normal completion or a
    thrown exception. *)
Inductive Completion (A : Type) : Type :=
| Normal (a : A)
| Throws.
Arguments Normal {A} a.
Arguments Throws {A}.

(** The fate of an awaited promise. *)
Inductive Async (A : Type) : Type :=
| Fulfilled (a : A)
| Rejected
| Pending.
Arguments Fulfilled {A} a.
Arguments Rejected {A}.
Arguments Pending {A}.

(** The error objects the sources inspect: [e.reason], [e.message] and
    [e.error?.message], each a string when present. *)
Record JsError : Type := mkError {
  reason : option string;
  message : option string;
  error_message : option string
}.

(** Truthiness of a possibly missing string: [undefined] and [""] are falsy. *)
Definition truthy_str (o : option string) : bool :=
  match o with
  | Some s => negb (String.eqb s "")
  | None => false
  end.

(** Truthiness of a possibly missing boolean. *)
Definition truthy_bool (o : option bool) : bool :=
  match o with Some b => b | None => false end.

(** Truthiness of a possibly missing object (a BigNumber, a contract, a
    record): every object is truthy. *)
Definition truthy_obj {A : Type} (o : option A) : bool :=
  match o with Some _ => true | None => false end.

Definition is_upper (c : ascii) : bool :=
  let n := nat_of_ascii c in ((65 <=? n)%nat && (n <=? 90)%nat)%bool.

Definition is_lower (c : ascii) : bool :=
  let n := nat_of_ascii c in ((97 <=? n)%nat && (n <=? 122)%nat)%bool.

Definition is_digit (c : ascii) : bool :=
  let n := nat_of_ascii c in ((48 <=? n)%nat && (n <=? 57)%nat)%bool.

Definition is_alnum (c : ascii) : bool :=
  (is_upper c || is_lower c || is_digit c)%bool.

(** White space as [String.prototype.trim] and [Number("...")] see it,
    on the ASCII range. *)
Definition is_space (c : ascii) : bool :=
  let n := nat_of_ascii c in
  ((n =? 9)%nat || (n =? 10)%nat || (n =? 11)%nat || (n =? 12)%nat
   || (n =? 13)%nat || (n =? 32)%nat)%bool.

Definition lower_char (c : ascii) : ascii :=
  if is_upper c then ascii_of_nat (nat_of_ascii c + 32) else c.

(** [s.toLowerCase()], on the ASCII range. *)
Fixpoint toLowerCase (s : string) : string :=
  match s with
  | EmptyString => EmptyString
  | String c r => String (lower_char c) (toLowerCase r)
  end.

(** [hay.includes(needle)]. *)
Fixpoint includes (needle hay : string) : bool :=
  (String.prefix needle hay
   || match hay with
      | EmptyString => false
      | String _ r => includes needle r
      end)%bool.

Fixpoint trimStart (s : string) : string :=
  match s with
  | EmptyString => EmptyString
  | String c r => if is_space c then trimStart r else s
  end.

Fixpoint rev_string (s acc : string) : string :=
  match s with
  | EmptyString => acc
  | String c r => rev_string r (String c acc)
  end.

(** [s.trim()]. *)
Definition trim (s : string) : string :=
  rev_string (trimStart (rev_string (trimStart s) EmptyString)) EmptyString.

(** [s.endsWith(suffix)]. *)
Definition endsWith (suffix s : string) : bool :=
  String.prefix (rev_string suffix EmptyString) (rev_string s EmptyString).

(** String conversion of a value that may be [undefined], as [+] does it. *)
Definition str_or_undefined (o : option string) : string :=
  match o with Some s => s | None => "undefined" end.

(** [isNaN(c)] for a one-character string [c]: [Number(c)] is a number for
    a digit and for white space (which converts to 0). *)
Definition isNaN_char (c : ascii) : bool := negb (is_digit c || is_space c).

(** Library functions the sources call but do not define: arithmetic and
    printing of JavaScript Numbers, and the ethers.js BigNumber helpers.
    A BigNumber is an arbitrary-precision integer. *)
Class Lib : Type := {
  Number : Type;
  (** [isNaN(num)] *)
  isNaN : Number -> bool;
  (** [Number.parseFloat(str)] *)
  parseFloat : string -> Number;
  (** [num.toFixed(9)] *)
  toFixed9 : Number -> string;
  (** [num * 1e-9] *)
  times_1e_9 : Number -> Number;
  (** [BigNumber.from(Math.floor(num * 1e6))]; [None] when the conversion
      throws (not a safe integer) *)
  floor_times_1e6 : Number -> option Z;
  (** [bigNum.toString()] *)
  bn_toString : Z -> string;
  (** [bigNum.toNumber()]; [None] when it throws *)
  bn_toNumber : Z -> option Number;
  (** [ethers.utils.formatEther(wei)] *)
  formatEther : Z -> string;
  (** truthiness of a Number: false for 0 and NaN *)
  truthyNumber : Number -> bool;
  (** [ethers.BigNumber.from(num)]; [None] when it throws (not a safe
      integer) *)
  bn_from : Number -> option Z
}.

End Js.

Import Js.

(** An instance of [Lib] with exact decimal arithmetic, for running the
    model on examples: a Number is NaN ([None]) or a multiple [z] of 1e-9
    ([Some z]); [parseFloat] reads the integer literals that [bn_toString]
    prints.  The properties below hold for every instance. *)
Module Decimal.

Definition show (z : Z) : string := NilZero.string_of_int (Z.to_int z).

Definition readInt (s : string) : option Z :=
  option_map Z.of_int (NilZero.int_of_string s).

Definition zeros (n : nat) : string := string_of_list_ascii (repeat "0"%char n).

Definition padLeft (n : nat) (s : string) : string :=
  zeros (n - String.length s) +:+ s.

(** [z * 10^-places] printed with [places] decimals. *)
Definition fixed (places : nat) (z : Z) : string :=
  (if z <? 0 then "-" else "")
  +:+ show (Z.quot (Z.abs z) (10 ^ Z.of_nat places))
  +:+ "." +:+ padLeft places (show (Z.rem (Z.abs z) (10 ^ Z.of_nat places))).

Fixpoint dropZeros (s : string) : string :=
  match s with
  | String c r => if Ascii.eqb c "0" then dropZeros r else s
  | EmptyString => EmptyString
  end.

(** Trailing zeros removed, one digit kept after the dot. *)
Definition trimFraction (s : string) : string :=
  let r := dropZeros (rev_string s EmptyString) in
  match r with
  | String c _ => if Ascii.eqb c "." then rev_string (String "0" r) EmptyString
                  else rev_string r EmptyString
  | EmptyString => s
  end.

#[export] Instance lib : Lib := {|
  Number := option Z;
  isNaN := fun n => match n with None => true | Some _ => false end;
  parseFloat := fun s => option_map (fun z => z * 1000000000) (readInt s);
  toFixed9 := fun n => match n with None => "NaN" | Some z => fixed 9 z end;
  times_1e_9 := option_map (fun z => Z.quot z 1000000000);
  floor_times_1e6 := option_map (fun z => z / 1000);
  bn_toString := show;
  bn_toNumber := fun z => Some (Some (z * 1000000000));
  formatEther := fun wei => trimFraction (fixed 18 wei);
  truthyNumber := fun n => match n with Some z => negb (z =? 0) | None => false end;
  bn_from := fun n =>
    match n with
    | Some z => if Z.rem z 1000000000 =? 0 then Some (Z.quot z 1000000000) else None
    | None => None
    end
|}.

End Decimal.

(* ================================================================== *)
(** * dataflow-nodes.js: formatting and utility functions *)
(* ================================================================== *)

Module Format.

Definition unknown : string := "(unknown)".

(** [ADDR_REGEXP]: ["0x"], three alphanumerics, one or more alphanumerics,
    four alphanumerics, anchored at both ends. *)
Fixpoint all_alnum (s : string) : bool :=
  match s with
  | EmptyString => true
  | String c r => (is_alnum c && all_alnum r)%bool
  end.

Definition addr_matches (addr : string) : bool :=
  (String.prefix "0x" addr
   && all_alnum (substring 2 (String.length addr - 2) addr)
   && (10 <=? String.length addr)%nat)%bool.

Definition formatAddress (addr : option string) : string :=
  if negb (truthy_str addr) then unknown
  else
    let a := str_or_undefined addr in
    if negb (addr_matches a) then a
    else substring 0 5 a +:+ "..." +:+ substring (String.length a - 4) 4 a.

Definition toNumber `{Lib} (bigNum : option Z) : option Number :=
  match bigNum with
  | None => None
  | Some b =>
      let num := parseFloat (bn_toString b) in
      let num :=
        if isNaN num
        then match bn_toNumber b with Some n => n | None => num end
        else num in
      if isNaN num then None else Some num
  end.

Definition priceToNumber `{Lib} (price_x1e9 : option Z) : option Number :=
  match toNumber price_x1e9 with
  | None => None
  | Some num => Some (times_1e_9 num)
  end.

Definition formatPrice `{Lib} (price_x1e9 : option Z) : string :=
  match price_x1e9 with
  | Some _ =>
      match priceToNumber price_x1e9 with
      | Some price => toFixed9 price
      | None => unknown
      end
  | None => unknown
  end.

(** BigNumber division truncates towards zero and throws on a zero divisor. *)
Definition bn_div (a b : Z) : Completion Z :=
  if b =? 0 then Throws else Normal (Z.quot a b).

Definition e9 : Z := 1000000000.

(** The divisor is the constant 1e9, so the division cannot throw. *)
Definition dublrToEthRoundUpClamped (price_x1e9 amountDUBLRWEI maxAmtETH : Z) : Z :=
  let amtETH := Z.quot (amountDUBLRWEI * price_x1e9 + (e9 - 1)) e9 in
  if amtETH <? maxAmtETH then amtETH else maxAmtETH.

Definition dublrToEth (price_x1e9 amountDUBLRWEI : Z) : Z :=
  Z.quot (amountDUBLRWEI * price_x1e9) e9.

Definition ethToDublr (price_x1e9 amtETH : Z) : Completion Z :=
  bn_div (amtETH * e9) price_x1e9.

(** [dollarRegexp] is not anchored and every part of it is optional, so it
    matches at index 0: an optional minus sign, the longest run of digits,
    and a dot with two digits when they follow. *)
Fixpoint take_digits (s : string) : string * string :=
  match s with
  | String c r =>
      if is_digit c
      then let '(d, rest) := take_digits r in (String c d, rest)
      else (EmptyString, s)
  | EmptyString => (EmptyString, EmptyString)
  end.

Definition take_cents (s : string) : string :=
  match s with
  | String d (String c1 (String c2 _)) =>
      if (Ascii.eqb d "." && is_digit c1 && is_digit c2)%bool
      then String d (String c1 (String c2 EmptyString))
      else EmptyString
  | _ => EmptyString
  end.

Definition formatDollars (amt : string) : option string :=
  let '(sign, rest) :=
    match amt with
    | String c r => if Ascii.eqb c "-" then (String c EmptyString, r) else (EmptyString, amt)
    | EmptyString => (EmptyString, amt)
    end in
  let '(digits, rest) := take_digits rest in
  Some (sign +:+ digits +:+ take_cents rest).

Definition targetSF : nat := 12.

(** The loop of [formatSF]: [numSF] counts the characters for which
    [isNaN] is false, [hitDot] records that a dot was passed. *)
Fixpoint formatSF_loop (num : string) (numSF : nat) (hitDot : bool) : string :=
  match num with
  | EmptyString => EmptyString
  | String c r =>
      if Ascii.eqb c "." then
        if (targetSF <=? numSF)%nat then EmptyString
        else String c (formatSF_loop r numSF true)
      else if (hitDot && (targetSF <=? numSF)%nat)%bool then EmptyString
      else String c (formatSF_loop r (if isNaN_char c then numSF else S numSF) hitDot)
  end.

Definition formatSF (num : option string) : string :=
  match num with
  | None => unknown
  | Some s => formatSF_loop s 0 false
  end.

(** The price object of the [priceUSDPerCurrency] node. *)
Record Price `{Lib} : Type := mkPrice {
  eth : option Number;
  matic : option Number;
  dublr_usd : option Number
}.

(** U+301C, as the three bytes of its UTF-8 encoding. *)
Definition wave_dash : string :=
  String (ascii_of_nat 227) (String (ascii_of_nat 128) (String (ascii_of_nat 156) EmptyString)).

Definition weiToUSD `{Lib} (amtWEI : Z) (currency : option string)
    (priceUSDPerCurrency : option Price) : Completion string :=
  match priceUSDPerCurrency with
  | Some p =>
      let price :=
        match currency with
        | None => None
        | Some c =>
            if endsWith "ETH" c then eth p
            else if endsWith "MATIC" c then matic p
            else if String.eqb c "DUBLR" then dublr_usd p
            else None
        end in
      match price with
      | Some pr =>
          match floor_times_1e6 pr with
          | None => Throws
          | Some x =>
              let amtUSDWEI := Z.quot (amtWEI * x) 1000000 in
              let amtUSDStr := formatSF (Some (formatEther amtUSDWEI)) in
              match formatDollars amtUSDStr with
              | None => Normal ""
              | Some f => Normal (" (" +:+ wave_dash +:+ f +:+ " USD)")
              end
          end
      | None => Normal ""
      end
  | None => Normal ""
  end.

Definition weiToDisplay `{Lib} (amtWEI : option Z) (currency : option string)
    (priceUSDPerCurrency : option Price) : Completion string :=
  match amtWEI with
  | None => Normal unknown
  | Some a =>
      match weiToUSD a currency priceUSDPerCurrency with
      | Throws => Throws
      | Normal usd =>
          Normal (formatSF (Some (formatEther a)) +:+ " " +:+ str_or_undefined currency +:+ usd)
      end
  end.

Definition weiToEthSF `{Lib} (amtWEI : option Z) : string :=
  match amtWEI with
  | None => unknown
  | Some a => formatSF (Some (formatEther a))
  end.

Definition weiToEthFullPrecision `{Lib} (amtWEI : option Z) : string :=
  match amtWEI with
  | None => unknown
  | Some a => formatEther a
  end.

End Format.

(* ================================================================== *)
(** * dataflow-nodes.js: blockchain RPC *)
(* ================================================================== *)

Module Rpc.

(** What one call [promiseFn()] of [rpcCall]'s argument does.  A value of
    type [option A] is a JavaScript value that may be [undefined]. *)
Inductive Attempt (A : Type) : Type :=
| NoPromise                 (* promiseFn() returned undefined, not a promise *)
| Resolves (v : option A)   (* the promise resolved with v *)
| Fails (e : JsError)       (* promiseFn() threw, or the promise rejected with e *)
| NeverSettles.             (* the promise stays pending *)
Arguments NoPromise {A}.
Arguments Resolves {A} v.
Arguments Fails {A} e.
Arguments NeverSettles {A}.

(** The observable run of one [rpcCall]: what its promise does, how many
    times [promiseFn] was called, and the [sleep] delays in order (ms).
    Console output is not modelled. *)
Record Run (A : Type) : Type := mkRun {
  result : Async (option A);
  attempts : nat;
  sleeps : list Z
}.
Arguments mkRun {A} result attempts sleeps.
Arguments result {A} r.
Arguments attempts {A} r.
Arguments sleeps {A} r.

Definition errMsg (e : JsError) : string :=
  if truthy_str (reason e) then str_or_undefined (reason e)
  else if truthy_str (message e) then str_or_undefined (message e)
  else if truthy_str (error_message e) then str_or_undefined (error_message e)
  else "unknown reason".

(** The errors [rpcCall] treats as communication failures. *)
Definition retryable (errMsg : string) : bool :=
  let errMsgLower := toLowerCase errMsg in
  (includes "rpc error" errMsgLower
   || includes "header not found" errMsgLower
   || includes "failed to fetch" errMsgLower
   || includes "missing revert data" errMsgLower
   || includes "retries exhausted" errMsgLower
   || includes "user aborted a request" errMsgLower
   || includes "Access-Control-Allow-Origin" errMsg)%bool.

Definition expBackoff : Z := 2.
Definition numRetries : nat := 5.
Definition initialDelay : Z := 125.

(** The [for] loop of [rpcCall]; [n] is the number of iterations left
    ([numRetries - i]), [i] the loop counter, [delay] the current delay. *)
Fixpoint rpcLoop {A : Type} (promiseFn : nat -> Attempt A)
    (n i : nat) (delay : Z) (slept : list Z) : Run A :=
  match n with
  | O => mkRun (Fulfilled None) i slept
  | S n' =>
      match promiseFn i with
      | NoPromise => mkRun (Fulfilled None) (S i) slept
      | Resolves v => mkRun (Fulfilled v) (S i) slept
      | NeverSettles => mkRun Pending (S i) slept
      | Fails e =>
          if retryable (errMsg e) then
            if (i <? numRetries - 1)%nat
            then rpcLoop promiseFn n' (S i) (delay * expBackoff) (slept ++ [delay])%list
            else rpcLoop promiseFn n' (S i) delay slept
          else mkRun (Fulfilled None) (S i) slept
      end
  end.

(** [rpcCall(promiseFn)]; the [i]-th call of [promiseFn] behaves as
    [promiseFn i]. *)
Definition rpcCall {A : Type} (promiseFn : nat -> Attempt A) : Run A :=
  rpcLoop promiseFn numRetries 0 initialDelay [].

(** What the browser's [fetch] does with a request when left alone: settle
    after [ms] milliseconds with a response or an error, or hang. *)
Inductive FetchBehaviour (R : Type) : Type :=
| FetchSettles (ms : Z) (r : R + JsError)
| FetchHangs.
Arguments FetchSettles {R} ms r.
Arguments FetchHangs {R}.

(** The rejection of a fetch whose signal was aborted. *)
Definition abortError : JsError :=
  mkError None (Some "The user aborted a request.") None.

Definition defaultTimeout : Z := 8000.

(** [fetchWithTimeout(resource, options)]: the controller aborts the
    request [timeout] ms after it was started, unless it settled before. *)
Definition fetchWithTimeout {R : Type} (timeout : option Z)
    (f : FetchBehaviour R) : Attempt R :=
  let timeout := match timeout with Some t => t | None => defaultTimeout end in
  match f with
  | FetchSettles ms r =>
      if ms <? timeout
      then match r with inl resp => Resolves (Some resp) | inr e => Fails e end
      else Fails abortError
  | FetchHangs => Fails abortError
  end.

End Rpc.

(* ================================================================== *)
(** * dataflow-nodes.js: the dataflow nodes *)
(* ================================================================== *)

Module Nodes.
Import Format Rpc.

Record SellOrder : Type := mkSellOrder {
  priceNWCPerDUBLR_x1e9 : Z;
  amountDUBLRWEI : Z
}.

(** The result of the contract's [getStaticCallValues()]. *)
Record ContractVals : Type := mkContractVals {
  balanceNWCWEI : option Z;
  balanceDUBLRWEI : option Z;
  mySellOrder : SellOrder;
  allSellOrders : list SellOrder;
  mintPriceNWCPerDUBLR_x1e9 : Z;
  maxPriceNWCPerDUBLR_x1e9 : option Z;
  minSellOrderValueNWCWEI : option Z;
  buyingEnabled : bool;
  sellingEnabled : bool;
  mintingEnabled : bool;
  blockGasLimit : option Z
}.

(** The ethers.js contract object, opaque. *)
Definition Contract : Type := nat.

(** [contractVals]: [stored] is [dataflow.value.contractVals] and
    [getStaticCallValues i] the behaviour of the [i]-th chain read. *)
Definition contractVals (dublr : option Contract) (wallet : option string)
    (stored : option ContractVals)
    (getStaticCallValues : nat -> Attempt ContractVals) : Async (option ContractVals) :=
  if (negb (truthy_obj dublr) || negb (truthy_str wallet))%bool then Fulfilled None
  else
    match result (rpcCall getStaticCallValues) with
    | Fulfilled None => Fulfilled stored
    | Fulfilled (Some values) => Fulfilled (Some values)
    | Rejected => Rejected
    | Pending => Pending
    end.

(** What [response.json()] does.  The three numbers of [JsonResolves] are
    [Number.parseFloat] of the [usd] field under ["ethereum"],
    ["matic-network"] and ["dublr"], NaN when the path is missing. *)
Inductive JsonOutcome `{Lib} : Type :=
| JsonResolves (ethereum matic_network dublr : Number)
| JsonRejects
| JsonHangs.

Definition keepNumber `{Lib} (parsed : Number) : option Number :=
  if isNaN parsed then None else Some parsed.

Definition priceTimeout : Z := 5000.

(** [priceUSDPerCurrency]: [stored] is [dataflow.value.priceUSDPerCurrency]
    (spreading [undefined] gives an object without fields), [fetches i] what
    the [i]-th request to the price API would do without the timeout. *)
Definition priceUSDPerCurrency `{Lib} (stored : option Price)
    (fetches : nat -> FetchBehaviour JsonOutcome) : Async Price :=
  let price := match stored with Some p => p | None => mkPrice _ None None None end in
  match result (rpcCall (fun i => fetchWithTimeout (Some priceTimeout) (fetches i))) with
  | Fulfilled None => Fulfilled price
  | Fulfilled (Some response) =>
      match response with
      | JsonResolves e m d => Fulfilled (mkPrice _ (keepNumber e) (keepNumber m) (keepNumber d))
      | JsonRejects => Fulfilled price
      | JsonHangs => Pending
      end
  | Rejected => Fulfilled price
  | Pending => Pending
  end.

(** The value of the [gasPriceNWCWEI] node: a BigNumber, or the Number that
    the gas-station branch assigns from [baseFee]. *)
Inductive GasPrice `{Lib} : Type :=
| GasPriceBig (z : Z)
| GasPriceNumber (n : Number).

(** What the request to the Polygon gas station does; [fetch] and [json()]
    are awaited as they are.  [GasStationAnswers maxFee baseFee] carries
    [Math.round(1.2 * res?.standard?.maxFee * 1e9)] and
    [Math.round(1.5 * res?.estimatedBaseFee * 1e9)]. *)
Inductive GasStation `{Lib} : Type :=
| GasStationAnswers (maxFee baseFee : Number)
| GasStationFails
| GasStationHangs.

(** [chainId === 137 || chainId === 80001] *)
Definition isPolygon (chainId : option Z) : bool :=
  match chainId with
  | Some c => ((c =? 137) || (c =? 80001))%bool
  | None => false
  end.

(** The body of the [try] once the answer is there.  With [gasPrice] set
    from [maxFee], a truthy [baseFee] leads to [baseFee.gt(maxFee)] on a
    Number, which throws; the [catch] keeps [gasPrice]. *)
Definition fromGasStation `{Lib} (maxFee baseFee : Number) : option GasPrice :=
  if truthyNumber maxFee then
    match bn_from maxFee with
    | Some z => Some (GasPriceBig z)
    | None => None
    end
  else if truthyNumber baseFee then Some (GasPriceNumber baseFee)
  else None.

(** [gasPriceNWCWEI]: [station] is what the gas-station request does and
    [getFeeData i] the [i]-th call of
    [(await provider.getFeeData())?.maxFeePerGas]. *)
Definition gasPriceNWCWEI `{Lib} (provider : option nat) (chainId : option Z)
    (station : GasStation) (getFeeData : nat -> Attempt Z) : Async (option GasPrice) :=
  let fromProvider (gasPrice : option GasPrice) : Async (option GasPrice) :=
    match gasPrice, provider with
    | None, Some _ =>
        match result (rpcCall getFeeData) with
        | Fulfilled (Some g) =>
            Fulfilled (Some (GasPriceBig (if isPolygon chainId then g * 2 else g)))
        | Fulfilled None => Fulfilled None
        | Rejected => Rejected
        | Pending => Pending
        end
    | _, _ => Fulfilled gasPrice
    end in
  if isPolygon chainId then
    match station with
    | GasStationAnswers maxFee baseFee => fromProvider (fromGasStation maxFee baseFee)
    | GasStationFails => fromProvider None
    | GasStationHangs => Pending
    end
  else fromProvider None.

(** The module-level [currAllowBuying] and [currAllowMinting]. *)
Record AllowFlags : Type := mkAllowFlags {
  currAllowBuying : bool;
  currAllowMinting : bool
}.

Definition initialFlags : AllowFlags := mkAllowFlags true true.

Definition orTrue (o : option bool) : bool :=
  match o with None => true | Some b => b end.

(** [constrainBuyMintCheckboxes]: the batch passed to [dataflow.set] and the
    module-level flags afterwards. *)
Definition constrainBuyMintCheckboxes (allowBuying allowMinting : option bool)
    (flags : AllowFlags) : Batch * AllowFlags :=
  let ab := orTrue allowBuying in
  let am := orTrue allowMinting in
  let '(ab, am) :=
    if (Bool.eqb ab false && Bool.eqb am false)%bool
    then (negb (currAllowBuying flags), negb (currAllowMinting flags))
    else (ab, am) in
  ([("allowBuying", VBool ab); ("allowMinting", VBool am)], mkAllowFlags ab am).

(** [updateListPriceUI]: the [dataflow.set] calls it makes, in order. *)
Definition updateListPriceUI `{Lib} (listPrice_in : option string)
    (contractVals : option ContractVals) : list Batch :=
  match listPrice_in, contractVals with
  | Some s, Some cv =>
      if String.eqb (trim s) "" then
        let listPrice := formatPrice (Some (mintPriceNWCPerDUBLR_x1e9 cv)) in
        [ [("listPrice_out", VUndef); ("listPrice_in", VUndef)];
          [("listPrice_out", VStr listPrice); ("listPrice_in", VStr listPrice)] ]
      else []
  | _, _ => []
  end.

(** The value [estimateGas] returns. *)
Record GasEst : Type := mkGasEst {
  gasEstRaw : option Z;
  gasEstNWCWEI : option Z;
  warningText : string
}.

(** A gas limit is a BigNumber or the Number [2e7]. *)
Inductive GasLimit : Type :=
| GasBig (z : Z)
| GasNum (z : Z).

Definition truthy_gasLimit (g : GasLimit) : bool :=
  match g with
  | GasBig _ => true
  | GasNum z => negb (z =? 0)
  end.

(** [est?.gasEstRaw || contractVals?.blockGasLimit || 2e7] *)
Definition gasLimitOf (est : option GasEst) (contractVals : option ContractVals) : GasLimit :=
  match est with
  | Some {| gasEstRaw := Some g |} => GasBig g
  | _ =>
      match contractVals with
      | Some {| blockGasLimit := Some b |} => GasBig b
      | _ => GasNum 20000000
      end
  end.

(** [bigNum.lte(0)] and [bigNum.lt(0)] behind a [!bigNum ||] guard. *)
Definition missing_or (test : Z -> bool) (o : option Z) : bool :=
  match o with None => true | Some z => test z end.

Record BuyParams `{Lib} : Type := mkBuyParams {
  bp_dublr : Contract;
  bp_buyAmountNWCWEI : Z;
  bp_minimumTokensToBuyOrMintDUBLRWEI : Z;
  bp_allowBuying : bool;
  bp_allowMinting : bool;
  bp_gasPriceNWCWEI : option Z;
  bp_networkCurrency : option string;
  bp_priceUSDPerCurrency : option Price
}.

(** The [disabled] flag of [buyButtonParams]. *)
Definition buyDisabled (dublr : option Contract) (contractVals : option ContractVals)
    (buyAmountNWCWEI minimumTokensToBuyOrMintDUBLRWEI amountBoughtEstDUBLRWEI : option Z)
    (allowBuying allowMinting : option bool) (buyGasEst : option GasEst)
    (termsBuy_in : option bool) : bool :=
  let gasLimit := gasLimitOf buyGasEst contractVals in
  (negb (truthy_obj dublr)
   || match contractVals with
      | None => true
      | Some cv => negb (buyingEnabled cv) && negb (mintingEnabled cv)
      end
   || match allowBuying, allowMinting with
      | Some ab, Some am => negb ab && negb am
      | _, _ => true
      end
   || missing_or (fun z => z <=? 0) buyAmountNWCWEI
   || missing_or (fun z => z <=? 0) amountBoughtEstDUBLRWEI
   || missing_or (fun z => z <? 0) minimumTokensToBuyOrMintDUBLRWEI
   || match buyGasEst with
      | Some est => negb (String.eqb (warningText est) "")
      | None => false
      end
   || negb (truthy_gasLimit gasLimit)
   || negb (truthy_bool termsBuy_in))%bool.

Definition buyButtonParams `{Lib} (dublr : option Contract) (contractVals : option ContractVals)
    (buyAmountNWCWEI minimumTokensToBuyOrMintDUBLRWEI amountBoughtEstDUBLRWEI : option Z)
    (allowBuying allowMinting : option bool) (buyGasEst : option GasEst)
    (gasPriceNWCWEI : option Z) (networkCurrency : option string)
    (priceUSDPerCurrency : option Price) (termsBuy_in : option bool) : option BuyParams :=
  if buyDisabled dublr contractVals buyAmountNWCWEI minimumTokensToBuyOrMintDUBLRWEI
       amountBoughtEstDUBLRWEI allowBuying allowMinting buyGasEst termsBuy_in
  then None
  else
    match dublr, buyAmountNWCWEI, minimumTokensToBuyOrMintDUBLRWEI, allowBuying, allowMinting with
    | Some d, Some amt, Some minTok, Some ab, Some am =>
        Some (mkBuyParams _ d amt minTok ab am gasPriceNWCWEI networkCurrency priceUSDPerCurrency)
    | _, _, _, _, _ => None
    end.

(** [buyButtonEnablement]: the batch passed to [dataflow.set]. *)
Definition buyButtonEnablement `{Lib} (buyButtonParams : option BuyParams)
    (buyTransactionPending : option bool) : Batch :=
  [("buyButtonDisabled_out",
    VBool (negb (truthy_obj buyButtonParams) || truthy_bool buyTransactionPending))].

(** An entry of the [orderbook] node: a sell order, or the extra row that
    shows the mint price. *)
Record BookEntry : Type := mkBookEntry {
  be_priceNWCPerDUBLR_x1e9 : Z;
  be_amountDUBLRWEI : Z;
  isMintPriceEntry : bool
}.

(** The local variables of the [buy()] simulation in
    [amountBoughtEstDUBLRWEI].  [ownSellOrder] records whether the variable
    of that name has been assigned.  The HTML of the execution plan
    ([result], [tableRows]) is not modelled. *)
Record Sim : Type := mkSim {
  buyOrderRemainingNWCWEI : Z;
  totBoughtOrMintedDUBLRWEI : Z;
  totSpentNWCWEI : Z;
  orderbookCopy : list BookEntry;
  ownSellOrder : bool;
  skipMinting : bool;
  skippedBuying : bool;
  numBought : nat
}.

Definition initSim (buyAmountNWCWEI : Z) (orderbook : list BookEntry) : Sim :=
  mkSim buyAmountNWCWEI 0 0 orderbook false false true 0.

(** One evaluation of the [while] condition and, when it holds, of the
    loop body. *)
Inductive Step : Type :=
| Continue (s : Sim)   (* the body ran to its end or to a [continue] *)
| Stop (s : Sim)       (* the condition failed, or the body hit [break] *)
| Crash.               (* BigNumber division by zero *)

Definition isOwnOrder (cv : ContractVals) (s : Sim) (sellOrder : BookEntry) : bool :=
  (negb (ownSellOrder s)
   && negb (amountDUBLRWEI (mySellOrder cv) =? 0)
   && (priceNWCPerDUBLR_x1e9 (mySellOrder cv) =? be_priceNWCPerDUBLR_x1e9 sellOrder)
   && (amountDUBLRWEI (mySellOrder cv) =? be_amountDUBLRWEI sellOrder))%bool.

Definition buyStep (cv : ContractVals) (allowBuying : bool) (s : Sim) : Step :=
  match orderbookCopy s with
  | sellOrder :: rest =>
      if (buyingEnabled cv && allowBuying && (0 <? buyOrderRemainingNWCWEI s))%bool then
        if isMintPriceEntry sellOrder then
          Continue (mkSim (buyOrderRemainingNWCWEI s) (totBoughtOrMintedDUBLRWEI s)
                      (totSpentNWCWEI s) rest (ownSellOrder s) (skipMinting s) false (numBought s))
        else if isOwnOrder cv s sellOrder then
          Continue (mkSim (buyOrderRemainingNWCWEI s) (totBoughtOrMintedDUBLRWEI s)
                      (totSpentNWCWEI s) rest true (skipMinting s) false (numBought s))
        else if ((0 <? mintPriceNWCPerDUBLR_x1e9 cv)
                 && (mintPriceNWCPerDUBLR_x1e9 cv <? be_priceNWCPerDUBLR_x1e9 sellOrder))%bool then
          Stop (mkSim (buyOrderRemainingNWCWEI s) (totBoughtOrMintedDUBLRWEI s)
                  (totSpentNWCWEI s) (orderbookCopy s) (ownSellOrder s) (skipMinting s) false
                  (numBought s))
        else
          match ethToDublr (be_priceNWCPerDUBLR_x1e9 sellOrder) (buyOrderRemainingNWCWEI s) with
          | Throws => Crash
          | Normal amountBuyerCanAfford =>
              if amountBuyerCanAfford =? 0 then
                Stop (mkSim (buyOrderRemainingNWCWEI s) (totBoughtOrMintedDUBLRWEI s)
                        (totSpentNWCWEI s) (orderbookCopy s) (ownSellOrder s) true false
                        (numBought s))
              else
                let amountToBuyDUBLRWEI :=
                  if be_amountDUBLRWEI sellOrder <? amountBuyerCanAfford
                  then be_amountDUBLRWEI sellOrder else amountBuyerCanAfford in
                let amountToChargeBuyerNWCWEI :=
                  dublrToEthRoundUpClamped (be_priceNWCPerDUBLR_x1e9 sellOrder)
                    amountToBuyDUBLRWEI (buyOrderRemainingNWCWEI s) in
                let sellOrderRemainingDUBLRWEI :=
                  be_amountDUBLRWEI sellOrder - amountToBuyDUBLRWEI in
                let book :=
                  if sellOrderRemainingDUBLRWEI =? 0 then rest
                  else mkBookEntry (be_priceNWCPerDUBLR_x1e9 sellOrder)
                         sellOrderRemainingDUBLRWEI (isMintPriceEntry sellOrder) :: rest in
                Continue (mkSim (buyOrderRemainingNWCWEI s - amountToChargeBuyerNWCWEI)
                            (totBoughtOrMintedDUBLRWEI s + amountToBuyDUBLRWEI)
                            (totSpentNWCWEI s + amountToChargeBuyerNWCWEI)
                            book (ownSellOrder s) (skipMinting s) false (S (numBought s)))
          end
      else Stop s
  | [] => Stop s
  end.

(** The [while] loop, cut after [fuel] iterations ([None]). *)
Fixpoint buyLoop (cv : ContractVals) (allowBuying : bool) (fuel : nat) (s : Sim)
    : option (Completion Sim) :=
  match fuel with
  | O => None
  | S fuel' =>
      match buyStep cv allowBuying s with
      | Continue s' => buyLoop cv allowBuying fuel' s'
      | Stop s' => Some (Normal s')
      | Crash => Some Throws
      end
  end.

(** The states at the start of each of the first [n] iterations and the
    state the loop is in after them. *)
Fixpoint buyTrace (cv : ContractVals) (allowBuying : bool) (n : nat) (s : Sim) : list Sim :=
  s :: match n with
       | O => []
       | S n' =>
           match buyStep cv allowBuying s with
           | Continue s' => buyTrace cv allowBuying n' s'
           | Stop s' => [s']
           | Crash => []
           end
       end.

(** The minting branch that follows the loop. *)
Definition mintStep (cv : ContractVals) (allowMinting : bool) (s : Sim) : Completion Sim :=
  if (mintingEnabled cv && allowMinting && negb (skipMinting s)
      && (0 <? mintPriceNWCPerDUBLR_x1e9 cv) && (0 <? buyOrderRemainingNWCWEI s))%bool then
    match ethToDublr (mintPriceNWCPerDUBLR_x1e9 cv) (buyOrderRemainingNWCWEI s) with
    | Throws => Throws
    | Normal amountToMintDUBLRWEI =>
        let amountToMintNWCWEI :=
          dublrToEthRoundUpClamped (mintPriceNWCPerDUBLR_x1e9 cv) amountToMintDUBLRWEI
            (buyOrderRemainingNWCWEI s) in
        if 0 <? amountToMintDUBLRWEI then
          Normal (mkSim (buyOrderRemainingNWCWEI s - amountToMintNWCWEI)
                    (totBoughtOrMintedDUBLRWEI s + amountToMintDUBLRWEI)
                    (totSpentNWCWEI s + amountToMintNWCWEI)
                    (orderbookCopy s) (ownSellOrder s) (skipMinting s) (skippedBuying s)
                    (numBought s))
        else Normal s
    end
  else Normal s.

(** What [amountBoughtEstDUBLRWEI] computes from the final state: the
    summary rows, the side write and the return value. *)
Record Estimate : Type := mkEstimate {
  totalToSpendNWCWEI : Z;
  refundedChangeNWCWEI : Z;
  amountBought : Z;
  minimumTokensToBuyOrMintDUBLRWEI : Z;
  finalSim : Sim
}.

Definition summarize (buyAmountNWCWEI maxSlippageFrac_x1e9 : Z) (s : Sim) : Estimate :=
  mkEstimate (buyAmountNWCWEI - buyOrderRemainingNWCWEI s)
    (buyOrderRemainingNWCWEI s)
    (totBoughtOrMintedDUBLRWEI s)
    (Z.quot (totBoughtOrMintedDUBLRWEI s * maxSlippageFrac_x1e9) e9)
    s.

(** [amountBoughtEstDUBLRWEI]: [None] when [fuel] iterations do not finish
    the loop; [Normal None] is the early [return undefined]. *)
Definition amountBoughtEstDUBLRWEI (fuel : nat) (contractVals : option ContractVals)
    (buyAmountNWCWEI : option Z) (allowBuying allowMinting : option bool)
    (orderbook : option (list BookEntry)) (maxSlippageFrac_x1e9 : option Z)
    : option (Completion (option Estimate)) :=
  match contractVals, buyAmountNWCWEI, allowBuying, allowMinting, orderbook, maxSlippageFrac_x1e9 with
  | Some cv, Some amt, Some ab, Some am, Some book, Some slip =>
      if (negb ab && negb am)%bool then Some (Normal None)
      else
        match buyLoop cv ab fuel (initSim amt book) with
        | None => None
        | Some Throws => Some Throws
        | Some (Normal s) =>
            match mintStep cv am s with
            | Throws => Some Throws
            | Normal s' => Some (Normal (Some (summarize amt slip s')))
            end
        end
  | _, _, _, _, _, _ => Some (Normal None)
  end.

End Nodes.

(* ================================================================== *)
(** * idb.js: the persistent preference store *)
(* ================================================================== *)

Module Idb.

(** What a call into [idb-keyval] does: its promise resolves or rejects.
    ([get] and [set] are asynchronous functions of that library; a failure
    of the storage shows as a rejection.) *)
Inductive Outcome (A : Type) : Type :=
| Succeeds (v : A)
| FailsWith (e : JsError).
Arguments Succeeds {A} v.
Arguments FailsWith {A} e.

(** The lines written to the console, in order. *)
Inductive LogLine : Type :=
| LogNotWorking (e : JsError)            (* "IndexdDB isn't working:", e *)
| LogGet (key : string) (val : Val)      (* "idbGet(key) = val" *)
| LogSet (key : string) (val : Val).     (* "idbSet(key, val)" *)

(** [idbGet(key, valOnFailure)]: [get key] is what [get(key)] of the
    library does, [debug] the flag [window.DEBUG_IDB]. *)
Definition idbGet (debug : bool) (get : string -> Outcome Val)
    (key : string) (valOnFailure : Val) : Async Val * list LogLine :=
  let '(val, log) :=
    match get key with
    | Succeeds v => (v, [])
    | FailsWith e => (valOnFailure, [LogNotWorking e])
    end in
  (Fulfilled val, (log ++ (if debug then [LogGet key val] else []))%list).

(** [idbSet(key, val)]: the promise of [set(key, val)] is not awaited; its
    rejection handler runs after the body has finished. *)
Definition idbSet (debug : bool) (set : string -> Val -> Outcome unit)
    (key : string) (val : Val) : Async unit * list LogLine :=
  (Fulfilled tt,
   ((if debug then [LogSet key val] else [])
    ++ match set key val with
       | Succeeds _ => []
       | FailsWith e => [LogNotWorking e]
       end)%list).

End Idb.

(* ================================================================== *)
(** * wallet.js: wallet-provider events *)
(* ================================================================== *)

Module Wallet.

(** The module-level [chainIdInt]: unset, a number, or the object
    [new Number(str)]. *)
Inductive ChainIdInt : Type :=
| ChainUndef
| ChainNum (z : Z)
| ChainNumberObject (str : string).

(** The module-level variables of [wallet.js]. *)
Record State : Type := mkState {
  web3ModalProvider : option nat;
  walletAddr : option string;
  chainIdInt : ChainIdInt
}.

(** What a handler does to the world outside the module. *)
Inductive Effect : Type :=
| DataflowSet (b : Batch)                 (* dataflow.set(b) *)
| Reload                                  (* window.location.reload() *)
| DetachListeners                         (* removeAllListeners(), or off(...), where the provider has them *)
| CloseProvider                           (* the three close/disconnect attempts, each in its own try *)
| ClearCachedProvider                     (* web3Modal.clearCachedProvider() *)
| IdbSet (key : string) (val : Val)       (* idbSet(key, val) *)
| MakeConnectButton.

(** The wallet: what [request({method: "eth_accounts"})] answers
    ([Normal None] is [undefined], [Throws] a rejection). *)
Record Provider : Type := mkProvider {
  eth_accounts : Completion (option (list string))
}.

(** Handlers run in a state-and-effects monad with exceptions; the promises
    they await (of the wallet, the dataflow core and the preference store)
    settle. *)
Definition M (A : Type) : Type := State -> Completion A * State * list Effect.

Definition ret {A : Type} (a : A) : M A := fun s => (Normal a, s, []).

Definition bind {A B : Type} (m : M A) (k : A -> M B) : M B :=
  fun s =>
    match m s with
    | (Normal a, s', out) =>
        let '(r, s'', out') := k a s' in (r, s'', (out ++ out')%list)
    | (Throws, s', out) => (Throws, s', out)
    end.

Definition throw {A : Type} : M A := fun s => (Throws, s, []).

(** [try { m } catch (e) { h }] *)
Definition try_catch {A : Type} (m : M A) (h : M A) : M A :=
  fun s =>
    match m s with
    | (Normal a, s', out) => (Normal a, s', out)
    | (Throws, s', out) => let '(r, s'', out') := h s' in (r, s'', (out ++ out')%list)
    end.

Definition emit (e : Effect) : M unit := fun s => (Normal tt, s, [e]).
Definition read : M State := fun s => (Normal s, s, []).
Definition modify (f : State -> State) : M unit := fun s => (Normal tt, f s, []).

(** Settling of an awaited promise. *)
Definition await {A : Type} (c : Completion A) : M A := fun s => (c, s, []).

Notation "'let*' x ':=' m 'in' k" := (bind m (fun x => k))
  (at level 10, x name, m at level 100, k at level 200).
Notation "'exec' m 'then' k" := (bind m (fun _ => k))
  (at level 10, m at level 100, k at level 200).

Definition setProvider (p : option nat) : M unit :=
  modify (fun s => mkState p (walletAddr s) (chainIdInt s)).
Definition setWalletAddr (w : option string) : M unit :=
  modify (fun s => mkState (web3ModalProvider s) w (chainIdInt s)).
Definition setChainIdInt (c : ChainIdInt) : M unit :=
  modify (fun s => mkState (web3ModalProvider s) (walletAddr s) c).

Definition getAccounts (P : Provider) : M (option (list string)) :=
  try_catch
    (let* s := read in
     match web3ModalProvider s with
     | Some _ => await (eth_accounts P)
     | None => ret None
     end)
    (ret None).

(** [ac && ac.length > 0 ? ac[0] : undefined] *)
Definition firstAccount (ac : option (list string)) : option string :=
  match ac with
  | Some (a :: _) => Some a
  | _ => None
  end.

Definition getWallet (P : Provider) (accounts : option (list string)) : M (option string) :=
  let* ac := match accounts with
             | None => getAccounts P
             | Some a => ret (Some a)
             end in
  exec setWalletAddr (firstAccount ac) then
  exec emit (DataflowSet [("wallet", of_str (firstAccount ac))]) then
  ret (firstAccount ac).

Definition makeConnectButton : M unit := emit MakeConnectButton.

Definition disconnectFromProvider : M unit :=
  let* s := read in
  exec match web3ModalProvider s with
      | Some _ => exec emit DetachListeners then emit CloseProvider
      | None => ret tt
      end then
  exec setProvider None then
  exec setWalletAddr None then
  exec setChainIdInt ChainUndef then
  emit (DataflowSet [("web3ModalProvider", VUndef); ("chainId", VUndef); ("wallet", VUndef)]).

Definition onDisconnectClick : M unit :=
  exec disconnectFromProvider then
  exec emit ClearCachedProvider then
  exec emit (IdbSet "walletConnected" (VBool false)) then
  makeConnectButton.

Definition onAccountsChanged (P : Provider) (accounts : option (list string)) : M unit :=
  let* w := match accounts with
            | None => ret None
            | Some a => getWallet P (Some a)
            end in
  exec setWalletAddr w then
  exec emit (DataflowSet [("wallet", of_str w)]) then
  match w with
  | None => onDisconnectClick
  | Some _ => ret tt
  end.

(** [chainId.toString()] throws on a missing argument. *)
Definition onChainChanged (chainId : option string) : M unit :=
  match chainId with
  | None => throw
  | Some c => exec setChainIdInt (ChainNumberObject c) then emit Reload
  end.

(** [onConnect]: after [getWallet()] the body assigns to [chainIdInt], which
    the next line declares with [const] in the same function body; the
    binding is not initialised yet and the assignment throws a
    ReferenceError, so the [dataflow.set] that follows is not reached. *)
Definition onConnect (P : Provider) : M unit :=
  let* w := getWallet P None in
  exec setWalletAddr w then
  throw.

Definition onDisconnect : M unit :=
  exec setWalletAddr None then
  exec setChainIdInt ChainUndef then
  exec emit (DataflowSet [("chainId", VUndef); ("wallet", VUndef)]) then
  onDisconnectClick.

(** The events of the wallet provider, with the handlers
    [onConnectToProvider] registers for them. *)
Inductive ProviderEvent : Type :=
| accountsChanged (accounts : option (list string))
| chainChanged (chainId : option string)
| connect
| disconnect.

Definition handle (P : Provider) (ev : ProviderEvent) : M unit :=
  match ev with
  | accountsChanged accounts => onAccountsChanged P accounts
  | chainChanged chainId => onChainChanged chainId
  | connect => onConnect P
  | disconnect => onDisconnect
  end.

(** The effects of handling one event. *)
Definition effectsOf (P : Provider) (ev : ProviderEvent) (s : State) : list Effect :=
  snd (handle P ev s).

(** The batches passed to [dataflow.set], in order. *)
Definition writesOf (out : list Effect) : list Batch :=
  flat_map (fun e => match e with DataflowSet b => [b] | _ => [] end) out.

(** Whether some [dataflow.set] call assigns the node [name]. *)
Definition writesNode (name : string) (out : list Effect) : bool :=
  existsb (fun b => existsb (fun kv => String.eqb (fst kv) name) b) (writesOf out).

End Wallet.

(* ================================================================== *)
(** * The dataflow core *)
(* ================================================================== *)

Module Core.

(** Modelled from the spec: a Value Store entry of [dataflow-lib.js] (the
    file is imported by the sources but is not part of them), the pair of a
    node's value and its generation counter. *)
Record Entry : Type := mkEntry {
  value : Val;
  generation : nat
}.

(** Modelled from the spec: the Value Store of [dataflow-lib.js], one entry
    per node that has been written. *)
Abbreviation Store := (gmap string Entry).

(** Modelled from the spec: [get(name)] of [dataflow-lib.js]; a node that
    was never written holds [undefined]. *)
Definition get (store : Store) (name : string) : Val :=
  match store !! name with
  | Some e => value e
  | None => VUndef
  end.

(** Modelled from the spec: the generation counter of a node in the Value
    Store of [dataflow-lib.js], zero before the first replacement. *)
Definition generationOf (store : Store) (name : string) : nat :=
  match store !! name with
  | Some e => generation e
  | None => O
  end.

(** Modelled from the spec: the per-field step of [write] in
    [dataflow-lib.js]: an equal value is skipped, a different one replaces
    the stored value, increments the generation and marks the node changed. *)
Definition writeField (acc : Store * list string) (kv : string * Val)
    : Store * list string :=
  let store := fst acc in
  if decide (get store (fst kv) = snd kv) then acc
  else (<[fst kv := mkEntry (snd kv) (S (generationOf store (fst kv)))]> store,
        (snd acc ++ [fst kv])%list).

(** Modelled from the spec: [write(partialMapping)] / [dataflow.set] of
    [dataflow-lib.js]: the new store and the names of the changed nodes. *)
Definition write (b : Batch) (store : Store) : Store * list string :=
  fold_left writeField b (store, []).

(** Modelled from the spec: the Graph Registry of [dataflow-lib.js], each
    Derived node with the names of its dependencies. *)
Definition Graph : Type := list (string * list string).

(** Modelled from the spec: the Derived nodes of [dataflow-lib.js]'s graph
    that depend directly on a node of [changed]. *)
Definition dependents (g : Graph) (changed : list string) : list string :=
  map fst (List.filter (fun nd => existsb (fun d => bool_decide (d ∈ changed)) (snd nd)) g).

(** Modelled from the spec: the propagation closure of [dataflow-lib.js],
    the nodes to recompute after the nodes of [changed] changed, found by
    following dependent edges for at most [fuel] rounds. *)
Fixpoint closure (g : Graph) (fuel : nat) (changed : list string) : list string :=
  match fuel with
  | O => []
  | S fuel' =>
      match dependents g changed with
      | [] => []
      | next => (next ++ closure g fuel' next)%list
      end
  end.

(** Modelled from the spec: the nodes [dataflow-lib.js] recomputes after a
    write; a graph of [n] nodes is exhausted after [n] rounds. *)
Definition triggered (g : Graph) (changed : list string) : list string :=
  closure g (length g) changed.

(** Modelled from the spec: the Scheduler and Guard state of
    [dataflow-lib.js]: the Value Store, the pass-generation counter, and the
    record of the commits made, each with the pass it belongs to. *)
Record Sched : Type := mkSched {
  store : Store;
  currentPass : nat;
  commits : list (nat * string * Val)
}.

(** Modelled from the spec: what happens to the Scheduler of
    [dataflow-lib.js]: an external write arrives, or the compute function
    that pass [pass] started for [node] resolves with [v]. *)
Inductive Event : Type :=
| ExternalWrite (b : Batch)
| ComputeResolved (pass : nat) (node : string) (v : Val).

(** Modelled from the spec: one transition of the Scheduler of
    [dataflow-lib.js].  An external write that changes a node starts a new
    pass, which supersedes the pass in flight; a resolved computation is
    committed only when its pass is still the current one. *)
Definition step (s : Sched) (e : Event) : Sched :=
  match e with
  | ExternalWrite b =>
      match write b (store s) with
      | (_, []) => s
      | (store', _) => mkSched store' (S (currentPass s)) (commits s)
      end
  | ComputeResolved pass node v =>
      if (pass =? currentPass s)%nat
      then mkSched (fst (write [(node, v)] (store s))) (currentPass s)
             (commits s ++ [(pass, node, v)])%list
      else s
  end.

(** Modelled from the spec: the Scheduler of [dataflow-lib.js] after a
    sequence of events. *)
Definition runEvents (s : Sched) (evs : list Event) : Sched :=
  fold_left step evs s.

(** Modelled from the spec: the commits [dataflow-lib.js] made on behalf of
    pass [pass]. *)
Definition commitsOf (pass : nat) (s : Sched) : list (nat * string * Val) :=
  List.filter (fun c => (fst (fst c) =? pass)%nat) (commits s).

(** Modelled from the spec: pass [pass] of [dataflow-lib.js] is superseded
    once a later pass has been started. *)
Definition superseded (pass : nat) (s : Sched) : Prop :=
  (pass < currentPass s)%nat.

(** Modelled from the spec: a sequence of [dataflow.set] calls handed to
    [dataflow-lib.js] one after the other. *)
Definition writeAll (bs : list Batch) (store : Store) : Store :=
  fold_left (fun st b => fst (write b st)) bs store.

End Core.

(* ================================================================== *)
(** * Vocabulary of the properties *)
(* ================================================================== *)

Module Vocab.
Import Format Rpc Nodes.

(** The value an object literal of [dataflow.set] gives to [name]. *)
Definition written (name : string) (b : Batch) : option Val :=
  match List.find (fun kv => String.eqb (fst kv) name) b with
  | Some kv => Some (snd kv)
  | None => None
  end.

(** The delays of an exponential backoff that starts at [delay] and
    multiplies by [factor], for [k] sleeps. *)
Definition backoff (delay factor : Z) (k : nat) : list Z :=
  map (fun j => delay * factor ^ Z.of_nat j) (seq 0 k).

(** The inputs of [buyButtonParams] and [buyButtonEnablement]. *)
Record BuyInputs `{Lib} : Type := mkBuyInputs {
  in_dublr : option Contract;
  in_contractVals : option ContractVals;
  in_buyAmountNWCWEI : option Z;
  in_minimumTokens : option Z;
  in_amountBoughtEst : option Z;
  in_allowBuying : option bool;
  in_allowMinting : option bool;
  in_buyGasEst : option GasEst;
  in_gasPriceNWCWEI : option Z;
  in_networkCurrency : option string;
  in_priceUSDPerCurrency : option Price;
  in_termsBuy : option bool;
  in_buyTransactionPending : option bool
}.

(** The value the two nodes write to [buyButtonDisabled_out]. *)
Definition buyButtonDisabled_out `{Lib} (i : BuyInputs) : option Val :=
  written "buyButtonDisabled_out"
    (buyButtonEnablement
       (buyButtonParams (in_dublr i) (in_contractVals i) (in_buyAmountNWCWEI i)
          (in_minimumTokens i) (in_amountBoughtEst i) (in_allowBuying i)
          (in_allowMinting i) (in_buyGasEst i) (in_gasPriceNWCWEI i)
          (in_networkCurrency i) (in_priceUSDPerCurrency i) (in_termsBuy i))
       (in_buyTransactionPending i)).

Definition positive (o : option Z) : bool :=
  match o with Some z => 0 <? z | None => false end.

Definition noWarning (est : option GasEst) : bool :=
  match est with Some e => String.eqb (warningText e) "" | None => true end.

(** The requirements the buy button is documented to wait for: the
    contract, a positive amount, a positive simulated purchase, no gas
    warning, the terms accepted, no buy transaction pending. *)
Definition listedRequirements `{Lib} (i : BuyInputs) : bool :=
  (truthy_obj (in_dublr i)
   && positive (in_buyAmountNWCWEI i)
   && positive (in_amountBoughtEst i)
   && noWarning (in_buyGasEst i)
   && truthy_bool (in_termsBuy i)
   && negb (truthy_bool (in_buyTransactionPending i)))%bool.

(** The requirements [buyButtonParams] checks besides: the contract values
    with buying or minting enabled on the exchange, both checkboxes known
    and one of them checked, and a minimum number of tokens that is known
    and not negative. *)
Definition furtherRequirements `{Lib} (i : BuyInputs) : bool :=
  (match in_contractVals i with
   | Some cv => buyingEnabled cv || mintingEnabled cv
   | None => false
   end
   && match in_allowBuying i, in_allowMinting i with
      | Some ab, Some am => ab || am
      | _, _ => false
      end
   && match in_minimumTokens i with
      | Some z => 0 <=? z
      | None => false
      end)%bool.

(** Funds are conserved in a state of the [buy()] simulation. *)
Definition conserved (buyAmountNWCWEI : Z) (s : Sim) : Prop :=
  totSpentNWCWEI s + buyOrderRemainingNWCWEI s = buyAmountNWCWEI
  /\ 0 <= buyOrderRemainingNWCWEI s.

(** Sell orders as the contract keeps them: a positive price and an amount
    that is not negative (the mint-price row is skipped by the loop). *)
Definition wellFormedEntry (e : BookEntry) : Prop :=
  isMintPriceEntry e = true
  \/ (0 < be_priceNWCPerDUBLR_x1e9 e /\ 0 <= be_amountDUBLRWEI e).

Definition wellFormedBook (book : list BookEntry) : Prop :=
  Forall wellFormedEntry book.

(** What holds of a run of the loop that is entered with counter [i]
    after [min i 4] sleeps. *)
Definition run_ok {A : Type} (promiseFn : nat -> Attempt A) (i : nat) (r : Run A) : Prop :=
  (i <= attempts r <= numRetries)%nat
  /\ sleeps r = backoff initialDelay expBackoff (Nat.min (attempts r - 1) 4)
  /\ result r <> Rejected
  /\ ((forall j, (i <= j < attempts r)%nat -> promiseFn j <> NeverSettles) ->
      exists v, result r = Fulfilled v)
  /\ (forall e, promiseFn (attempts r - 1)%nat = Fails e -> result r = Fulfilled None).

(** The head order can no longer be afforded, not even one unit of it. *)
Definition exhausted (s : Sim) : bool :=
  match orderbookCopy s with
  | e :: _ =>
      (negb (isMintPriceEntry e)
       && (buyOrderRemainingNWCWEI s * e9 <? be_priceNWCPerDUBLR_x1e9 e))%bool
  | [] => false
  end.

(** Two iterations per order at most: one that fills it in part and leaves
    the funds exhausted, one that leaves the loop or drops the order. *)
Definition iterationsLeft (s : Sim) : nat :=
  2 * length (orderbookCopy s) + (if exhausted s then 0 else 1).

Definition wellFormedSim (s : Sim) : Prop :=
  wellFormedBook (orderbookCopy s) /\ 0 <= buyOrderRemainingNWCWEI s.

End Vocab.

(* ================================================================== *)
(** * dataflow-nodes.js: the orderbook node and the tables *)
(* ================================================================== *)

Module Book.
Import Format Nodes.

(** Sequencing of code that may throw. *)
Definition andThen {A B : Type} (c : Completion A) (k : A -> Completion B) : Completion B :=
  match c with
  | Normal a => k a
  | Throws => Throws
  end.

(** The rows of [makeSubTable], one per key and value. *)
Fixpoint subTableRows (keys values : list string) : string :=
  match keys, values with
  | key :: keys', value :: values' =>
      "<tr>" +:+ "<td class='num-label'>" +:+ key +:+ "</td>"
      +:+ "<td class='num'>" +:+ value +:+ "</td>" +:+ "</tr>"
      +:+ subTableRows keys' values'
  | _, _ => ""
  end.

(** [makeSubTable(keys, values)]: throws when the two arrays differ in
    length. *)
Definition makeSubTable (keys values : list string) : Completion string :=
  if negb (length keys =? length values)%nat then Throws
  else Normal ("<table class='no-bg' style='margin-left: auto; margin-right: auto;'>"
               +:+ "<tbody>" +:+ subTableRows keys values +:+ "</tbody>" +:+ "</table>").

(** An entry of the array the [orderbook] node returns. *)
Record Row : Type := mkRow {
  row_priceNWCPerDUBLR_x1e9 : Z;
  row_amountDUBLRWEI : Z;
  cumulAmountDUBLRWEI : Z;
  row_isMintPriceEntry : bool;
  html : string
}.

(** The entry as the [buy()] simulation reads it. *)
Definition entryOf (r : Row) : BookEntry :=
  mkBookEntry (row_priceNWCPerDUBLR_x1e9 r) (row_amountDUBLRWEI r) (row_isMintPriceEntry r).

(** [formatPrice(price) + " " + networkCurrency + " per DUBLR"] *)
Definition priceLabel `{Lib} (price : Z) (networkCurrency : option string) : string :=
  formatPrice (Some price) +:+ " " +:+ str_or_undefined networkCurrency +:+ " per DUBLR".

(** The row pushed for a sell order. *)
Definition sellOrderRow `{Lib} (sellOrder : SellOrder) (valueNWCWEI cumulValueNWCWEI cumulAmount : Z)
    (networkCurrency : option string) (prices : option Price) : Completion Row :=
  andThen (weiToDisplay (Some (amountDUBLRWEI sellOrder)) (Some "DUBLR") prices) (fun amount =>
  andThen (weiToDisplay (Some cumulAmount) (Some "DUBLR") prices) (fun cumul =>
  andThen (weiToDisplay (Some valueNWCWEI) networkCurrency prices) (fun value =>
  andThen (weiToDisplay (Some cumulValueNWCWEI) networkCurrency prices) (fun cumulValue =>
  andThen (makeSubTable
             ["Price:"; "Amount:"; "Cumul amount:"; "Value:"; "Cumul value:"]
             [priceLabel (priceNWCPerDUBLR_x1e9 sellOrder) networkCurrency;
              amount; cumul; value; cumulValue]) (fun table =>
  Normal (mkRow (priceNWCPerDUBLR_x1e9 sellOrder) (amountDUBLRWEI sellOrder)
            cumulAmount false table)))))).

(** The extra row pushed for the mint price. *)
Definition mintPriceRow `{Lib} (mintPrice cumulAmount : Z)
    (networkCurrency : option string) : Completion Row :=
  andThen (makeSubTable
             ["<span style='color: #e0403f;'>Current mint price:</span>"]
             ["<span style='color: #e0403f;'>" +:+ priceLabel mintPrice networkCurrency
              +:+ "</span>"]) (fun table =>
  Normal (mkRow mintPrice 0 cumulAmount true table)).

(** The test that decides whether the mint price row goes between the
    entry at [idx] ([prev], none for [idx === -1]) and the one at [idx + 1]
    ([next], none past the end). *)
Definition mintRowHere (mintPrice : Z) (prev next : option SellOrder) : bool :=
  (negb (mintPrice =? 0)
   && match prev with
      | None => true
      | Some e => priceNWCPerDUBLR_x1e9 e <=? mintPrice
      end
   && match next with
      | None => true
      | Some e => mintPrice <? priceNWCPerDUBLR_x1e9 e
      end)%bool.

(** The [for] loop of [orderbook] from the mint-price test of iteration
    [idx] on: [prev] is the entry at [idx], [rest] the entries after it. *)
Fixpoint orderbookLoop `{Lib} (mintPrice : Z) (networkCurrency : option string)
    (prices : option Price) (prev : option SellOrder) (rest : list SellOrder)
    (cumulValueNWCWEI cumulAmount : Z) : Completion (list Row) :=
  andThen (if mintRowHere mintPrice prev (List.hd_error rest)
           then andThen (mintPriceRow mintPrice cumulAmount networkCurrency)
                  (fun r => Normal [r])
           else Normal []) (fun mintRows =>
  match rest with
  | [] => Normal mintRows
  | sellOrder :: rest' =>
      let valueNWCWEI :=
        dublrToEth (priceNWCPerDUBLR_x1e9 sellOrder) (amountDUBLRWEI sellOrder) in
      let cumulValueNWCWEI := cumulValueNWCWEI + valueNWCWEI in
      let cumulAmount := cumulAmount + amountDUBLRWEI sellOrder in
      andThen (sellOrderRow sellOrder valueNWCWEI cumulValueNWCWEI cumulAmount
                 networkCurrency prices) (fun row =>
      andThen (orderbookLoop mintPrice networkCurrency prices (Some sellOrder) rest'
                 cumulValueNWCWEI cumulAmount) (fun rows =>
      Normal (mintRows ++ row :: rows)%list))
  end).

(** [orderbook]: [sortByPrice] is what [Array.prototype.sort] does with the
    comparator [(a, b) => a.price.lt(b.price) ? -1 : 1]. *)
Definition orderbook `{Lib} (sortByPrice : list SellOrder -> list SellOrder)
    (contractVals : option ContractVals) (networkCurrency : option string)
    (prices : option Price) : Completion (option (list Row)) :=
  match contractVals with
  | None => Normal None
  | Some cv =>
      match allSellOrders cv with
      | [] => Normal (Some [])
      | sellOrders =>
          andThen (orderbookLoop (mintPriceNWCPerDUBLR_x1e9 cv) networkCurrency prices
                     None (sortByPrice sellOrders) 0 0) (fun rows =>
          Normal (Some rows))
      end
  end.

(** The local constants [feeNWCWEI] and [sellValueLessFeeNWCWEI] of
    [updateSellTable] (and, under other names, of [updateMySellOrderTable]):
    the 0.15% fee and the value less the fee. *)
Definition feeNWCWEI (valueNWCWEI : Z) : Z := Z.quot (valueNWCWEI * 15) 10000.
Definition valueLessFeeNWCWEI (valueNWCWEI : Z) : Z := Z.quot (valueNWCWEI * 9985) 10000.

(** [updateSellTable]: the batch passed to [dataflow.set]. *)
Definition updateSellTable `{Lib} (listPriceNWCPerDUBLR_x1e9 sellAmountDUBLRWEI : option Z)
    (sellGasEst : option GasEst) (networkCurrency : option string)
    (prices : option Price) : Completion Batch :=
  match listPriceNWCPerDUBLR_x1e9, sellAmountDUBLRWEI with
  | Some listPrice, Some sellAmount =>
      let sellValueNWCWEI := dublrToEth listPrice sellAmount in
      andThen (match sellGasEst with
               | Some {| gasEstNWCWEI := Some g |} =>
                   weiToDisplay (Some g) networkCurrency prices
               | _ => Normal "(unknown)"
               end) (fun gasEst =>
      andThen (weiToDisplay (Some sellValueNWCWEI) networkCurrency prices) (fun gross =>
      andThen (weiToDisplay (Some (feeNWCWEI sellValueNWCWEI)) networkCurrency prices) (fun fee =>
      andThen (weiToDisplay (Some (valueLessFeeNWCWEI sellValueNWCWEI)) networkCurrency prices)
        (fun net =>
      andThen (makeSubTable
                 ["Gross value:"; "Fee (0.15%):"; "Net value:"; "Estimated gas to list:"]
                 [gross; fee; net; gasEst]) (fun sellValues =>
      Normal [("sellValues_out", VStr sellValues)])))))
  | _, _ => Normal [("sellValues_out", VStr "")]
  end.

End Book.

(* ================================================================== *)
(** * dataflow-nodes.js: validation of the form inputs *)
(* ================================================================== *)

Module Forms.
Import Format Nodes Book.

(** [ethers.utils.parseEther(str)], which the sources call but do not
    define; [None] when it throws. *)
Class Ethers : Type := {
  parseEther : string -> option Z
}.

(** [ethToWei(eth)]: the trimmed text decides whether anything is parsed,
    the text as typed is what is parsed. *)
Definition ethToWei `{Ethers} (eth : option string) : option Z :=
  match eth with
  | None => None
  | Some e => if String.eqb (trim e) "" then None else parseEther e
  end.

(** [networkCurrency ? networkCurrency : ""] *)
Definition currencyOrEmpty (networkCurrency : option string) : string :=
  if truthy_str networkCurrency then str_or_undefined networkCurrency else "".

(** What a validation node does: the batch of its [dataflow.set] and its
    return value, or an exception before either. *)
Definition Validated : Type := Completion (Batch * option Z).

(** [buyAmountNWCWEI] *)
Definition buyAmountNWCWEI `{Lib} `{Ethers} (buyAmount_in : option string)
    (contractVals : option ContractVals) (networkCurrency : option string)
    (prices : option Price) : Validated :=
  let finish (warningText : string) (amountNWCWEI : option Z) : Validated :=
    andThen (match amountNWCWEI with
             | Some a => weiToUSD a networkCurrency prices
             | None => Normal ""
             end) (fun amountUSDEquiv =>
    Normal ([("buyAmountWarning_out", VStr warningText);
             ("amountUSDEquiv_out", VStr amountUSDEquiv)], amountNWCWEI)) in
  match buyAmount_in with
  | None => finish "" None
  | Some _ =>
      match ethToWei buyAmount_in with
      | None => finish "Not a number" None
      | Some amount =>
          if negb (0 <? amount) then finish "Amount must be greater than zero" None
          else
            match contractVals with
            | Some {| balanceNWCWEI := Some balance; minSellOrderValueNWCWEI := minValue |} =>
                if negb (amount <? balance) then
                  finish ("Amount must be less than wallet "
                          +:+ currencyOrEmpty networkCurrency +:+ " balance") None
                else
                  match minValue with
                  | Some minSell =>
                      if amount <? minSell then
                        andThen (weiToDisplay (Some minSell) networkCurrency prices)
                          (fun shown =>
                        finish ("You may buy this amount; however, since this is less than the minimum"
                                +:+ " sell order value of "
                                +:+ shown
                                +:+ ", then you will not be able to sell these tokens on the Dublr DEX,"
                                +:+ " unless you sell for a high enough price or buy more. You may or may"
                                +:+ " not be able to sell smaller orders elsewhere.") (Some amount))
                      else finish "" (Some amount)
                  | None => finish "" (Some amount)
                  end
            | _ => finish "" None
            end
      end
  end.

(** [contractVals && !contractVals.mySellOrder.amountDUBLRWEI.isZero()] *)
Definition hasSellOrder (contractVals : option ContractVals) : bool :=
  match contractVals with
  | Some cv => negb (amountDUBLRWEI (mySellOrder cv) =? 0)
  | None => false
  end.

(** [totAvailableSellerBalanceDUBLRWEI]: the wallet balance plus the amount
    held in the active sell order. *)
Definition totAvailableSellerBalanceDUBLRWEI (contractVals : option ContractVals) : option Z :=
  match contractVals with
  | Some {| balanceDUBLRWEI := Some balance; mySellOrder := order |} =>
      if hasSellOrder contractVals then Some (balance + amountDUBLRWEI order)
      else Some balance
  | _ => None
  end.

(** The second half of the last branch of [sellAmountDUBLRWEI]: the check
    against the minimum sell order value.  [amount.lt(...)] on an amount
    that the first half has set to [undefined] throws. *)
Definition checkMinimum `{Lib} (warningText : string) (amountDUBLRWEI : option Z)
    (contractVals : option ContractVals) (listPriceNWCPerDUBLR_x1e9 : option Z)
    (networkCurrency : option string) : Completion (string * option Z) :=
  match contractVals, listPriceNWCPerDUBLR_x1e9 with
  | Some {| minSellOrderValueNWCWEI := Some minValue |}, Some listPrice =>
      if (String.eqb warningText "" && negb (listPrice =? 0))%bool then
        andThen (ethToDublr listPrice minValue) (fun minSellOrderValueDUBLRWEI =>
        match amountDUBLRWEI with
        | None => Throws
        | Some amount =>
            if amount <? minSellOrderValueDUBLRWEI then
              Normal ("Amount cannot be smaller than ("
                      +:+ weiToEthSF (Some minValue) +:+ " ETH) / (list price) = "
                      +:+ weiToEthSF (Some minSellOrderValueDUBLRWEI)
                      +:+ " " +:+ currencyOrEmpty networkCurrency, None)
            else Normal (warningText, Some amount)
        end)
      else Normal (warningText, None)
  | _, _ => Normal (warningText, None)
  end.

(** [sellAmountDUBLRWEI] *)
Definition sellAmountDUBLRWEI `{Lib} `{Ethers} (sellAmount_in : option string)
    (contractVals : option ContractVals) (listPriceNWCPerDUBLR_x1e9 : option Z)
    (totAvailable : option Z) (networkCurrency : option string) : Validated :=
  let finish (r : string * option Z) : Validated :=
    Normal ([("sellAmountWarning_out", VStr (fst r))], snd r) in
  match sellAmount_in with
  | None => finish ("", None)
  | Some text =>
      let amountDUBLRWEI := ethToWei sellAmount_in in
      if match totAvailable with Some tot => tot =? 0 | None => false end then
        finish ("You have no DUBLR tokens to sell", None)
      else
        match amountDUBLRWEI with
        | None => finish (if String.eqb text "" then "" else "Not a number", None)
        | Some amount =>
            if amount <? 0 then finish ("Amount cannot be negative", None)
            else if amount =? 0 then finish ("Amount cannot be zero", None)
            else
              let '(warningText, amountDUBLRWEI) :=
                match totAvailable with
                | Some tot =>
                    if tot <? amount then
                      ("Amount cannot be greater than "
                       +:+ (if hasSellOrder contractVals
                            then "(wallet DUBLR balance) + (amount of active sell order) = "
                            else "wallet balance of ")
                       +:+ weiToEthSF (Some tot)
                       +:+ " " +:+ currencyOrEmpty networkCurrency, None)
                    else ("", Some amount)
                | None => ("", None)
                end in
              andThen (checkMinimum warningText amountDUBLRWEI contractVals
                         listPriceNWCPerDUBLR_x1e9 networkCurrency) finish
        end
  end.

End Forms.

(* ================================================================== *)
(** * dataflow-nodes.js: transactions and gas estimates *)
(* ================================================================== *)

Module Tx.
Import Format Nodes Book Forms.

(** A transaction receipt; its raw logs are opaque. *)
Record Receipt : Type := mkReceipt {
  status : option Z;
  receipt_logs : option (list nat);
  transactionHash : option string
}.

(** What [wait()] of a replacement transaction does; of its rejection only
    [e2.reason] is read. *)
Inductive ReplacementWait : Type :=
| ReplacementResolves (r : option Receipt)
| ReplacementRejects (reason : option string)
| ReplacementHangs.

(** [e.replacement]: a transaction response with or without [wait]. *)
Inductive Replacement : Type :=
| ReplacementPlain
| ReplacementSent (wait : ReplacementWait).

(** The errors [runTransaction] catches: the fields of [JsError] and
    [e.cancelled], [e.replacement], [e.receipt]. *)
Record TxError : Type := mkTxError {
  err : JsError;
  cancelled : option bool;
  replacement : option Replacement;
  err_receipt : option Receipt
}.

(** What [transactionResponse.wait()] does. *)
Inductive Wait : Type :=
| WaitResolves (r : option Receipt)
| WaitRejects (e : TxError)
| WaitHangs.

(** What [transactionPromise()] resolves with: the value of a constant
    method (a BigNumber or [undefined]), which has no [wait], or a
    transaction response. *)
Inductive Response : Type :=
| Value (v : option Z)
| Transaction (wait : Wait).

(** What [transactionPromise()] does. *)
Inductive Submission : Type :=
| Submitted (r : Response)
| SubmitFails (e : TxError)
| SubmitHangs.

(** The [result] field: a BigNumber or a transaction response object. *)
Inductive Result : Type :=
| ResultValue (z : Z)
| ResultResponse.

Record TxResult (Log : Type) : Type := mkTxResult {
  result : option Result;
  receipt : option Receipt;
  logs : list Log;
  tx_warningText : string
}.
Arguments mkTxResult {Log} result receipt logs tx_warningText.
Arguments result {Log} t.
Arguments receipt {Log} t.
Arguments logs {Log} t.
Arguments tx_warningText {Log} t.

(** [e.cancelled === false || e.reason === "repriced"] *)
Definition repriced (e : TxError) : bool :=
  (match cancelled e with Some false => true | _ => false end
   || match reason (err e) with Some r => String.eqb r "repriced" | None => false end)%bool.

(** [e.reason ? e.reason : e?.message ? e.message : e.error?.message ?
    e.error.message : "Transaction failed (unknown reason)"] *)
Definition reasonOf (e : TxError) : string :=
  if truthy_str (reason (err e)) then str_or_undefined (reason (err e))
  else if truthy_str (message (err e)) then str_or_undefined (message (err e))
  else if truthy_str (error_message (err e)) then str_or_undefined (error_message (err e))
  else "Transaction failed (unknown reason)".

(** The [else] branch of the [catch]: the warning for a transaction that
    was cancelled or replaced, or that threw. *)
Definition failureWarning (e : TxError) (receipt : option Receipt)
    (task insufficientBalanceSuggestion gasLimitSuggestion : string)
    (networkCurrency : option string) : string :=
  let reason := reasonOf e in
  let reasonLower := toLowerCase reason in
  if includes "replaced" reasonLower then
    "Transaction was replaced by another transaction"
  else if includes "insufficient funds" reasonLower then
    "Insufficient wallet " +:+ currencyOrEmpty networkCurrency
    +:+ " balance" +:+ insufficientBalanceSuggestion
  else if includes "out of gas" reasonLower then
    "Gas limit exceeded" +:+ gasLimitSuggestion
  else if (includes "user denied transaction" reasonLower
           || includes "cancelled" reasonLower
           || match cancelled e with Some true => true | _ => false end)%bool then
    "Transaction cancelled by user"
  else if String.eqb reasonLower "transaction failed" then
    "Transaction failed (unknown reason)"
  else if includes "transaction failed" reasonLower then reason
  else if (includes "reverted" reasonLower
           || match receipt with
              | Some {| status := Some st |} => st =? 0
              | _ => false
              end)%bool then reason
  else "Could not " +:+ task +:+ ": " +:+ reason.

(** The loop over [receipt.logs]: [parseLog] answers [None] where
    [dublr.interface.parseLog] throws.  A contract object has an
    [interface] with [parseLog]. *)
Definition parsedLogs {Log : Type} (dublr : option Contract) (parseLog : nat -> option Log)
    (receipt : option Receipt) : list Log :=
  match receipt, dublr with
  | Some {| receipt_logs := Some raw |}, Some _ =>
      flat_map (fun log => match parseLog log with Some l => [l] | None => [] end) raw
  | _, _ => []
  end.

(** [runTransaction]; the errors thrown are objects.  [submittedFn] is
    called when [transactionPromise()] has resolved and does not throw.  In
    the [catch], [receipt] is still unset, so it is [e.receipt]. *)
Definition runTransaction {Log : Type} (dublr : option Contract)
    (parseLog : nat -> option Log) (transactionPromise : Submission)
    (task insufficientBalanceSuggestion gasLimitSuggestion : string)
    (networkCurrency : option string) : Async (TxResult Log) :=
  let finish (result : option Result) (receipt : option Receipt) (warningText : string) :=
    Fulfilled (mkTxResult result receipt (parsedLogs dublr parseLog receipt) warningText) in
  let caught (e : TxError) :=
    let receipt := err_receipt e in
    if repriced e then
      match replacement e with
      | Some ReplacementPlain => finish (Some ResultResponse) receipt ""
      | Some (ReplacementSent (ReplacementResolves r)) => finish (Some ResultResponse) r ""
      | Some (ReplacementSent (ReplacementRejects e2_reason)) =>
          finish (Some ResultResponse) receipt
            ("Replacement transaction failed: " +:+ str_or_undefined e2_reason)
      | Some (ReplacementSent ReplacementHangs) => Pending
      | None => finish None receipt ""
      end
    else
      finish None receipt
        (failureWarning e receipt task insufficientBalanceSuggestion gasLimitSuggestion
           networkCurrency) in
  match transactionPromise with
  | Submitted (Value v) => finish (option_map ResultValue v) None ""
  | Submitted (Transaction (WaitResolves r)) => finish None r ""
  | Submitted (Transaction (WaitRejects e)) => caught e
  | Submitted (Transaction WaitHangs) => Pending
  | SubmitFails e => caught e
  | SubmitHangs => Pending
  end.

(** Whether [submittedFn] is called. *)
Definition submitted (transactionPromise : Submission) : bool :=
  match transactionPromise with Submitted _ => true | _ => false end.

(** [warningText += ...] behind [if (warningText.length > 0) warningText += "; "] *)
Definition addWarning (warningText more : string) : string :=
  (if (0 <? String.length warningText)%nat then warningText +:+ "; " else warningText) +:+ more.

(** [estimateGas]; [gasPriceNWCWEI] is a BigNumber.  [gasEstRaw.mul] on a
    transaction response, [gt(undefined)] and [undefined.gt(0)] throw.  The
    logs of the transaction result are not read, so none are parsed here. *)
Definition estimateGas (dublr : option Contract) (estimateGasPromise : Submission)
    (gasPriceNWCWEI balanceAvailForGasNWCWEI blockGasLimit : option Z)
    (task insufficientBalanceSuggestion gasLimitSuggestion : string)
    (networkCurrency : option string) : Async (option GasEst) :=
  match dublr, gasPriceNWCWEI with
  | Some _, Some gasPrice =>
      match runTransaction dublr (fun _ : nat => @None unit) estimateGasPromise task
              insufficientBalanceSuggestion gasLimitSuggestion networkCurrency with
      | Fulfilled transactionResult =>
          let warningText := tx_warningText transactionResult in
          match result transactionResult with
          | Some (ResultValue gasEstRaw) =>
              let gasEstNWCWEI := gasEstRaw * gasPrice in
              match balanceAvailForGasNWCWEI with
              | None => Rejected
              | Some balanceAvail =>
                  if balanceAvail <? gasEstNWCWEI then
                    Fulfilled (Some (mkGasEst (Some gasEstRaw) (Some gasEstNWCWEI)
                      (addWarning warningText
                         ("Insufficient wallet " +:+ currencyOrEmpty networkCurrency
                          +:+ " balance to cover gas cost" +:+ insufficientBalanceSuggestion))))
                  else
                    match blockGasLimit with
                    | None => Rejected
                    | Some limit =>
                        if ((0 <? limit) && (limit <? gasEstRaw))%bool then
                          Fulfilled (Some (mkGasEst (Some gasEstRaw) (Some gasEstNWCWEI)
                            (addWarning warningText
                               ("Gas requirement exceeds block gas limit"
                                +:+ gasLimitSuggestion))))
                        else
                          Fulfilled (Some (mkGasEst (Some gasEstRaw) (Some gasEstNWCWEI)
                                             warningText))
                    end
              end
          | Some ResultResponse => Rejected
          | None => Fulfilled (Some (mkGasEst None None warningText))
          end
      | Rejected => Rejected
      | Pending => Pending
      end
  | _, _ => Fulfilled None
  end.

(** What a gas-estimate node does: the batch of its [dataflow.set] and its
    return value. *)
Definition Estimated : Type := Async (Batch * option GasEst).

(** [dataflow.set({ name: estimateGasResult?.warningText }); return
    estimateGasResult] *)
Definition publish (name : string) (estimateGasResult : Async (option GasEst)) : Estimated :=
  match estimateGasResult with
  | Fulfilled r =>
      Fulfilled ([(name, match r with
                         | Some est => VStr (warningText est)
                         | None => VUndef
                         end)], r)
  | Rejected => Rejected
  | Pending => Pending
  end.

(** [buyGasEst]; [estimate] is what [dublr.estimateGas.buy(...)] does. *)
Definition buyGasEst (dublr : option Contract) (contractVals : option ContractVals)
    (gasPriceNWCWEI buyAmountNWCWEI : option Z) (allowBuying allowMinting : option bool)
    (estimate : Submission) : Estimated :=
  match dublr, buyAmountNWCWEI, allowBuying, allowMinting, contractVals, gasPriceNWCWEI with
  | Some _, Some buyAmount, Some _, Some _,
    Some {| blockGasLimit := Some limit; balanceNWCWEI := Some balance |}, Some _ =>
      let balanceAvailForGasNWCWEI :=
        if balance - buyAmount <? 0 then 0 else balance - buyAmount in
      publish "buyGasEstWarning_out"
        (estimateGas dublr estimate gasPriceNWCWEI (Some balanceAvailForGasNWCWEI) (Some limit)
           "estimate gas for <tt>buy()</tt> function"
           ", try buying a smaller amount" ", try buying a smaller amount" None)
  | _, _, _, _, _, _ => Fulfilled ([("buyGasEstWarning_out", VStr "")], None)
  end.

(** [sellGasEst]; [estimate] is what [dublr.estimateGas.sell(...)] does. *)
Definition sellGasEst (dublr : option Contract) (contractVals : option ContractVals)
    (gasPriceNWCWEI listPriceNWCPerDUBLR_x1e9 sellAmountDUBLRWEI : option Z)
    (estimate : Submission) : Estimated :=
  match dublr, gasPriceNWCWEI, listPriceNWCPerDUBLR_x1e9, contractVals, sellAmountDUBLRWEI with
  | Some _, Some _, Some _,
    Some {| blockGasLimit := Some limit; balanceNWCWEI := Some balance |}, Some _ =>
      publish "sellGasEstWarning_out"
        (estimateGas dublr estimate gasPriceNWCWEI (Some balance) (Some limit)
           "estimate gas for <tt>sell()</tt> function" ", need to pay for gas" "" None)
  | _, _, _, _, _ => Fulfilled ([("sellGasEstWarning_out", VStr "")], None)
  end.

(** [cancelGasEst]; [estimate] is what
    [dublr.estimateGas.cancelMySellOrder(...)] does. *)
Definition cancelGasEst (dublr : option Contract) (contractVals : option ContractVals)
    (gasPriceNWCWEI : option Z) (estimate : Submission) : Estimated :=
  match dublr, gasPriceNWCWEI, contractVals with
  | Some _, Some _, Some cv =>
      if hasSellOrder contractVals then
        publish "cancelGasEstWarning_out"
          (estimateGas dublr estimate gasPriceNWCWEI (balanceNWCWEI cv) (blockGasLimit cv)
             "estimate gas for <tt>cancelMySellOrder()</tt> function"
             ", need to pay for gas" "" None)
      else Fulfilled ([("cancelGasEstWarning_out", VStr "")], None)
  | _, _, _ => Fulfilled ([("cancelGasEstWarning_out", VStr "")], None)
  end.

(** [!!est?.warningText] *)
Definition hasWarning (est : option GasEst) : bool :=
  match est with
  | Some e => negb (String.eqb (warningText e) "")
  | None => false
  end.

Record SellParams `{Lib} : Type := mkSellParams {
  sp_dublr : Contract;
  sp_listPriceNWCPerDUBLR_x1e9 : Z;
  sp_sellAmountDUBLRWEI : Z;
  sp_gasPriceNWCWEI : option Z;
  sp_networkCurrency : option string;
  sp_priceUSDPerCurrency : option Price
}.

(** The [disabled] flag of [sellButtonParams]. *)
Definition sellDisabled (dublr : option Contract) (contractVals : option ContractVals)
    (listPriceNWCPerDUBLR_x1e9 sellAmountDUBLRWEI : option Z) (sellGasEst : option GasEst)
    (termsSell_in : option bool) : bool :=
  let gasLimit := gasLimitOf sellGasEst contractVals in
  (negb (truthy_obj dublr)
   || match contractVals with
      | None => true
      | Some cv => negb (sellingEnabled cv)
      end
   || missing_or (fun z => z <=? 0) listPriceNWCPerDUBLR_x1e9
   || missing_or (fun z => z <=? 0) sellAmountDUBLRWEI
   || hasWarning sellGasEst
   || negb (truthy_gasLimit gasLimit)
   || negb (truthy_bool termsSell_in))%bool.

Definition sellButtonParams `{Lib} (dublr : option Contract)
    (contractVals : option ContractVals)
    (listPriceNWCPerDUBLR_x1e9 sellAmountDUBLRWEI : option Z) (sellGasEst : option GasEst)
    (gasPriceNWCWEI : option Z) (networkCurrency : option string)
    (priceUSDPerCurrency : option Price) (termsSell_in : option bool) : option SellParams :=
  if sellDisabled dublr contractVals listPriceNWCPerDUBLR_x1e9 sellAmountDUBLRWEI sellGasEst
       termsSell_in
  then None
  else
    match dublr, listPriceNWCPerDUBLR_x1e9, sellAmountDUBLRWEI with
    | Some d, Some listPrice, Some sellAmount =>
        Some (mkSellParams _ d listPrice sellAmount gasPriceNWCWEI networkCurrency
                priceUSDPerCurrency)
    | _, _, _ => None
    end.

Record CancelParams `{Lib} : Type := mkCancelParams {
  cp_dublr : Contract;
  cp_mySellOrder : SellOrder;
  cp_gasPriceNWCWEI : option Z;
  cp_networkCurrency : option string;
  cp_priceUSDPerCurrency : option Price
}.

(** The [disabled] flag of [cancelButtonParams]. *)
Definition cancelDisabled (dublr : option Contract) (contractVals : option ContractVals)
    (cancelGasEst : option GasEst) : bool :=
  let gasLimit := gasLimitOf cancelGasEst contractVals in
  (negb (truthy_obj dublr)
   || negb (hasSellOrder contractVals)
   || hasWarning cancelGasEst
   || negb (truthy_gasLimit gasLimit))%bool.

Definition cancelButtonParams `{Lib} (dublr : option Contract)
    (contractVals : option ContractVals) (cancelGasEst : option GasEst)
    (gasPriceNWCWEI : option Z) (networkCurrency : option string)
    (priceUSDPerCurrency : option Price) : option CancelParams :=
  if cancelDisabled dublr contractVals cancelGasEst then None
  else
    match dublr, contractVals with
    | Some d, Some cv =>
        Some (mkCancelParams _ d (mySellOrder cv) gasPriceNWCWEI networkCurrency
                priceUSDPerCurrency)
    | _, _ => None
    end.

End Tx.

(* ================================================================== *)
(** * dataflow-nodes.js: the transaction log and the action buttons *)
(* ================================================================== *)

Module Buttons.
Import Format Nodes Book Forms Tx.

(** The decoded arguments of an event, opaque, and what the formatting
    helpers answer on them: [formatAddress(arg)], [formatPrice(arg)] and
    [weiToDisplay(arg, currency, priceUSDPerCurrency)]. *)
Class LogArgs `{Lib} : Type := {
  Arg : Type;
  argAddress : Arg -> Completion string;
  argPrice : Arg -> Completion string;
  argDisplay : Arg -> option string -> option Price -> Completion string
}.

(** [log.eventFragment.inputs[i]] with [log.args[i]]. *)
Record Param `{LogArgs} : Type := mkParam {
  paramName : string;
  paramType : string;
  arg : Arg
}.

(** A parsed log. *)
Record Log `{LogArgs} : Type := mkLog {
  name : string;
  params : list Param
}.

(** [paramName.substring(0, paramName.length - n)] *)
Definition dropSuffix (n : nat) (paramName : string) : string :=
  substring 0 (String.length paramName - n) paramName.

(** One iteration of the loop over [log.args]: the label and the text
    pushed.  A parameter that the first five tests pass by reaches
    [paramName.equals(...)], which no string has: the call throws, and the
    two branches after it are never entered. *)
Definition paramRow `{LogArgs} (p : Param) (networkCurrency : option string)
    (priceUSDPerCurrency : option Price) : Completion (string * string) :=
  if String.eqb (paramType p) "address" then
    andThen (argAddress (arg p)) (fun text => Normal (paramName p +:+ ":", text))
  else if endsWith "NWCPerDUBLR_x1e9" (paramName p) then
    andThen (argPrice (arg p)) (fun text =>
    Normal (dropSuffix 16 (paramName p) +:+ ":",
            text +:+ " " +:+ str_or_undefined networkCurrency +:+ " per DUBLR"))
  else if endsWith "NWCWEI" (paramName p) then
    andThen (argDisplay (arg p) networkCurrency priceUSDPerCurrency) (fun text =>
    Normal (dropSuffix 6 (paramName p) +:+ ":", text))
  else if endsWith "DUBLRWEI" (paramName p) then
    andThen (argDisplay (arg p) (Some "DUBLR") priceUSDPerCurrency) (fun text =>
    Normal (dropSuffix 8 (paramName p) +:+ ":", text))
  else if (String.eqb (paramName p) "amount" || String.eqb (paramName p) "oldAmount"
           || String.eqb (paramName p) "newAmount")%bool then
    andThen (argDisplay (arg p) (Some "DUBLR") priceUSDPerCurrency) (fun text =>
    Normal (paramName p +:+ ":", text))
  else Throws.

(** The loop over [log.args]: [paramNames] and [args] as they grow. *)
Fixpoint paramRows `{LogArgs} (ps : list Param) (networkCurrency : option string)
    (priceUSDPerCurrency : option Price) (paramNames args : list string)
    : Completion (list string * list string) :=
  match ps with
  | [] => Normal (paramNames, args)
  | p :: rest =>
      andThen (paramRow p networkCurrency priceUSDPerCurrency) (fun row =>
      paramRows rest networkCurrency priceUSDPerCurrency
        (paramNames ++ [fst row])%list (args ++ [snd row])%list)
  end.

(** The body of [result.logs.forEach]: what is appended to [html]. *)
Definition logRow `{LogArgs} (log : Log) (networkCurrency : option string)
    (priceUSDPerCurrency : option Price) : Completion string :=
  andThen (paramRows (params log) networkCurrency priceUSDPerCurrency
             ["<b>Event:</b>"] ["<b>" +:+ name log +:+ "</b>"]) (fun rows =>
  andThen (makeSubTable (fst rows) (snd rows)) (fun table =>
  Normal ("<tr><td>" +:+ table +:+ "</tr></td>"))).

Fixpoint logRows `{LogArgs} (logs : list Log) (networkCurrency : option string)
    (priceUSDPerCurrency : option Price) (html : string) : Completion string :=
  match logs with
  | [] => Normal html
  | log :: rest =>
      andThen (logRow log networkCurrency priceUSDPerCurrency) (fun row =>
      logRows rest networkCurrency priceUSDPerCurrency (html +:+ row))
  end.

(** [txReceiptLink]; [scanAddress] is what [dataflow.get("scanAddress")]
    answers. *)
Definition txReceiptLink (scanAddress : option string) (receipt : option Receipt) : string :=
  match receipt with
  | Some r =>
      if truthy_str (transactionHash r) then
        "(<a href='" +:+ str_or_undefined scanAddress +:+ "tx/"
        +:+ str_or_undefined (transactionHash r)
        +:+ "' target='_blank'>view receipt</a>)"
      else ""
  | None => ""
  end.

(** [renderLogs] *)
Definition renderLogs `{LogArgs} (scanAddress : option string) (result : TxResult Log)
    (networkCurrency : option string) (priceUSDPerCurrency : option Price)
    : Completion string :=
  let receiptLink := txReceiptLink scanAddress (receipt result) in
  if (0 <? length (logs result))%nat then
    andThen (logRows (logs result) networkCurrency priceUSDPerCurrency
               ("<span style='display: block; text-align: center;'><b>"
                +:+ "Log of previous transaction"
                +:+ (if String.eqb receiptLink "" then "" else " " +:+ receiptLink)
                +:+ ":</b></span>"
                +:+ "<table class='light-box' style='margin-left: auto; margin-right: auto; margin-top: 8pt; "
                +:+ "border-collapse: separate; border-spacing: 0 .5em;'><tbody>"))
      (fun html => Normal (html +:+ "</tbody></table>"))
  else
    Normal (if String.eqb receiptLink "" then ""
            else "<br/><span style='display: block; text-align: center;'>"
                 +:+ "<b>Transaction completed without emitting events</b><br/>"
                 +:+ receiptLink +:+ "</span>").

(** What the body launched by a click does: its [dataflow.set] calls in
    order, and whether it ran to its end, threw or stays suspended. *)
Record Click : Type := mkClick {
  sets : list Batch;
  ends : Async unit
}.

(** [result.warningText ? "Transaction result: " + result.warningText :
    "Transaction succeeded ..."] *)
Definition statusText (warningText : string) : string :=
  if negb (String.eqb warningText "") then "Transaction result: " +:+ warningText
  else "Transaction succeeded (see log below).<br/>UI should update in a few seconds.".

(** The part the three handlers share once the first [dataflow.set] is
    made: [runTransaction] with the [submittedFn] of the handler, then the
    last [dataflow.set], whose object literal awaits [renderLogs]. *)
Definition transact `{LogArgs} (stem : string) (first : Batch)
    (dublr : option Contract) (parseLog : nat -> option Log) (scanAddress : option string)
    (transactionPromise : Submission)
    (task insufficientBalanceSuggestion gasLimitSuggestion : string)
    (networkCurrency : option string) (priceUSDPerCurrency : option Price) : Click :=
  let submittedSet : list Batch :=
    if submitted transactionPromise then
      [[(stem +:+ "Status_out", VStr "Transaction submitted; waiting for confirmation");
        (stem +:+ "StatusIsWarning_out", VBool false)]]
    else [] in
  match runTransaction dublr parseLog transactionPromise task insufficientBalanceSuggestion
          gasLimitSuggestion networkCurrency with
  | Fulfilled result =>
      match renderLogs scanAddress result networkCurrency priceUSDPerCurrency with
      | Normal txLogs =>
          mkClick
            (first :: submittedSet
             ++ [[(stem +:+ "Status_out", VStr (statusText (tx_warningText result)));
                  (stem +:+ "StatusIsWarning_out",
                   VBool (negb (String.eqb (tx_warningText result) "")));
                  (stem +:+ "TransactionPending", VBool false);
                  ("txLogs_out", VStr txLogs)]])%list
            (Fulfilled tt)
      | Throws => mkClick (first :: submittedSet) Rejected
      end
  | Rejected => mkClick (first :: submittedSet) Rejected
  | Pending => mkClick (first :: submittedSet) Pending
  end.

(** The [onclick] handler of the buy button; [dublr] and [buyParams] are
    [dataflow.value.dublr] and [dataflow.value.buyButtonParams], [buy] is
    what [buyParams.dublr.buy(...)] does. *)
Definition buyButton_onclick `{LogArgs} (dublr : option Contract)
    (buyParams : option BuyParams) (parseLog : nat -> option Log)
    (scanAddress : option string) (buy : Submission) : Click :=
  match dublr, buyParams with
  | Some _, Some buyParams =>
      transact "buy"
        [("buyStatus_out", VStr "Please confirm transaction in your wallet");
         ("buyStatusIsWarning_out", VBool false);
         ("buyTransactionPending", VBool true);
         ("txLogs_out", VStr "")]
        dublr parseLog scanAddress buy
        "buy tokens" "try buying a smaller amount" ", try buying a smaller amount"
        (bp_networkCurrency buyParams) (bp_priceUSDPerCurrency buyParams)
  | _, _ => mkClick [] (Fulfilled tt)
  end.

(** The [onclick] handler of the sell button. *)
Definition sellButton_onclick `{LogArgs} (dublr : option Contract)
    (sellParams : option SellParams) (parseLog : nat -> option Log)
    (scanAddress : option string) (sell : Submission) : Click :=
  match dublr, sellParams with
  | Some _, Some sellParams =>
      transact "sell"
        [("sellStatus_out", VStr "Please confirm transaction in your wallet");
         ("sellStatusIsWarning_out", VBool false);
         ("sellTransactionPending", VBool true);
         ("cancelStatus_out", VStr "");
         ("cancelStatusIsWarning_out", VBool false);
         ("txLogs_out", VStr "")]
        dublr parseLog scanAddress sell
        "list tokens for sale" ", need to pay for gas" ""
        (sp_networkCurrency sellParams) (sp_priceUSDPerCurrency sellParams)
  | _, _ => mkClick [] (Fulfilled tt)
  end.

(** The [onclick] handler of the cancel button, which does not look at
    [dublr] before it starts. *)
Definition cancelButton_onclick `{LogArgs} (dublr : option Contract)
    (cancelParams : option CancelParams) (parseLog : nat -> option Log)
    (scanAddress : option string) (cancelMySellOrder : Submission) : Click :=
  match cancelParams with
  | Some cancelParams =>
      transact "cancel"
        [("cancelStatus_out", VStr "Please confirm transaction in your wallet");
         ("cancelStatusIsWarning_out", VBool false);
         ("cancelTransactionPending", VBool true);
         ("sellStatus_out", VStr "");
         ("sellStatusIsWarning_out", VBool false);
         ("txLogs_out", VStr "")]
        dublr parseLog scanAddress cancelMySellOrder
        "cancel sell order" ", need to pay for gas" ""
        (cp_networkCurrency cancelParams) (cp_priceUSDPerCurrency cancelParams)
  | None => mkClick [] (Fulfilled tt)
  end.

End Buttons.

(* ================================================================== *)
(** * dataflow-nodes.js: the network and the orderbook table *)
(* ================================================================== *)

Module Tables.
Import Format Nodes Book Forms.

(** [parseChainId] on a chain id that is an integer Number:
    [BigNumber.from] throws outside the safe range, and the exception is
    caught. *)
Definition parseChainId (chainId : option Z) : option Z :=
  match chainId with
  | Some c =>
      if c =? 0 then None
      else if Z.abs c <=? 9007199254740991 then Some c
      else None
  | None => None
  end.

(** The [network] object: [network.chainId]. *)
Record Network : Type := mkNetwork {
  net_chainId : option Z
}.

(** [network?.chainId] *)
Definition chainIdOf (network : option Network) : option Z :=
  match network with Some n => net_chainId n | None => None end.

(** The [switch] of [networkCurrency] and of [scanAddress]. *)
Definition chainCase {A : Type} (chainId : option Z) (c1 c5 c137 c80001 default : A) : A :=
  match chainId with
  | Some c =>
      if c =? 1 then c1
      else if c =? 5 then c5
      else if c =? 137 then c137
      else if c =? 80001 then c80001
      else default
  | None => default
  end.

Definition networkCurrency (network : option Network) : string :=
  chainCase (parseChainId (chainIdOf network)) "ETH" "ETH" "MATIC" "MATIC" "network currency".

Definition scanAddress (network : option Network) : string :=
  chainCase (parseChainId (chainIdOf network))
    "https://etherscan.io/" "https://goerli.etherscan.io/"
    "https://polygonscan.com/" "https://mumbai.polygonscan.com/"
    "https://github.com/dublr/dublr".

Definition bytes (l : list Z) : string :=
  string_of_list_ascii (map (fun b => ascii_of_nat (Z.to_nat b)) l).

(** The two markers of the table, byte for byte. *)
Definition ownMarker : string := bytes [195; 162; 197; 190; 194; 161; 195; 175; 194; 184].
Definition aboveMarker : string := bytes [195; 176; 197; 184; 226; 128; 157; 194; 186].

Definition quote : string := String (ascii_of_nat 34) EmptyString.

(** The local variables of the loop of [updateOrderbookTable]. *)
Record TableState : Type := mkTableState {
  tableRows : string;
  note : string;
  matchedMySellOrder : bool;
  reachedMintPrice : bool
}.

(** [note += (note.length === 0 ? "" : "<br/>") + line] *)
Definition addNote (note line : string) : string :=
  note +:+ ((if (String.length note =? 0)%nat then "" else "<br/>") +:+ line).

Definition sellOrderMatches (contractVals : option ContractVals) (sellOrder : Row) : bool :=
  match contractVals with
  | Some cv =>
      (hasSellOrder contractVals
       && (priceNWCPerDUBLR_x1e9 (mySellOrder cv) =? row_priceNWCPerDUBLR_x1e9 sellOrder)
       && (amountDUBLRWEI (mySellOrder cv) =? row_amountDUBLRWEI sellOrder))%bool
  | None => false
  end.

(** [contractVals?.mintPriceNWCPerDUBLR_x1e9 && sellOrder.priceNWCPerDUBLR_x1e9.gt(...)]:
    a BigNumber is truthy, zero included. *)
Definition aboveMintPrice (contractVals : option ContractVals) (sellOrder : Row) : bool :=
  match contractVals with
  | Some cv => mintPriceNWCPerDUBLR_x1e9 cv <? row_priceNWCPerDUBLR_x1e9 sellOrder
  | None => false
  end.

Definition aboveLine : string :=
  aboveMarker +:+ " : Sell order is priced above mint price (can't be bought yet)".

Definition tableRow (idx : nat) (isMySellOrder aboveMintPrice isMintPrice : bool)
    (html : string) : string :=
  "<tr><td style='border-right: 1px solid silver;'><span style='font-family: "
  +:+ quote +:+ "Maven Pro" +:+ quote +:+ ";'>"
  +:+ (if isMySellOrder then ownMarker +:+ "<br/>" else "")
  +:+ (if aboveMintPrice then aboveMarker +:+ "<br/>" else "")
  +:+ "</span>" +:+ (if isMintPrice then "<span style='color: #e0403f;'>" else "")
  +:+ "#" +:+ Decimal.show (Z.of_nat (idx + 1)) +:+ ":"
  +:+ (if isMintPrice then "</span>" else "") +:+ "</td>"
  +:+ "<td>" +:+ html +:+ "</td></tr>".

(** The loop of [updateOrderbookTable], entered with counter [idx]. *)
Fixpoint tableLoop (contractVals : option ContractVals) (orderbook : list Row)
    (idx : nat) (st : TableState) : TableState :=
  match orderbook with
  | [] => st
  | sellOrder :: rest =>
      let isMySellOrder :=
        (sellOrderMatches contractVals sellOrder && negb (matchedMySellOrder st))%bool in
      let st :=
        if (isMySellOrder && negb (matchedMySellOrder st))%bool then
          mkTableState (tableRows st)
            (addNote (note st) (ownMarker +:+ " : Your active sell order"))
            true (reachedMintPrice st)
        else st in
      let above := aboveMintPrice contractVals sellOrder in
      let st :=
        if (above && negb (reachedMintPrice st))%bool then
          mkTableState (tableRows st) (addNote (note st) aboveLine)
            (matchedMySellOrder st) true
        else st in
      let st :=
        mkTableState
          (tableRows st
           +:+ tableRow idx isMySellOrder above (row_isMintPriceEntry sellOrder)
                 (html sellOrder))
          (note st) (matchedMySellOrder st) (reachedMintPrice st) in
      if (idx =? 49)%nat then
        mkTableState (tableRows st)
          (addNote (note st) "(Only the first 50 orders are shown)")
          (matchedMySellOrder st) (reachedMintPrice st)
      else tableLoop contractVals rest (S idx) st
  end.

(** [updateOrderbookTable]: the batch passed to [dataflow.set]. *)
Definition updateOrderbookTable (contractVals : option ContractVals)
    (orderbook : option (list Row)) : Batch :=
  match orderbook with
  | None => [("orderbookTable_out", VStr ""); ("orderbookNote_out", VStr "")]
  | Some [] =>
      [("orderbookTable_out", VStr ""); ("orderbookNote_out", VStr "(Orderbook is empty)")]
  | Some rows =>
      let st := tableLoop contractVals rows 0 (mkTableState "" "" false false) in
      [("orderbookTable_out",
        VStr ("<table style='margin-left: auto; margin-right: auto; "
              +:+ "border-collapse: separate; border-spacing: 0 .5em;'>"
              +:+ "<tbody>" +:+ tableRows st +:+ "</tbody></table>"));
       ("orderbookNote_out", VStr (note st))]
  end.

End Tables.

(* ================================================================== *)
(** * Vocabulary of the further properties *)
(* ================================================================== *)

Module Terms.
Import Format Nodes Book.

(** Prices that never decrease along a list. *)
Fixpoint ascending (prices : list Z) : Prop :=
  match prices with
  | a :: rest => match rest with b :: _ => a <= b | [] => True end /\ ascending rest
  | [] => True
  end.

(** The sums of the first one, two, ... elements, on top of [start]. *)
Fixpoint runningSums (start : Z) (amounts : list Z) : list Z :=
  match amounts with
  | a :: rest => (start + a) :: runningSums (start + a) rest
  | [] => []
  end.

(** The sell orders among the rows of the orderbook. *)
Definition sellRows (rows : list Row) : list Row :=
  List.filter (fun r => negb (row_isMintPriceEntry r)) rows.

(** The mint-price rows among the rows of the orderbook. *)
Definition mintRows (rows : list Row) : list Row :=
  List.filter row_isMintPriceEntry rows.

(** Price and amount of a sell order, and of a row. *)
Definition orderTerms (o : SellOrder) : Z * Z :=
  (priceNWCPerDUBLR_x1e9 o, amountDUBLRWEI o).
Definition rowTerms (r : Row) : Z * Z :=
  (row_priceNWCPerDUBLR_x1e9 r, row_amountDUBLRWEI r).

(** A sell order as the contract keeps it. *)
Definition wellFormedOrder (o : SellOrder) : Prop :=
  0 < priceNWCPerDUBLR_x1e9 o /\ 0 <= amountDUBLRWEI o.

(** The price of [prev], when there is one, in front of [l]. *)
Definition afterPrev (prev : option SellOrder) (l : list Z) : list Z :=
  match prev with
  | Some e => priceNWCPerDUBLR_x1e9 e :: l
  | None => l
  end.

(** A sort that the comparator of [orderbook] allows: insertion before the
    first entry with a higher price. *)
Fixpoint insertByPrice (o : SellOrder) (l : list SellOrder) : list SellOrder :=
  match l with
  | e :: rest =>
      if priceNWCPerDUBLR_x1e9 o <? priceNWCPerDUBLR_x1e9 e then o :: l
      else e :: insertByPrice o rest
  | [] => [o]
  end.

Definition insertionSort (l : list SellOrder) : list SellOrder :=
  fold_right insertByPrice [] l.

(** Three sell orders out of order, and a mint price of 2 between the
    second and the third. *)
Definition exampleVals : ContractVals :=
  mkContractVals (Some 100) (Some 5) (mkSellOrder 0 0)
    [mkSellOrder 3000000000 7; mkSellOrder 1000000000 30; mkSellOrder 1500000000 100]
    2000000000 None None true true true (Some 30000000).

(** The text of [s] up to its first dot. *)
Fixpoint integerPart (s : string) : string :=
  match s with
  | String c r => if Ascii.eqb c "." then EmptyString else String c (integerPart r)
  | EmptyString => EmptyString
  end.

(** The number of characters of [s] that [formatSF] counts as figures. *)
Fixpoint figures (s : string) : nat :=
  match s with
  | String c r => ((if isNaN_char c then 0 else 1) + figures r)%nat
  | EmptyString => 0%nat
  end.

(** The value of the node [name] once the [dataflow.set] calls among [out]
    have been applied, in order, to a node that held [held]. *)
Definition nodeAfter (name : string) (held : Val) (out : list Wallet.Effect) : Val :=
  fold_left (fun v b => match Vocab.written name b with Some v' => v' | None => v end)
    (Wallet.writesOf out) held.

(** The provider events handled one after the other; an exception ends the
    handler that threw, not the ones of later events. *)
Fixpoint handleAll (P : Wallet.Provider) (evs : list Wallet.ProviderEvent) (s : Wallet.State)
    : Wallet.State * list Wallet.Effect :=
  match evs with
  | ev :: rest =>
      let '(_, s', out) := Wallet.handle P ev s in
      let '(s'', out') := handleAll P rest s' in
      (s'', (out ++ out')%list)
  | [] => (s, [])
  end.

(** Events that leave the dapp without an account: a disconnect, or an
    account change that names no account. *)
Definition losesAccount (ev : Wallet.ProviderEvent) : bool :=
  match ev with
  | Wallet.disconnect => true
  | Wallet.accountsChanged accounts =>
      match Wallet.firstAccount accounts with None => true | Some _ => false end
  | _ => false
  end.

(** A wallet with 5 ether and 2 DUBLR, and a minimum sell order value of
    1 ether. *)
Definition exampleFunds : ContractVals :=
  mkContractVals (Some 5000000000000000000) (Some 2000000000000000000) (mkSellOrder 0 0) []
    2000000000 None (Some 1000000000000000000) true true true (Some 30000000).

(** The error a transaction ends with, when it was not submitted or its
    [wait()] rejected. *)
Definition failureOf (transactionPromise : Tx.Submission) : option Tx.TxError :=
  match transactionPromise with
  | Tx.SubmitFails e => Some e
  | Tx.Submitted (Tx.Transaction (Tx.WaitRejects e)) => Some e
  | _ => None
  end.

(** Some promise that [runTransaction] awaits never settles. *)
Definition hangs (transactionPromise : Tx.Submission) : bool :=
  match transactionPromise with
  | Tx.SubmitHangs => true
  | Tx.Submitted (Tx.Transaction Tx.WaitHangs) => true
  | _ =>
      match failureOf transactionPromise with
      | Some e =>
          (Tx.repriced e
           && match Tx.replacement e with
              | Some (Tx.ReplacementSent Tx.ReplacementHangs) => true
              | _ => false
              end)%bool
      | None => false
      end
  end.

(** The transaction went through: it resolved, or it was only repriced and
    its replacement, if there is one, did not fail. *)
Definition succeeds (transactionPromise : Tx.Submission) : bool :=
  match failureOf transactionPromise with
  | Some e =>
      (Tx.repriced e
       && match Tx.replacement e with
          | Some (Tx.ReplacementSent (Tx.ReplacementRejects _)) => false
          | _ => true
          end)%bool
  | None => true
  end.

(** A parameter that none of the first five tests of the loop in
    [renderLogs] accepts. *)
Definition unrecognised `{Buttons.LogArgs} (p : Buttons.Param) : bool :=
  (negb (String.eqb (Buttons.paramType p) "address")
   && negb (endsWith "NWCPerDUBLR_x1e9" (Buttons.paramName p))
   && negb (endsWith "NWCWEI" (Buttons.paramName p))
   && negb (endsWith "DUBLRWEI" (Buttons.paramName p))
   && negb (String.eqb (Buttons.paramName p) "amount")
   && negb (String.eqb (Buttons.paramName p) "oldAmount")
   && negb (String.eqb (Buttons.paramName p) "newAmount"))%bool.

(** Some [dataflow.set] call among [sets] writes [false] to the node
    [name]. *)
Definition clears (name : string) (sets : list Batch) : bool :=
  existsb (fun b => match Vocab.written name b with
                    | Some (VBool false) => true
                    | _ => false
                    end) sets.

(** Decoded arguments for the examples: an address is a string, a number a
    BigNumber; the helpers are the ones of the page. *)
Definition exampleArgs : Buttons.LogArgs (H := Decimal.lib) :=
  {| Buttons.Arg := string + Z;
     Buttons.argAddress := fun a =>
       match a with inl s => Normal (formatAddress (Some s)) | inr _ => Throws end;
     Buttons.argPrice := fun a =>
       match a with
       | inr z => Normal (formatPrice (H := Decimal.lib) (Some z))
       | inl _ => Throws
       end;
     Buttons.argDisplay := fun a currency prices =>
       match a with
       | inr z => weiToDisplay (H := Decimal.lib) (Some z) currency prices
       | inl _ => Throws
       end |}.

(** An event with an address, an amount and a time stamp. *)
Definition exampleApproval : Buttons.Log (H0 := exampleArgs) :=
  Buttons.mkLog Decimal.lib exampleArgs "Approval"
    [Buttons.mkParam Decimal.lib exampleArgs "owner" "address" (inl "0x1234567890abcdef");
     Buttons.mkParam Decimal.lib exampleArgs "amount" "uint256" (inr 5);
     Buttons.mkParam Decimal.lib exampleArgs "expirationTimestamp" "uint256"
       (inr 1700000000)].

(** A [parseEther] that reads whole numbers of ether. *)
Definition wholeEther : Forms.Ethers :=
  {| Forms.parseEther := fun s =>
       option_map (fun z => z * 1000000000000000000) (Decimal.readInt s) |}.

End Terms.

(* ================================================================== *)
(** * Properties: display of unavailable values *)
(* ================================================================== *)

Section Placeholders.
Import Format.
Context `{L : Lib}.

(** C7. Every display helper answers the placeholder "(unknown)" for an
    unavailable input: [formatPrice(undefined)], [weiToDisplay(undefined,
    currency, prices)] for any other arguments, [formatSF(undefined)],
    [weiToEthSF(undefined)], and [formatAddress] of the falsy addresses
    [undefined] and [""].  None of them throws. *)
Theorem unavailable_values_render_unknown :
  forall (currency : option string) (prices : option Price),
    formatPrice None = "(unknown)"
    /\ weiToDisplay None currency prices = Normal "(unknown)"
    /\ formatSF None = "(unknown)"
    /\ weiToEthSF None = "(unknown)"
    /\ formatAddress None = "(unknown)"
    /\ formatAddress (Some "") = "(unknown)".
Proof.
  intros currency prices.
  repeat split; reflexivity.
Qed.

End Placeholders.

(* ================================================================== *)
(** * Properties: the buy and mint checkboxes *)
(* ================================================================== *)

Section Checkboxes.
Import Nodes Vocab.

(** The two values [constrainBuyMintCheckboxes] writes back. *)
Lemma constrain_writes (allowBuying allowMinting : option bool) (flags : AllowFlags) :
  let out := constrainBuyMintCheckboxes allowBuying allowMinting flags in
  written "allowBuying" (fst out) = Some (VBool (currAllowBuying (snd out)))
  /\ written "allowMinting" (fst out) = Some (VBool (currAllowMinting (snd out))).
Proof.
  unfold constrainBuyMintCheckboxes.
  destruct (orTrue allowBuying), (orTrue allowMinting); cbn; split; reflexivity.
Qed.

(** C10, the failing input. With both module-level flags true (their
    initial value) and both checkboxes unchecked in one batch,
    [constrainBuyMintCheckboxes] writes [false] to both nodes and leaves
    both flags false. *)
Theorem constrain_both_unchecked_from_initial_flags :
  constrainBuyMintCheckboxes (Some false) (Some false) initialFlags
  = ([("allowBuying", VBool false); ("allowMinting", VBool false)],
     mkAllowFlags false false).
Proof. reflexivity. Qed.

(** Away from that state the constraint holds: when the flags are not both
    true, one of the two written values is true. *)
Lemma constrain_keeps_one_checked (allowBuying allowMinting : option bool)
    (flags : AllowFlags) :
  (currAllowBuying flags && currAllowMinting flags)%bool = false ->
  let out := snd (constrainBuyMintCheckboxes allowBuying allowMinting flags) in
  (currAllowBuying out || currAllowMinting out)%bool = true.
Proof.
  destruct flags as [[] []], allowBuying as [[]|], allowMinting as [[]|];
    cbn; intros H; congruence.
Qed.

(** The lemma at the step that follows unchecking "buy": the flags are
    (false, true), the user unchecks "mint", and "buy" is switched back on. *)
Lemma constrain_keeps_one_checked_witness :
  let out := snd (constrainBuyMintCheckboxes (Some false) (Some false)
                    (mkAllowFlags false true)) in
  (currAllowBuying out || currAllowMinting out)%bool = true.
Proof.
  apply (constrain_keeps_one_checked (Some false) (Some false) (mkAllowFlags false true)).
  reflexivity.
Defined.

End Checkboxes.

(* ================================================================== *)
(** * Properties: enabling the buy button *)
(* ================================================================== *)

Section BuyButton.
Import Nodes Vocab.

(** The first field of an object literal. *)
Lemma written_head (name : string) (v : Val) (rest : Batch) :
  written name ((name, v) :: rest) = Some v.
Proof.
  unfold written. cbn [List.find fst]. rewrite String.eqb_refl. reflexivity.
Qed.

(** [!gasLimit] never holds: the fallback [2e7] is not zero. *)
Lemma gasLimit_truthy (est : option GasEst) (cv : option ContractVals) :
  truthy_gasLimit (gasLimitOf est cv) = true.
Proof.
  unfold gasLimitOf.
  destruct est as [[[g|] ? ?]|]; try reflexivity;
    destruct cv as [cv|]; try reflexivity;
    destruct cv; cbn; destruct blockGasLimit0; reflexivity.
Qed.

Lemma missing_or_lte_positive (o : option Z) :
  missing_or (fun z => z <=? 0) o = negb (positive o).
Proof.
  destruct o as [z|]; cbn; [|reflexivity].
  destruct (Z.leb_spec z 0), (Z.ltb_spec 0 z); cbn; try reflexivity; lia.
Qed.

(** The [disabled] flag is the negation of the listed and the further
    requirements, the pending transaction apart. *)
Lemma buyDisabled_spec `{Lib} (i : BuyInputs) :
  buyDisabled (in_dublr i) (in_contractVals i) (in_buyAmountNWCWEI i)
    (in_minimumTokens i) (in_amountBoughtEst i) (in_allowBuying i)
    (in_allowMinting i) (in_buyGasEst i) (in_termsBuy i)
  = negb (truthy_obj (in_dublr i)
          && positive (in_buyAmountNWCWEI i)
          && positive (in_amountBoughtEst i)
          && noWarning (in_buyGasEst i)
          && truthy_bool (in_termsBuy i)
          && furtherRequirements i).
Proof.
  unfold buyDisabled, furtherRequirements.
  rewrite gasLimit_truthy, !missing_or_lte_positive.
  destruct i as [d cv amt minTok bought ab am est gp nc pr terms pend]; cbn.
  destruct d; cbn; [|reflexivity].
  destruct cv as [cv|]; cbn; [|rewrite !andb_false_r; reflexivity].
  destruct (buyingEnabled cv), (mintingEnabled cv); cbn;
    try (rewrite !andb_false_r; reflexivity);
    (destruct ab as [[]|], am as [[]|]; cbn;
     try (rewrite !andb_false_r; reflexivity);
     destruct (positive amt); cbn; try reflexivity;
     destruct (positive bought); cbn; try reflexivity;
     (destruct minTok as [z|]; cbn;
      [ destruct (Z.ltb_spec z 0), (Z.leb_spec 0 z); try lia; cbn
      | rewrite !andb_false_r; reflexivity ]);
     destruct est as [est|]; cbn; try destruct (warningText est =? "")%string; cbn;
     destruct (truthy_bool terms); reflexivity).
Qed.

(** C6, counterexample. The contract is known, the amount and the
    simulated purchase are positive, there is no gas warning, the terms are
    accepted and no transaction is pending, yet the button is disabled: the
    minimum number of tokens has not been written yet. *)
Lemma buy_button_disabled_despite_listed_requirements :
  let i := mkBuyInputs Decimal.lib (Some 1%nat) 
             (Some (mkContractVals (Some 100) (Some 0) (mkSellOrder 0 0) []
                      2000000000 None None true true true (Some 30000000)))
             (Some 50) None (Some 25) (Some true) (Some true) None
             (Some 1) (Some "MATIC") None (Some true) (Some false) in
  listedRequirements i = true
  /\ buyButtonDisabled_out i = Some (VBool true).
Proof. split; reflexivity. Qed.

(** C6, amended. [buyButtonDisabled_out] is written on every run, and it is
    written [false] exactly when the listed requirements hold together with
    the further ones ([contractVals] known with buying or minting enabled on
    the exchange, both checkboxes known and one of them checked, a minimum
    number of tokens that is known and not negative); otherwise it is
    written [true].  In particular it is [true] whenever one of the listed
    requirements fails. *)
Theorem buy_button_enablement `{Lib} (i : BuyInputs) :
  buyButtonDisabled_out i
  = Some (VBool (negb (listedRequirements i && furtherRequirements i))).
Proof.
  unfold buyButtonDisabled_out, buyButtonEnablement, buyButtonParams.
  rewrite written_head, buyDisabled_spec.
  unfold listedRequirements.
  set (pending := truthy_bool (in_buyTransactionPending i)).
  set (warn := noWarning (in_buyGasEst i)).
  set (terms := truthy_bool (in_termsBuy i)).
  set (bought := positive (in_amountBoughtEst i)).
  destruct (furtherRequirements i) eqn:Hf.
  - unfold furtherRequirements in Hf.
    destruct (in_contractVals i); [|discriminate].
    destruct (in_allowBuying i), (in_allowMinting i);
      try (rewrite andb_false_r in Hf; discriminate).
    destruct (in_minimumTokens i); [|rewrite andb_false_r in Hf; discriminate].
    destruct (in_dublr i), (in_buyAmountNWCWEI i) as [amt|]; cbn; try reflexivity.
    destruct (0 <? amt), bought, warn, terms, pending; reflexivity.
  - rewrite !andb_false_r. reflexivity.
Qed.

End BuyButton.

(* ================================================================== *)
(** * Properties: retries of external calls *)
(* ================================================================== *)

Section Retry.
Import Rpc Nodes Vocab.

Lemma backoff_snoc (delay factor : Z) (k : nat) :
  backoff delay factor (S k)
  = (backoff delay factor k ++ [delay * factor ^ Z.of_nat k])%list.
Proof.
  unfold backoff. rewrite seq_S, map_app. reflexivity.
Qed.

Lemma rpcLoop_attempts_ge {A : Type} (promiseFn : nat -> Attempt A) :
  forall (n i : nat) (delay : Z) (slept : list Z),
    (i <= attempts (rpcLoop promiseFn n i delay slept))%nat.
Proof.
  induction n as [|n IH]; intros i delay slept; cbn [rpcLoop attempts]; [lia|].
  destruct (promiseFn i) as [| |e|]; cbn [attempts]; try lia.
  destruct (retryable (errMsg e)); cbn [attempts]; [|lia].
  destruct (i <? numRetries - 1)%nat;
    match goal with |- (_ <= attempts (rpcLoop _ _ _ ?d ?s))%nat =>
      pose proof (IH (S i) d s) end; lia.
Qed.

Lemma rpcLoop_attempts_gt {A : Type} (promiseFn : nat -> Attempt A)
    (n i : nat) (delay : Z) (slept : list Z) :
  (i < attempts (rpcLoop promiseFn (S n) i delay slept))%nat.
Proof.
  cbn [rpcLoop].
  destruct (promiseFn i) as [| |e|]; cbn [attempts]; try lia.
  destruct (retryable (errMsg e)); cbn [attempts]; [|lia].
  destruct (i <? numRetries - 1)%nat;
    match goal with |- (_ < attempts (rpcLoop _ _ _ ?d ?s))%nat =>
      pose proof (rpcLoop_attempts_ge promiseFn n (S i) d s) end; lia.
Qed.

Lemma run_ok_returns {A : Type} (promiseFn : nat -> Attempt A) (i : nat)
    (slept : list Z) (res : Async (option A)) :
  (i <= 4)%nat ->
  slept = backoff initialDelay expBackoff (Nat.min i 4) ->
  res <> Rejected ->
  (promiseFn i <> NeverSettles -> exists v, res = Fulfilled v) ->
  (forall e, promiseFn i = Fails e -> res = Fulfilled None) ->
  run_ok promiseFn i (mkRun res (S i) slept).
Proof.
  intros Hi Hslept Hrej Hful Hfail. unfold run_ok; cbn [attempts sleeps result].
  replace (S i - 1)%nat with i by lia.
  repeat split; try (unfold numRetries; lia); try assumption.
  intros Hall. apply Hful, Hall. lia.
Qed.

Lemma run_ok_later {A : Type} (promiseFn : nat -> Attempt A) (i : nat) (r : Run A) :
  run_ok promiseFn (S i) r -> run_ok promiseFn i r.
Proof.
  intros (Ha & Hs & Hr & Hd & He). unfold run_ok.
  repeat split; try lia; try assumption.
  intros Hall. apply Hd. intros j Hj. apply Hall. lia.
Qed.

Lemma rpcLoop_ok {A : Type} (promiseFn : nat -> Attempt A) :
  forall (n i : nat) (delay : Z) (slept : list Z),
    (n + i = numRetries)%nat ->
    slept = backoff initialDelay expBackoff (Nat.min i 4) ->
    delay = initialDelay * expBackoff ^ Z.of_nat (Nat.min i 4) ->
    run_ok promiseFn i (rpcLoop promiseFn n i delay slept).
Proof.
  induction n as [|n IH]; intros i delay slept Hn Hslept Hdelay.
  - cbn in Hn. subst i. cbn [rpcLoop]. unfold run_ok; cbn [attempts sleeps result].
    repeat split; try lia; try congruence; eauto.
  - assert (Hi : (i <= 4)%nat) by (unfold numRetries in Hn; lia).
    cbn [rpcLoop].
    destruct (promiseFn i) as [|v|e|] eqn:Hf.
    + apply run_ok_returns; [assumption | assumption | congruence | eauto | reflexivity].
    + apply run_ok_returns; [assumption | assumption | congruence | eauto | congruence].
    + destruct (retryable (errMsg e)) eqn:Hretry.
      * apply run_ok_later.
        destruct (Nat.ltb_spec i (numRetries - 1)) as [Hlt|Hge]; unfold numRetries in *.
        -- apply IH; [lia | |].
           ++ replace (Nat.min (S i) 4) with (S i) by lia.
              rewrite backoff_snoc, Hslept, Hdelay.
              replace (Nat.min i 4) with i by lia. reflexivity.
           ++ rewrite Hdelay.
              replace (Nat.min (S i) 4) with (S i) by lia.
              replace (Nat.min i 4) with i by lia.
              rewrite Nat2Z.inj_succ, Z.pow_succ_r by lia. unfold expBackoff. lia.
        -- assert (i = 4)%nat by lia. subst i.
           apply IH; [lia | exact Hslept | exact Hdelay].
      * apply run_ok_returns; [assumption | assumption | congruence | eauto | reflexivity].
    + apply run_ok_returns; [assumption | assumption | congruence | congruence | congruence].
Qed.

Lemma rpcCall_ok {A : Type} (promiseFn : nat -> Attempt A) :
  run_ok promiseFn O (rpcCall promiseFn).
Proof. unfold rpcCall. apply rpcLoop_ok; reflexivity. Qed.

Lemma rpcCall_attempts_pos {A : Type} (promiseFn : nat -> Attempt A) :
  (1 <= attempts (rpcCall promiseFn))%nat.
Proof. unfold rpcCall, numRetries. apply rpcLoop_attempts_gt. Qed.

(** When every attempt fails, [rpcCall] answers [undefined]. *)
Lemma rpcCall_all_fail {A : Type} (promiseFn : nat -> Attempt A) :
  (forall i, exists e, promiseFn i = Fails e) ->
  result (rpcCall promiseFn) = Fulfilled None.
Proof.
  intros Hfail. destruct (rpcCall_ok promiseFn) as (_ & _ & _ & _ & He).
  destruct (Hfail (attempts (rpcCall promiseFn) - 1)%nat) as [e Hlast].
  exact (He e Hlast).
Qed.

(** [fetchWithTimeout] settles whatever the request does. *)
Lemma fetchWithTimeout_settles {R : Type} (timeout : option Z) (f : FetchBehaviour R) :
  fetchWithTimeout timeout f <> NeverSettles.
Proof.
  unfold fetchWithTimeout. destruct f as [ms [resp|e]|]; try congruence;
    destruct (ms <? _); congruence.
Qed.




End Retry.

(* ================================================================== *)
(** * Properties: nodes that keep their value when a read fails *)
(* ================================================================== *)

Section KeepOnFailure.
Import Format Rpc Nodes.
Context `{L : Lib}.


End KeepOnFailure.


(* ================================================================== *)
(** * Properties: the preference store *)
(* ================================================================== *)

Section PreferenceStore.
Import Idb.



End PreferenceStore.

(* ================================================================== *)
(** * Properties: wallet-provider events *)
(* ================================================================== *)

Section WalletEvents.
Import Wallet.

(** [getWallet] always ends with one write of the [wallet] node. *)
Lemma getWallet_writes_wallet (P : Provider) (accounts : option (list string)) (s : State) :
  exists w, snd (getWallet P accounts s) = [DataflowSet [("wallet", w)]].
Proof.
  unfold getWallet, getAccounts, bind, try_catch, read, await, ret.
  destruct accounts as [a|]; cbn; [eauto|].
  destruct (web3ModalProvider s); cbn; [|eauto].
  destruct (eth_accounts P) as [ac|]; cbn; eauto.
Qed.

(** C5, counterexample. A [chainChanged] event makes no [dataflow.set]
    call at all: the handler records the chain id and reloads the page. *)
Lemma chainChanged_writes_no_chainId :
  let P := mkProvider (Normal (Some ["0xabc"])) in
  let s := mkState (Some 1%nat) (Some "0xabc") (ChainNum 1) in
  effectsOf P (chainChanged (Some "0x89")) s = [Reload]
  /\ writesNode "chainId" (effectsOf P (chainChanged (Some "0x89")) s) = false.
Proof. split; reflexivity. Qed.

(** C5, amended. An [accountsChanged] event writes the [wallet] node with
    the first account of the event (or [undefined]); a [disconnect] event
    writes [chainId] and [wallet] to [undefined] in one call; a [connect]
    event writes the [wallet] node; a [chainChanged] event writes no node:
    its handler reloads the page. *)
Theorem wallet_events_reach_dataflow :
  forall (P : Provider) (s : State),
    (forall accounts,
        In [("wallet", of_str (firstAccount accounts))]
           (writesOf (effectsOf P (accountsChanged accounts) s)))
    /\ In [("chainId", VUndef); ("wallet", VUndef)]
          (writesOf (effectsOf P disconnect s))
    /\ writesNode "wallet" (effectsOf P connect s) = true
    /\ (forall chainId, writesOf (effectsOf P (chainChanged chainId) s) = [])
    /\ (forall chainId, effectsOf P (chainChanged (Some chainId)) s = [Reload]).
Proof.
  intros P s. repeat split.
  - intros accounts. destruct s as [[p|] w c], accounts as [[|a l]|];
      cbn; auto.
  - destruct s as [[p|] w c]; cbn; auto.
  - unfold effectsOf, handle, onConnect.
    unfold bind at 1.
    destruct (getWallet_writes_wallet P None s) as [w Hw].
    destruct (getWallet P None s) as [[[r|] s'] out]; cbn in Hw; subst out;
      reflexivity.
  - intros [c|]; reflexivity.
Qed.

End WalletEvents.

(* ================================================================== *)
(** * Properties: the buy() simulation *)
(* ================================================================== *)

Section BuySimulation.
Import Format Nodes Vocab.

Variable cv : ContractVals.
Variables allowBuying allowMinting : bool.

(** Closes the cases of a step that spends nothing. *)
Ltac same_funds H :=
  destruct H as [H|H]; inversion H; subst; unfold conserved; cbn; lia.

(** A charge never exceeds the funds that remain. *)
Lemma clamped_le (price amount maxAmt : Z) :
  dublrToEthRoundUpClamped price amount maxAmt <= maxAmt.
Proof.
  unfold dublrToEthRoundUpClamped.
  destruct (Z.ltb_spec (Z.quot (amount * price + (e9 - 1)) e9) maxAmt); lia.
Qed.

(** The charge is the clamped ceiling of [amount * price / 1e9]. *)
Lemma clamped_round_up (price amount maxAmt : Z) :
  exists q,
    dublrToEthRoundUpClamped price amount maxAmt = Z.min q maxAmt
    /\ (0 <= amount * price -> amount * price <= q * e9 < amount * price + e9).
Proof.
  exists (Z.quot (amount * price + (e9 - 1)) e9). split.
  - unfold dublrToEthRoundUpClamped.
    destruct (Z.ltb_spec (Z.quot (amount * price + (e9 - 1)) e9) maxAmt); lia.
  - intros Hnn. unfold e9 in *.
    rewrite Z.quot_div_nonneg by lia.
    pose proof (Z.div_mod (amount * price + (1000000000 - 1)) 1000000000 ltac:(lia)).
    pose proof (Z.mod_pos_bound (amount * price + (1000000000 - 1)) 1000000000 ltac:(lia)).
    lia.
Qed.

Lemma buyStep_conserved (amt : Z) (s s' : Sim) :
  conserved amt s ->
  buyStep cv allowBuying s = Continue s' \/ buyStep cv allowBuying s = Stop s' ->
  conserved amt s'.
Proof.
  intros [Hsum Hrem] Hstep. unfold buyStep in Hstep.
  destruct (orderbookCopy s) as [|sellOrder rest]; [same_funds Hstep|].
  destruct (buyingEnabled cv && allowBuying && (0 <? buyOrderRemainingNWCWEI s))%bool;
    [|same_funds Hstep].
  destruct (isMintPriceEntry sellOrder); [same_funds Hstep|].
  destruct (isOwnOrder cv s sellOrder); [same_funds Hstep|].
  destruct ((0 <? mintPriceNWCPerDUBLR_x1e9 cv)
            && (mintPriceNWCPerDUBLR_x1e9 cv <? be_priceNWCPerDUBLR_x1e9 sellOrder))%bool;
    [same_funds Hstep|].
  destruct (ethToDublr (be_priceNWCPerDUBLR_x1e9 sellOrder) (buyOrderRemainingNWCWEI s))
    as [afford|]; [|destruct Hstep as [H|H]; discriminate].
  destruct (afford =? 0); [same_funds Hstep|].
  destruct Hstep as [H|H]; [|discriminate].
  inversion H; subst s'; clear H. unfold conserved; cbn.
  match goal with |- context [dublrToEthRoundUpClamped ?p ?a ?m] =>
    pose proof (clamped_le p a m) end.
  lia.
Qed.

(** Funds are conserved at every iteration of the loop. *)
Lemma buyTrace_conserved (amt : Z) :
  forall (n : nat) (s : Sim),
    conserved amt s -> Forall (conserved amt) (buyTrace cv allowBuying n s).
Proof.
  induction n as [|n IH]; intros s Hs; cbn [buyTrace].
  - constructor; [assumption | constructor].
  - constructor; [assumption|].
    destruct (buyStep cv allowBuying s) as [s'|s'|] eqn:Hstep.
    + apply IH. eapply buyStep_conserved; eauto.
    + constructor; [|constructor]. eapply buyStep_conserved; eauto.
    + constructor.
Qed.

Lemma buyLoop_conserved (amt : Z) :
  forall (fuel : nat) (s s' : Sim),
    conserved amt s ->
    buyLoop cv allowBuying fuel s = Some (Normal s') ->
    conserved amt s'.
Proof.
  induction fuel as [|fuel IH]; intros s s' Hs Hloop; cbn [buyLoop] in Hloop;
    [discriminate|].
  destruct (buyStep cv allowBuying s) as [s1|s1|] eqn:Hstep.
  - eapply IH; [|exact Hloop]. eapply buyStep_conserved; eauto.
  - inversion Hloop; subst. eapply buyStep_conserved; eauto.
  - discriminate.
Qed.

Lemma mintStep_conserved (amt : Z) (s s' : Sim) :
  conserved amt s -> mintStep cv allowMinting s = Normal s' -> conserved amt s'.
Proof.
  intros [Hsum Hrem] Hmint. unfold mintStep in Hmint.
  destruct (mintingEnabled cv && allowMinting && negb (skipMinting s)
            && (0 <? mintPriceNWCPerDUBLR_x1e9 cv)
            && (0 <? buyOrderRemainingNWCWEI s))%bool;
    [|inversion Hmint; subst s'; split; assumption].
  destruct (ethToDublr (mintPriceNWCPerDUBLR_x1e9 cv) (buyOrderRemainingNWCWEI s))
    as [toMint|]; [|discriminate].
  destruct (0 <? toMint); inversion Hmint; subst s'; [|split; assumption].
  unfold conserved; cbn.
  match goal with |- context [dublrToEthRoundUpClamped ?p ?a ?m] =>
    pose proof (clamped_le p a m) end.
  lia.
Qed.

(** The minting branch cannot throw: it divides by a positive mint price. *)
Lemma mintStep_normal (s : Sim) : exists s', mintStep cv allowMinting s = Normal s'.
Proof.
  unfold mintStep.
  destruct (mintingEnabled cv && allowMinting && negb (skipMinting s)
            && (0 <? mintPriceNWCPerDUBLR_x1e9 cv)
            && (0 <? buyOrderRemainingNWCWEI s))%bool eqn:Hguard; [|eauto].
  apply andb_prop in Hguard as [Hguard _]. apply andb_prop in Hguard as [_ Hpos].
  apply Z.ltb_lt in Hpos.
  unfold ethToDublr, bn_div.
  destruct (Z.eqb_spec (mintPriceNWCPerDUBLR_x1e9 cv) 0) as [Hz|_]; [lia|].
  destruct (0 <? _); eauto.
Qed.

(** ** Termination on well-formed orderbooks *)

Lemma iterationsLeft_shift (s s' : Sim) (e : BookEntry) :
  orderbookCopy s = e :: orderbookCopy s' ->
  (iterationsLeft s' < iterationsLeft s)%nat.
Proof.
  intros Hbook. unfold iterationsLeft. rewrite Hbook. cbn [length].
  destruct (exhausted s'), (exhausted s); lia.
Qed.

Lemma buyStep_progress (s : Sim) :
  wellFormedSim s ->
  match buyStep cv allowBuying s with
  | Continue s' => wellFormedSim s' /\ (iterationsLeft s' < iterationsLeft s)%nat
  | Stop _ => True
  | Crash => False
  end.
Proof.
  intros [Hbook Hrem]. unfold buyStep.
  destruct (orderbookCopy s) as [|sellOrder rest] eqn:Hs; [exact I|].
  destruct (buyingEnabled cv && allowBuying && (0 <? buyOrderRemainingNWCWEI s))%bool;
    [|exact I].
  inversion Hbook as [|? ? Hhead Hrest]; subst.
  destruct (isMintPriceEntry sellOrder) eqn:Hmint.
  { split; [split; assumption|]. eapply iterationsLeft_shift. rewrite Hs. reflexivity. }
  destruct (isOwnOrder cv s sellOrder).
  { split; [split; assumption|]. eapply iterationsLeft_shift. rewrite Hs. reflexivity. }
  destruct ((0 <? mintPriceNWCPerDUBLR_x1e9 cv)
            && (mintPriceNWCPerDUBLR_x1e9 cv <? be_priceNWCPerDUBLR_x1e9 sellOrder))%bool;
    [exact I|].
  destruct Hhead as [Hm|[Hprice Hamount]]; [congruence|].
  set (p := be_priceNWCPerDUBLR_x1e9 sellOrder) in *.
  set (R := buyOrderRemainingNWCWEI s) in *.
  unfold ethToDublr, bn_div.
  destruct (Z.eqb_spec p 0) as [Hz|_]; [lia|].
  assert (He9 : e9 = 1000000000) by reflexivity.
  assert (Hquot : Z.quot (R * e9) p = R * e9 / p) by (apply Z.quot_div_nonneg; lia).
  rewrite Hquot. set (a := R * e9 / p) in *.
  pose proof (Z.div_mod (R * e9) p ltac:(lia)) as Hdm. fold a in Hdm.
  pose proof (Z.mod_pos_bound (R * e9) p Hprice) as Hmod.
  assert (Ha : 0 <= a) by (apply Z.div_pos; lia).
  destruct (Z.eqb_spec a 0) as [Ha0|Ha0]; [exact I|].
  destruct (Z.ltb_spec (be_amountDUBLRWEI sellOrder) a) as [Hlt|Hge].
  - (* the order is bought whole *)
    rewrite Z.sub_diag. cbn [Z.eqb].
    split.
    + split; [assumption|]. cbn.
      pose proof (clamped_le p (be_amountDUBLRWEI sellOrder) R). lia.
    + eapply iterationsLeft_shift. rewrite Hs. reflexivity.
  - destruct (Z.eqb_spec (be_amountDUBLRWEI sellOrder - a) 0) as [Hall|Hpart].
    + split.
      * split; [assumption|]. cbn. pose proof (clamped_le p a R). lia.
      * eapply iterationsLeft_shift. rewrite Hs. reflexivity.
    + (* the order is bought in part: the funds are exhausted *)
      destruct (clamped_round_up p a R) as (q & Hq & Hceil).
      specialize (Hceil ltac:(nia)).
      assert (Hleft : (R - dublrToEthRoundUpClamped p a R) * e9 < p).
      { rewrite Hq. destruct (Z.min_spec q R) as [[_ ->]|[_ ->]]; nia. }
      split.
      * split; cbn.
        -- constructor; [|assumption]. right. cbn. fold p. lia.
        -- pose proof (clamped_le p a R). lia.
      * unfold iterationsLeft, exhausted. cbn. rewrite Hs. cbn. rewrite Hmint. cbn.
        fold p R.
        destruct (Z.ltb_spec ((R - dublrToEthRoundUpClamped p a R) * e9) p); [|lia].
        destruct (Z.ltb_spec (R * e9) p); [nia|]. lia.
Qed.

Lemma buyLoop_terminates :
  forall (fuel : nat) (s : Sim),
    wellFormedSim s ->
    (iterationsLeft s < fuel)%nat ->
    exists s', buyLoop cv allowBuying fuel s = Some (Normal s').
Proof.
  induction fuel as [|fuel IH]; intros s Hwf Hfuel; [lia|].
  cbn [buyLoop]. pose proof (buyStep_progress s Hwf) as Hstep.
  destruct (buyStep cv allowBuying s) as [s1|s1|].
  - destruct Hstep as [Hwf1 Hless]. apply IH; [assumption | lia].
  - eauto.
  - contradiction.
Qed.

End BuySimulation.

(** C9. For a positive buy amount, [totSpentNWCWEI +
    buyOrderRemainingNWCWEI] equals the amount and
    [buyOrderRemainingNWCWEI] is not negative at every iteration of the
    simulated loop and after the minting branch, whatever the orderbook and
    the contract values; so the "Total to spend" of a run that returns is
    the total charged and does not exceed the amount.  Each charge is the
    ceiling of [amount * price / 1e9], less than one unit above the exact
    value, clamped to the funds that remain.  On an orderbook whose sell
    orders have a positive price and an amount that is not negative the run
    does return, within two iterations per entry. *)
Theorem buy_simulation_conserves_funds :
  forall (cv : Nodes.ContractVals) (allowBuying allowMinting : bool)
         (buyAmountNWCWEI : Z) (orderbook : list Nodes.BookEntry) (maxSlippage : Z),
    0 < buyAmountNWCWEI ->
    (forall n,
        Forall (Vocab.conserved buyAmountNWCWEI)
          (Nodes.buyTrace cv allowBuying n (Nodes.initSim buyAmountNWCWEI orderbook)))
    /\ (forall fuel est,
           Nodes.amountBoughtEstDUBLRWEI fuel (Some cv) (Some buyAmountNWCWEI)
             (Some allowBuying) (Some allowMinting) (Some orderbook) (Some maxSlippage)
           = Some (Normal (Some est)) ->
           Vocab.conserved buyAmountNWCWEI (Nodes.finalSim est)
           /\ Nodes.totalToSpendNWCWEI est = Nodes.totSpentNWCWEI (Nodes.finalSim est)
           /\ Nodes.totalToSpendNWCWEI est <= buyAmountNWCWEI
           /\ 0 <= Nodes.refundedChangeNWCWEI est)
    /\ (forall price amount remaining,
           exists q,
             Format.dublrToEthRoundUpClamped price amount remaining = Z.min q remaining
             /\ (0 <= amount * price ->
                 amount * price <= q * Format.e9 < amount * price + Format.e9))
    /\ (Vocab.wellFormedBook orderbook ->
        exists result,
          Nodes.amountBoughtEstDUBLRWEI (2 * length orderbook + 2) (Some cv)
            (Some buyAmountNWCWEI) (Some allowBuying) (Some allowMinting)
            (Some orderbook) (Some maxSlippage)
          = Some (Normal result)).
Proof.
  intros cv ab am amt book slip Hamt.
  assert (Hinit : Vocab.conserved amt (Nodes.initSim amt book)).
  { unfold Vocab.conserved. cbn. lia. }
  split; [|split; [|split]].
  - intros n. apply buyTrace_conserved. exact Hinit.
  - intros fuel est Hrun. unfold Nodes.amountBoughtEstDUBLRWEI in Hrun.
    destruct (negb ab && negb am)%bool; [discriminate|].
    destruct (Nodes.buyLoop cv ab fuel (Nodes.initSim amt book)) as [[s|]|] eqn:Hloop;
      try discriminate.
    destruct (Nodes.mintStep cv am s) as [s'|] eqn:Hmint; [|discriminate].
    inversion Hrun; subst est; clear Hrun. cbn.
    assert (Hs' : Vocab.conserved amt s').
    { eapply mintStep_conserved; [|exact Hmint].
      eapply buyLoop_conserved; [exact Hinit | exact Hloop]. }
    destruct Hs' as [Hsum Hrem]. unfold Vocab.conserved. repeat split; lia.
  - intros price amount remaining. apply clamped_round_up.
  - intros Hwf. unfold Nodes.amountBoughtEstDUBLRWEI.
    destruct (negb ab && negb am)%bool; [eauto|].
    destruct (buyLoop_terminates cv ab (2 * length book + 2) (Nodes.initSim amt book))
      as [s Hs].
    + split; [exact Hwf | cbn; lia].
    + unfold Vocab.iterationsLeft. cbn [Nodes.orderbookCopy Nodes.initSim].
      destruct (Vocab.exhausted _); lia.
    + rewrite Hs. destruct (mintStep_normal cv am s) as [s' Hs']. rewrite Hs'. eauto.
Qed.

(** The theorem on an orderbook with two sell orders and the mint-price
    row: 99 of the 100 units are spent, 1 is refunded. *)
Lemma buy_simulation_conserves_funds_witness :
  let cv := Nodes.mkContractVals (Some 100) (Some 5) (Nodes.mkSellOrder 0 0) []
              2000000000 None None true true true (Some 30000000) in
  let book := [Nodes.mkBookEntry 1000000000 30 false;
               Nodes.mkBookEntry 1500000000 100 false;
               Nodes.mkBookEntry 2000000000 0 true] in
  0 < 100
  /\ Forall (Vocab.conserved 100) (Nodes.buyTrace cv true 8 (Nodes.initSim 100 book))
  /\ (exists result,
        Nodes.amountBoughtEstDUBLRWEI 8 (Some cv) (Some 100) (Some true) (Some true)
          (Some book) (Some 990000000) = Some (Normal result)).
Proof.
  intros cv book.
  assert (Hpos : 0 < 100) by lia.
  destruct (buy_simulation_conserves_funds cv true true 100 book 990000000 Hpos)
    as (Htrace & _ & _ & Hreturns).
  split; [exact Hpos|]. split; [apply Htrace|].
  apply Hreturns.
  constructor; [right; cbn; lia|].
  constructor; [right; cbn; lia|].
  constructor; [left; reflexivity|].
  constructor.
Defined.

(* ================================================================== *)
(** * Properties: equal-value writes *)
(* ================================================================== *)

Section EqualValueWrites.
Import Core.

Lemma get_insert_same (store : Store) (name : string) (e : Entry) :
  get (<[name := e]> store) name = value e.
Proof. unfold get. rewrite lookup_insert_eq. reflexivity. Qed.

Lemma generationOf_insert_same (store : Store) (name : string) (e : Entry) :
  generationOf (<[name := e]> store) name = generation e.
Proof. unfold generationOf. rewrite lookup_insert_eq. reflexivity. Qed.

Lemma writeField_other (acc : Store * list string) (k name : string) (v : Val) :
  k <> name ->
  get (fst (writeField acc (k, v))) name = get (fst acc) name
  /\ generationOf (fst (writeField acc (k, v))) name = generationOf (fst acc) name.
Proof.
  intros Hne. unfold writeField. cbn [fst snd].
  destruct (decide (get (fst acc) k = v)); [split; reflexivity|].
  cbn [fst]. unfold get, generationOf. rewrite lookup_insert_ne by assumption.
  split; reflexivity.
Qed.

Lemma writeField_get (acc : Store * list string) (name : string) (v : Val) :
  get (fst (writeField acc (name, v))) name = v.
Proof.
  unfold writeField. cbn [fst snd].
  destruct (decide (get (fst acc) name = v)); [assumption|].
  cbn [fst]. apply get_insert_same.
Qed.

Lemma writeField_equal (acc : Store * list string) (name : string) (v : Val) :
  get (fst acc) name = v -> writeField acc (name, v) = acc.
Proof.
  intros Heq. unfold writeField. cbn [fst snd].
  destruct (decide (get (fst acc) name = v)); [reflexivity | contradiction].
Qed.

Lemma writeField_replaced (acc : Store * list string) (name : string) (v : Val) :
  get (fst acc) name <> v ->
  generationOf (fst (writeField acc (name, v))) name = S (generationOf (fst acc) name).
Proof.
  intros Hne. unfold writeField. cbn [fst snd].
  destruct (decide (get (fst acc) name = v)); [contradiction|].
  cbn [fst]. apply generationOf_insert_same.
Qed.

Lemma writeField_generation_le (acc : Store * list string) (name : string) (v : Val) :
  (generationOf (fst acc) name <= generationOf (fst (writeField acc (name, v))) name)%nat.
Proof.
  destruct (decide (get (fst acc) name = v)) as [Heq|Hne].
  - rewrite writeField_equal by assumption. lia.
  - rewrite writeField_replaced by assumption. lia.
Qed.

(** Nothing depends on an empty change set. *)
Lemma dependents_nil (g : Graph) : dependents g [] = [].
Proof.
  unfold dependents. induction g as [|[n deps] g IH]; [reflexivity|].
  cbn [List.filter snd].
  assert (Hnone : existsb (fun d => bool_decide (d ∈ ([] : list string))) deps = false).
  { induction deps as [|d deps IHd]; [reflexivity|]. cbn [existsb].
    rewrite IHd. rewrite bool_decide_eq_false_2; [reflexivity|]. apply not_elem_of_nil. }
  rewrite Hnone. exact IH.
Qed.

Lemma triggered_nil (g : Graph) : triggered g [] = [].
Proof.
  unfold triggered. destruct (length g); cbn [closure]; [reflexivity|].
  rewrite dependents_nil. reflexivity.
Qed.

(** Clearing a node and setting it again raises its generation, whatever
    it held, when the two writes also assign another node first. *)
Lemma clear_then_set_two_fields (store : Store) (other name : string) (v : Val) :
  other <> name ->
  v <> VUndef ->
  let store' := writeAll [ [(other, VUndef); (name, VUndef)];
                           [(other, v); (name, v)] ] store in
  (generationOf store name < generationOf store' name)%nat
  /\ get store' name = v.
Proof.
  intros Hne Hv. cbn zeta. unfold writeAll, write. cbn [fold_left].
  set (a1 := writeField (store, []) (other, VUndef)).
  set (a2 := writeField a1 (name, VUndef)).
  set (b1 := writeField (fst a2, []) (other, v)).
  set (b2 := writeField b1 (name, v)).
  assert (Ha1 : generationOf (fst a1) name = generationOf store name).
  { apply (writeField_other (store, []) other name VUndef Hne). }
  assert (Ha2 : (generationOf (fst a1) name <= generationOf (fst a2) name)%nat).
  { apply writeField_generation_le. }
  assert (Hg2 : get (fst a2) name = VUndef) by apply writeField_get.
  destruct (writeField_other (fst a2, []) other name v Hne) as [Hb1g Hb1n].
  fold b1 in Hb1g, Hb1n. cbn [fst] in Hb1g, Hb1n.
  assert (Hb2 : generationOf (fst b2) name = S (generationOf (fst b1) name)).
  { apply writeField_replaced. rewrite Hb1g, Hg2. congruence. }
  split; [lia | apply writeField_get].
Qed.

End EqualValueWrites.

(** C2. Writing a node the value it already holds leaves the store as it
    is: the node's generation is not incremented, no node is marked changed
    and no dependent node is triggered.  Writing [undefined] and then the
    value again increments the generation twice, and this is the sequence
    [updateListPriceUI] uses: when the list-price field is blank it makes
    two [dataflow.set] calls, the first with [undefined] and the second with
    the formatted mint price, after which the generation of [listPrice_in]
    is higher than before whatever the store held. *)
Theorem equal_value_write_is_noop `{L : Lib} :
  forall (store : gmap string Core.Entry) (g : Core.Graph) (name : string) (v : Val),
    Core.get store name = v ->
    Core.write [(name, v)] store = (store, [])
    /\ Core.generationOf (fst (Core.write [(name, v)] store)) name
       = Core.generationOf store name
    /\ Core.triggered g (snd (Core.write [(name, v)] store)) = []
    /\ (v <> VUndef ->
        Core.generationOf (Core.writeAll [[(name, VUndef)]; [(name, v)]] store) name
        = (Core.generationOf store name + 2)%nat
        /\ Core.get (Core.writeAll [[(name, VUndef)]; [(name, v)]] store) name = v)
    /\ (forall (listPrice_in : string) (cv : Nodes.ContractVals),
           trim listPrice_in = "" ->
           let listPrice := Format.formatPrice (Some (Nodes.mintPriceNWCPerDUBLR_x1e9 cv)) in
           let sets := Nodes.updateListPriceUI (Some listPrice_in) (Some cv) in
           sets = [ [("listPrice_out", VUndef); ("listPrice_in", VUndef)];
                    [("listPrice_out", VStr listPrice); ("listPrice_in", VStr listPrice)] ]
           /\ (Core.generationOf store "listPrice_in"
               < Core.generationOf (Core.writeAll sets store) "listPrice_in")%nat
           /\ Core.get (Core.writeAll sets store) "listPrice_in" = VStr listPrice).
Proof.
  intros store g name v Hheld.
  assert (Hnoop : Core.write [(name, v)] store = (store, [])).
  { unfold Core.write. cbn [fold_left]. apply writeField_equal. exact Hheld. }
  split; [exact Hnoop|]. rewrite Hnoop. cbn [fst snd].
  split; [reflexivity|]. split; [apply triggered_nil|]. split.
  - intros Hv. unfold Core.writeAll, Core.write. cbn [fold_left].
    set (a := Core.writeField (store, []) (name, VUndef)).
    assert (Ha : Core.generationOf (fst a) name = S (Core.generationOf store name)).
    { apply (writeField_replaced (store, [])). cbn [fst]. congruence. }
    assert (Hg : Core.get (fst a) name = VUndef) by apply writeField_get.
    split; [|apply writeField_get].
    rewrite (writeField_replaced (fst a, [])); cbn [fst]; [lia | congruence].
  - intros listPrice_in cv Hblank. cbn zeta.
    assert (Hsets : Nodes.updateListPriceUI (Some listPrice_in) (Some cv)
                    = [ [("listPrice_out", VUndef); ("listPrice_in", VUndef)];
                        [("listPrice_out",
                          VStr (Format.formatPrice (Some (Nodes.mintPriceNWCPerDUBLR_x1e9 cv))));
                         ("listPrice_in",
                          VStr (Format.formatPrice (Some (Nodes.mintPriceNWCPerDUBLR_x1e9 cv))))] ]).
    { unfold Nodes.updateListPriceUI. rewrite Hblank. reflexivity. }
    rewrite Hsets. split; [reflexivity|].
    apply clear_then_set_two_fields; discriminate.
Qed.

(** The theorem at a store that already holds the mint price in
    [listPrice_in], with a list-price field of two blanks. *)
Lemma equal_value_write_is_noop_witness :
  let store : gmap string Core.Entry :=
    <["listPrice_in" := Core.mkEntry (VStr "0.000001500") 3]> ∅ in
  Core.write [("listPrice_in", VStr "0.000001500")] store = (store, [])
  /\ Core.generationOf
       (Core.writeAll [[("listPrice_in", VUndef)]; [("listPrice_in", VStr "0.000001500")]] store)
       "listPrice_in" = 5%nat.
Proof.
  intros store.
  destruct (equal_value_write_is_noop (L := Decimal.lib) store [] "listPrice_in"
              (VStr "0.000001500") eq_refl) as (Hnoop & _ & _ & Hclear & _).
  split; [exact Hnoop|].
  destruct (Hclear ltac:(discriminate)) as [Hgen _]. exact Hgen.
Defined.

(* ================================================================== *)
(** * Properties: stale results *)
(* ================================================================== *)

Section StaleResults.
Import Core.

(** The pass generation never decreases. *)
Lemma step_currentPass_mono (s : Sched) (e : Event) :
  (currentPass s <= currentPass (step s e))%nat.
Proof.
  destruct e as [b|pass node v]; cbn [step].
  - destruct (write b (store s)) as [store' [|c changed]]; cbn [currentPass]; lia.
  - destruct (pass =? currentPass s)%nat; cbn [currentPass]; lia.
Qed.

Lemma runEvents_currentPass_mono (evs : list Event) :
  forall s : Sched, (currentPass s <= currentPass (runEvents s evs))%nat.
Proof.
  induction evs as [|e evs IH]; intros s; cbn [runEvents fold_left]; [lia|].
  pose proof (step_currentPass_mono s e). pose proof (IH (step s e)).
  unfold runEvents in *. lia.
Qed.

(** A step records no commit for a superseded pass. *)
Lemma step_commitsOf_superseded (s : Sched) (e : Event) (pass : nat) :
  superseded pass s -> commitsOf pass (step s e) = commitsOf pass s.
Proof.
  unfold superseded, commitsOf. intros Hlt.
  destruct e as [b|pass' node v]; cbn [step].
  - destruct (write b (store s)) as [store' [|c changed]]; reflexivity.
  - destruct (Nat.eqb_spec pass' (currentPass s)) as [Heq|Hne]; [|reflexivity].
    cbn [commits]. rewrite List.filter_app. cbn [List.filter fst].
    destruct (Nat.eqb_spec pass' pass) as [Hsame|Hdiff]; [lia|].
    apply app_nil_r.
Qed.

Lemma runEvents_commitsOf_superseded (evs : list Event) (pass : nat) :
  forall s : Sched,
    superseded pass s -> commitsOf pass (runEvents s evs) = commitsOf pass s.
Proof.
  induction evs as [|e evs IH]; intros s Hsup; cbn [runEvents fold_left];
    [reflexivity|].
  change (fold_left step evs (step s e)) with (runEvents (step s e) evs).
  rewrite IH.
  - apply step_commitsOf_superseded. exact Hsup.
  - unfold superseded in *. pose proof (step_currentPass_mono s e). lia.
Qed.

(** A computation of the current pass is committed: the node holds the
    resolved value afterwards and the commit is recorded. *)
Lemma current_results_are_committed (s : Sched) (node : string) (v : Val) :
  let s' := step s (ComputeResolved (currentPass s) node v) in
  get (store s') node = v
  /\ commits s' = (commits s ++ [(currentPass s, node, v)])%list.
Proof.
  cbn [step]. rewrite Nat.eqb_refl. cbn [store commits].
  split; [|reflexivity].
  unfold write. cbn [fold_left]. apply writeField_get.
Qed.

Lemma runEvents_app (s : Sched) (evs evs' : list Event) :
  runEvents s (evs ++ evs') = runEvents (runEvents s evs) evs'.
Proof. unfold runEvents. apply fold_left_app. Qed.

End StaleResults.

(** C1. Once a pass is superseded it stays superseded, and a compute
    function of that pass that resolves afterwards, however many events
    later, changes nothing: the Value Store is the same before and after
    the resolution, and no commit is ever recorded for the pass beyond those
    made before it was superseded.  An external write that changes a node
    supersedes the pass that was current. *)
Theorem stale_results_are_discarded :
  forall (s : Core.Sched) (evs : list Core.Event) (pass : nat) (node : string) (v : Val),
    Core.superseded pass s ->
    let s' := Core.runEvents s evs in
    Core.superseded pass s'
    /\ Core.step s' (Core.ComputeResolved pass node v) = s'
    /\ Core.store (Core.runEvents s (evs ++ [Core.ComputeResolved pass node v]))
       = Core.store s'
    /\ Core.commitsOf pass (Core.runEvents s (evs ++ [Core.ComputeResolved pass node v]))
       = Core.commitsOf pass s
    /\ (forall b : Batch,
           snd (Core.write b (Core.store s')) <> [] ->
           Core.superseded (Core.currentPass s') (Core.step s' (Core.ExternalWrite b))).
Proof.
  intros s evs pass node v Hsup. cbn zeta.
  assert (Hsup' : Core.superseded pass (Core.runEvents s evs)).
  { unfold Core.superseded in *. pose proof (runEvents_currentPass_mono evs s). lia. }
  assert (Hdrop : Core.step (Core.runEvents s evs) (Core.ComputeResolved pass node v)
                  = Core.runEvents s evs).
  { cbn [Core.step]. unfold Core.superseded in Hsup'.
    destruct (Nat.eqb_spec pass (Core.currentPass (Core.runEvents s evs))); [lia|].
    reflexivity. }
  split; [exact Hsup'|]. split; [exact Hdrop|]. split; [|split].
  - rewrite runEvents_app. cbn [Core.runEvents fold_left].
    unfold Core.runEvents in Hdrop |- *. rewrite Hdrop. reflexivity.
  - apply runEvents_commitsOf_superseded. exact Hsup.
  - intros b Hchanged. unfold Core.superseded. cbn [Core.step].
    destruct (Core.write b (Core.store (Core.runEvents s evs))) as [store' [|c changed]];
      [contradiction|].
    cbn [Core.currentPass]. lia.
Qed.

(** The theorem on the scenario of two writes of [a]: the first starts
    pass 1, the second supersedes it with pass 2, [c] of pass 2 commits, and
    then [b] of pass 1 resolves late with the value computed from [a = 1]. *)
Lemma stale_results_are_discarded_witness :
  let s1 := Core.runEvents (Core.mkSched ∅ 0 [])
              [Core.ExternalWrite [("a", VNum 1)]; Core.ExternalWrite [("a", VNum 2)]] in
  let later := [Core.ComputeResolved 2 "c" (VNum 20)] in
  Core.superseded 1 s1
  /\ Core.store (Core.runEvents s1 (later ++ [Core.ComputeResolved 1 "b" (VNum 10)]))
     = Core.store (Core.runEvents s1 later)
  /\ Core.commitsOf 1 (Core.runEvents s1 (later ++ [Core.ComputeResolved 1 "b" (VNum 10)]))
     = [].
Proof.
  intros s1 later.
  assert (Hcur : Core.currentPass s1 = 2%nat) by (vm_compute; reflexivity).
  assert (Hsup : Core.superseded 1 s1) by (unfold Core.superseded; rewrite Hcur; lia).
  destruct (stale_results_are_discarded s1 later 1 "b" (VNum 10) Hsup)
    as (_ & _ & Hstore & Hcommits & _).
  split; [exact Hsup|]. split; [exact Hstore | exact Hcommits].
Defined.

(* ================================================================== *)
(** * Further properties: what a retry achieves *)
(* ================================================================== *)

Section RetryOutcomes.
Import Rpc Vocab.

Lemma backoff_cons (delay : Z) (k : nat) :
  backoff delay 2 (S k) = delay :: backoff (delay * 2) 2 k.
Proof.
  unfold backoff. cbn [seq map]. f_equal; [cbn; lia|].
  rewrite <- seq_shift, map_map. apply map_ext. intros j.
  rewrite Nat2Z.inj_succ, Z.pow_succ_r by lia. lia.
Qed.

(** The loop skips over attempts that fail with a retried error, sleeping
    after each while it is not the last iteration. *)
Lemma rpcLoop_skips_transient {A : Type} (promiseFn : nat -> Attempt A) :
  forall (k n i : nat) (delay : Z) (slept : list Z),
    (i + k <= 4)%nat ->
    (forall j, (i <= j < i + k)%nat ->
               exists e, promiseFn j = Fails e /\ retryable (errMsg e) = true) ->
    rpcLoop promiseFn (k + n) i delay slept
    = rpcLoop promiseFn n (i + k) (delay * 2 ^ Z.of_nat k) (slept ++ backoff delay 2 k)%list.
Proof.
  induction k as [|k IH]; intros n i delay slept Hk Hfail.
  - cbn [Nat.add]. rewrite Nat.add_0_r, Z.mul_1_r.
    unfold backoff. cbn. rewrite app_nil_r. reflexivity.
  - cbn [Nat.add rpcLoop].
    destruct (Hfail i ltac:(lia)) as (e & He & Hretry). rewrite He, Hretry.
    destruct (Nat.ltb_spec i (numRetries - 1)) as [_|Hge];
      [|unfold numRetries in Hge; lia].
    rewrite IH.
    + rewrite backoff_cons, <- app_assoc. cbn [app].
      replace (i + S k)%nat with (S i + k)%nat by lia.
      rewrite Nat2Z.inj_succ, Z.pow_succ_r by lia. unfold expBackoff.
      f_equal. lia.
    + lia.
    + intros j Hj. apply Hfail. lia.
Qed.

Lemma rpcCall_after_transient {A : Type} (promiseFn : nat -> Attempt A) (k : nat) :
  (k <= 4)%nat ->
  (forall j, (j < k)%nat ->
             exists e, promiseFn j = Fails e /\ retryable (errMsg e) = true) ->
  rpcCall promiseFn
  = rpcLoop promiseFn (S (4 - k)) k (125 * 2 ^ Z.of_nat k) (backoff 125 2 k).
Proof.
  intros Hk Hfail. unfold rpcCall, numRetries, initialDelay.
  replace 5%nat with (k + S (4 - k))%nat by lia.
  rewrite rpcLoop_skips_transient; [reflexivity | lia |].
  intros j Hj. apply Hfail. lia.
Qed.

(** X2. Retries recover from transient failures: when the first [k]
    attempts ([k <= 4]) fail with errors that are retried and attempt [k]
    resolves with [v], [rpcCall] is fulfilled with [v] after [k + 1]
    attempts and [k] sleeps of 125, 250, ... ms. *)
Theorem rpcCall_recovers_after_transient_failures {A : Type}
    (promiseFn : nat -> Attempt A) (k : nat) (v : option A) :
  (k <= 4)%nat ->
  (forall j, (j < k)%nat ->
             exists e, promiseFn j = Fails e /\ retryable (errMsg e) = true) ->
  promiseFn k = Resolves v ->
  rpcCall promiseFn = mkRun (Fulfilled v) (S k) (backoff 125 2 k).
Proof.
  intros Hk Hfail Hres. rewrite (rpcCall_after_transient promiseFn k Hk Hfail).
  cbn [rpcLoop]. rewrite Hres. reflexivity.
Qed.

(** The theorem at a read that fails twice with "header not found" and then
    answers 7. *)
Lemma rpcCall_recovers_after_transient_failures_witness :
  rpcCall (fun i => if (i <? 2)%nat
                    then Fails (mkError None (Some "RPC Error: header not found") None)
                    else Resolves (Some 7))
  = mkRun (Fulfilled (Some 7)) 3 [125; 250].
Proof.
  apply (rpcCall_recovers_after_transient_failures
           (fun i => if (i <? 2)%nat
                     then Fails (mkError None (Some "RPC Error: header not found") None)
                     else Resolves (Some 7)) 2 (Some 7)).
  - lia.
  - intros j Hj. exists (mkError None (Some "RPC Error: header not found") None).
    destruct j as [|[|j]]; [split; reflexivity | split; reflexivity | lia].
  - reflexivity.
Defined.

(** X3. An error that is not retried ends the call at once: when the first
    [k] attempts fail with retried errors and attempt [k] fails with any
    other error, [rpcCall] answers [undefined] after [k + 1] attempts,
    without a further attempt and without sleeping after the last one. *)
Theorem rpcCall_stops_at_permanent_error {A : Type}
    (promiseFn : nat -> Attempt A) (k : nat) (e : JsError) :
  (k <= 4)%nat ->
  (forall j, (j < k)%nat ->
             exists e', promiseFn j = Fails e' /\ retryable (errMsg e') = true) ->
  promiseFn k = Fails e ->
  retryable (errMsg e) = false ->
  rpcCall promiseFn = mkRun (Fulfilled None) (S k) (backoff 125 2 k).
Proof.
  intros Hk Hfail Hres Hperm. rewrite (rpcCall_after_transient promiseFn k Hk Hfail).
  cbn [rpcLoop]. rewrite Hres, Hperm. reflexivity.
Qed.

(** The theorem at a read that fails once with "failed to fetch" and then
    reverts. *)
Lemma rpcCall_stops_at_permanent_error_witness :
  rpcCall (A := Z)
    (fun i => if (i <? 1)%nat
              then Fails (mkError None (Some "Failed to fetch") None)
              else Fails (mkError (Some "execution reverted") None None))
  = mkRun (Fulfilled None) 2 [125].
Proof.
  apply (rpcCall_stops_at_permanent_error
           (fun i => if (i <? 1)%nat
                     then Fails (mkError None (Some "Failed to fetch") None)
                     else Fails (mkError (Some "execution reverted") None None))
           1 (mkError (Some "execution reverted") None None)).
  - lia.
  - intros j Hj. exists (mkError None (Some "Failed to fetch") None).
    destruct j as [|j]; [split; reflexivity | lia].
  - reflexivity.
  - reflexivity.
Defined.

End RetryOutcomes.

(* ================================================================== *)
(** * Further properties: price arithmetic *)
(* ================================================================== *)

Section PriceArithmetic.
Import Format.

(** X4. Converting funds to tokens and back never overdraws: for a
    positive price and funds that are not negative, [ethToDublr] does not
    throw and returns the largest amount [a] whose value fits the funds; the
    value of [a], rounded down ([dublrToEth]) or up
    ([dublrToEthRoundUpClamped]), is at most the funds, so the clamp of the
    latter is never what decides, and one more unit would not fit.  With a
    zero price [ethToDublr] throws. *)
Theorem affordable_amount_never_overdraws (price funds : Z) :
  0 < price ->
  0 <= funds ->
  (exists a,
      ethToDublr price funds = Normal a
      /\ 0 <= a
      /\ a * price <= funds * e9 < (a + 1) * price
      /\ dublrToEth price a <= funds
      /\ dublrToEthRoundUpClamped price a funds = Z.quot (a * price + (e9 - 1)) e9
      /\ dublrToEthRoundUpClamped price a funds <= funds)
  /\ ethToDublr 0 funds = Throws.
Proof.
  intros Hp Hf. split; [|reflexivity].
  unfold ethToDublr, bn_div.
  destruct (Z.eqb_spec price 0) as [Hz|_]; [lia|].
  exists (Z.quot (funds * e9) price).
  assert (He9 : e9 = 1000000000) by reflexivity.
  rewrite Z.quot_div_nonneg by lia.
  set (a := funds * e9 / price).
  pose proof (Z.div_mod (funds * e9) price ltac:(lia)) as Hdm. fold a in Hdm.
  pose proof (Z.mod_pos_bound (funds * e9) price Hp) as Hmod.
  assert (Ha : 0 <= a) by (apply Z.div_pos; lia).
  assert (Hfit : a * price <= funds * e9 < (a + 1) * price) by nia.
  assert (Hdown : dublrToEth price a <= funds).
  { unfold dublrToEth. rewrite Z.quot_div_nonneg by nia.
    apply Z.div_le_upper_bound; lia. }
  assert (Hup : Z.quot (a * price + (e9 - 1)) e9 <= funds).
  { rewrite Z.quot_div_nonneg by nia.
    assert (a * price + (e9 - 1) < (funds + 1) * e9) by nia.
    pose proof (Z.div_lt_upper_bound (a * price + (e9 - 1)) e9 (funds + 1)
                  ltac:(lia) ltac:(lia)).
    lia. }
  split; [reflexivity|]. split; [exact Ha|]. split; [exact Hfit|].
  split; [exact Hdown|].
  unfold dublrToEthRoundUpClamped.
  destruct (Z.ltb_spec (Z.quot (a * price + (e9 - 1)) e9) funds); split; lia.
Qed.

(** The theorem at 100 wei of funds and a price of 1.5. *)
Lemma affordable_amount_never_overdraws_witness :
  ethToDublr 1500000000 100 = Normal 66
  /\ dublrToEth 1500000000 66 <= 100
  /\ dublrToEthRoundUpClamped 1500000000 66 100 <= 100.
Proof.
  destruct (affordable_amount_never_overdraws 1500000000 100 ltac:(lia) ltac:(lia))
    as [(a & Ha & _ & _ & Hdown & _ & Hup) _].
  assert (Hv : a = 66) by (cbv in Ha; congruence). subst a.
  split; [exact Ha|]. split; [exact Hdown | exact Hup].
Defined.

End PriceArithmetic.

(* ================================================================== *)
(** * Further properties: the orderbook node *)
(* ================================================================== *)

Section OrderbookRows.
Import Format Nodes Book Terms.
Context `{L : Lib}.
Variable mintPrice : Z.
Variable networkCurrency : option string.
Variable prices : option Price.

Lemma andThen_normal {A B : Type} (c : Completion A) (k : A -> Completion B) (b : B) :
  andThen c k = Normal b -> exists a, c = Normal a /\ k a = Normal b.
Proof. destruct c as [a|]; cbn; [eauto | discriminate]. Qed.

Lemma sellOrderRow_normal (sellOrder : SellOrder) (value cumulValue cumulAmount : Z)
    (row : Row) :
  sellOrderRow sellOrder value cumulValue cumulAmount networkCurrency prices = Normal row ->
  rowTerms row = orderTerms sellOrder
  /\ cumulAmountDUBLRWEI row = cumulAmount
  /\ row_isMintPriceEntry row = false.
Proof.
  unfold sellOrderRow. intros Hrow.
  repeat (apply andThen_normal in Hrow as (? & _ & Hrow)).
  inversion Hrow; subst row. repeat split.
Qed.

Lemma mintPriceRow_normal (cumulAmount : Z) :
  exists table,
    mintPriceRow mintPrice cumulAmount networkCurrency
    = Normal (mkRow mintPrice 0 cumulAmount true table).
Proof. unfold mintPriceRow, makeSubTable. cbn. eauto. Qed.

(** One iteration of the loop, read backwards from its result: the rows
    start with the mint-price row when the test holds, then comes the row of
    the next sell order and the rows of the rest. *)
Lemma orderbookLoop_step (prev : option SellOrder) (rest : list SellOrder)
    (cumulValue cumulAmount : Z) (rows : list Row) :
  orderbookLoop mintPrice networkCurrency prices prev rest cumulValue cumulAmount
  = Normal rows ->
  exists front,
    ((mintRowHere mintPrice prev (List.hd_error rest) = true
      /\ exists table, front = [mkRow mintPrice 0 cumulAmount true table])
     \/ (mintRowHere mintPrice prev (List.hd_error rest) = false /\ front = []))
    /\ match rest with
       | [] => rows = front
       | sellOrder :: rest' =>
           exists row rows',
             rows = (front ++ row :: rows')%list
             /\ rowTerms row = orderTerms sellOrder
             /\ cumulAmountDUBLRWEI row = cumulAmount + amountDUBLRWEI sellOrder
             /\ row_isMintPriceEntry row = false
             /\ orderbookLoop mintPrice networkCurrency prices (Some sellOrder) rest'
                  (cumulValue
                   + dublrToEth (priceNWCPerDUBLR_x1e9 sellOrder) (amountDUBLRWEI sellOrder))
                  (cumulAmount + amountDUBLRWEI sellOrder)
                = Normal rows'
       end.
Proof.
  intros Hloop.
  assert (Hfront : forall front,
             (if mintRowHere mintPrice prev (List.hd_error rest)
              then andThen (mintPriceRow mintPrice cumulAmount networkCurrency)
                     (fun r => Normal [r])
              else Normal []) = Normal front ->
             (mintRowHere mintPrice prev (List.hd_error rest) = true
              /\ exists table, front = [mkRow mintPrice 0 cumulAmount true table])
             \/ (mintRowHere mintPrice prev (List.hd_error rest) = false /\ front = [])).
  { intros front Hf. destruct (mintRowHere mintPrice prev (hd_error rest)).
    - left. split; [reflexivity|].
      destruct (mintPriceRow_normal cumulAmount) as [table Htable].
      rewrite Htable in Hf. cbn in Hf. inversion Hf. eauto.
    - right. inversion Hf. split; reflexivity. }
  destruct rest as [|sellOrder rest']; cbn [orderbookLoop] in Hloop;
    apply andThen_normal in Hloop as (front & Hf & Hloop); exists front;
    (split; [apply Hfront; exact Hf|]).
  - inversion Hloop. reflexivity.
  - apply andThen_normal in Hloop as (row & Hrow & Hloop).
    apply andThen_normal in Hloop as (rows' & Hrows' & Hloop).
    inversion Hloop; subst rows.
    apply sellOrderRow_normal in Hrow as (Hterms & Hcumul & Hmint).
    exists row, rows'. repeat split; assumption.
Qed.

(** The rows carry the sell orders in the order of the loop, each with the
    running total of the amounts; a mint-price row has amount zero. *)
Lemma orderbookLoop_rows :
  forall (rest : list SellOrder) (prev : option SellOrder) (cumulValue cumulAmount : Z)
         (rows : list Row),
    orderbookLoop mintPrice networkCurrency prices prev rest cumulValue cumulAmount
    = Normal rows ->
    map rowTerms (sellRows rows) = map orderTerms rest
    /\ map cumulAmountDUBLRWEI rows = runningSums cumulAmount (map row_amountDUBLRWEI rows)
    /\ Forall (fun r => row_isMintPriceEntry r = true -> rowTerms r = (mintPrice, 0)) rows.
Proof.
  induction rest as [|sellOrder rest' IH]; intros prev cumulValue cumulAmount rows Hloop;
    apply orderbookLoop_step in Hloop as (front & Hfront & Hrows).
  - subst rows.
    destruct Hfront as [[_ [table ->]]|[_ ->]]; cbn; rewrite ?Z.add_0_r; repeat split;
      repeat constructor.
  - destruct Hrows as (row & rows' & -> & Hterms & Hcumul & Hmint & Hrest).
    apply IH in Hrest as (IHterms & IHcumul & IHmint).
    assert (Hamount : row_amountDUBLRWEI row = amountDUBLRWEI sellOrder).
    { unfold rowTerms, orderTerms in Hterms. congruence. }
    destruct Hfront as [[_ [table ->]]|[_ ->]]; unfold sellRows in *;
      cbn [app List.filter map runningSums row_isMintPriceEntry negb
           cumulAmountDUBLRWEI row_amountDUBLRWEI];
      rewrite Hmint; cbn [negb map]; rewrite ?Z.add_0_r.
    + split; [congruence|]. split.
      * rewrite Hcumul, Hamount, IHcumul. reflexivity.
      * constructor; [intros _; reflexivity|].
        constructor; [congruence | assumption].
    + split; [congruence|]. split.
      * rewrite Hcumul, Hamount, IHcumul. reflexivity.
      * constructor; [congruence | assumption].
Qed.

(** On prices that never decrease the mint-price row is pushed once, at
    the place that keeps the rows in order; it is not pushed at all when the
    mint price is zero or the entry before is already above it. *)
Lemma orderbookLoop_sorted :
  forall (rest : list SellOrder) (prev : option SellOrder) (cumulValue cumulAmount : Z)
         (rows : list Row),
    ascending (afterPrev prev (map priceNWCPerDUBLR_x1e9 rest)) ->
    orderbookLoop mintPrice networkCurrency prices prev rest cumulValue cumulAmount
    = Normal rows ->
    ascending (afterPrev prev (map row_priceNWCPerDUBLR_x1e9 rows))
    /\ length (mintRows rows)
       = (if ((mintPrice =? 0)
              || match prev with
                 | Some e => mintPrice <? priceNWCPerDUBLR_x1e9 e
                 | None => false
                 end)%bool
          then 0%nat else 1%nat).
Proof.
  induction rest as [|sellOrder rest' IH]; intros prev cumulValue cumulAmount rows Hsorted Hloop;
    apply orderbookLoop_step in Hloop as (front & Hfront & Hrows).
  - subst rows. unfold mintRowHere in Hfront. cbn [hd_error] in Hfront.
    rewrite andb_true_r in Hfront.
    destruct Hfront as [[Htest [table ->]]|[Htest ->]]; cbn [map mintRows List.filter
      row_isMintPriceEntry row_priceNWCPerDUBLR_x1e9 length];
      destruct (mintPrice =? 0); cbn in Htest |- *; try discriminate;
      destruct prev as [e|]; cbn in Hsorted, Htest |- *;
      try destruct (Z.leb_spec (priceNWCPerDUBLR_x1e9 e) mintPrice);
      try destruct (Z.ltb_spec mintPrice (priceNWCPerDUBLR_x1e9 e));
      try discriminate; try lia; repeat split; auto; lia.
  - destruct Hrows as (row & rows' & -> & Hterms & Hcumul & Hmint & Hrest).
    assert (Hprice : row_priceNWCPerDUBLR_x1e9 row = priceNWCPerDUBLR_x1e9 sellOrder).
    { unfold rowTerms, orderTerms in Hterms. congruence. }
    assert (Hsorted' : ascending (afterPrev (Some sellOrder)
                                    (map priceNWCPerDUBLR_x1e9 rest'))).
    { destruct prev; cbn in Hsorted |- *; tauto. }
    destruct (IH (Some sellOrder) _ _ rows' Hsorted' Hrest) as [IHasc IHcount].
    cbn [afterPrev] in IHasc.
    assert (Hprev : match prev with
                    | Some e => priceNWCPerDUBLR_x1e9 e <= priceNWCPerDUBLR_x1e9 sellOrder
                    | None => True
                    end).
    { destruct prev; cbn in Hsorted; tauto. }
    unfold mintRowHere in Hfront. cbn [hd_error] in Hfront.
    unfold mintRows in *.
    destruct Hfront as [[Htest [table ->]]|[Htest ->]];
      cbn [app map List.filter row_isMintPriceEntry row_priceNWCPerDUBLR_x1e9 length];
      rewrite Hmint, Hprice, IHcount;
      destruct (Z.eqb_spec mintPrice 0) as [Hz|Hz]; cbn [negb andb orb] in Htest |- *;
      try discriminate;
      destruct (Z.ltb_spec mintPrice (priceNWCPerDUBLR_x1e9 sellOrder));
      destruct prev as [e|]; cbn [afterPrev ascending] in *;
      try destruct (Z.leb_spec (priceNWCPerDUBLR_x1e9 e) mintPrice);
      try destruct (Z.ltb_spec mintPrice (priceNWCPerDUBLR_x1e9 e));
      cbn in Htest |- *; try discriminate; try lia;
      repeat split; try tauto; try lia.
Qed.

End OrderbookRows.

Section OrderbookNode.
Import Format Nodes Book Terms.
Context `{L : Lib}.
Variable sortByPrice : list SellOrder -> list SellOrder.

Lemma orderbook_loop_of (cv : ContractVals) (networkCurrency : option string)
    (prices : option Price) (rows : list Row) :
  orderbook sortByPrice (Some cv) networkCurrency prices = Normal (Some rows) ->
  allSellOrders cv <> [] ->
  orderbookLoop (mintPriceNWCPerDUBLR_x1e9 cv) networkCurrency prices None
    (sortByPrice (allSellOrders cv)) 0 0 = Normal rows.
Proof.
  unfold orderbook. intros Hnode Hsome.
  destruct (allSellOrders cv) as [|o l]; [contradiction|].
  apply andThen_normal in Hnode as (rows' & Hloop & Hrows).
  inversion Hrows; subst. exact Hloop.
Qed.

(** X5. The rows of the [orderbook] node that are not the mint-price row
    are the sell orders of the contract in sorted order, with their prices
    and amounts; every row, the mint-price row included, carries in
    [cumulAmountDUBLRWEI] the sum of the amounts of the rows up to and
    including itself, the mint-price row counting as amount zero at the mint
    price. *)
Theorem orderbook_lists_sell_orders_with_running_totals
    (cv : ContractVals) (networkCurrency : option string) (prices : option Price)
    (rows : list Row) :
  orderbook sortByPrice (Some cv) networkCurrency prices = Normal (Some rows) ->
  allSellOrders cv <> [] ->
  map rowTerms (sellRows rows) = map orderTerms (sortByPrice (allSellOrders cv))
  /\ map cumulAmountDUBLRWEI rows = runningSums 0 (map row_amountDUBLRWEI rows)
  /\ Forall (fun r => rowTerms r = (mintPriceNWCPerDUBLR_x1e9 cv, 0)) (mintRows rows).
Proof.
  intros Hnode Hsome.
  pose proof (orderbook_loop_of cv networkCurrency prices rows Hnode Hsome) as Hloop.
  apply orderbookLoop_rows in Hloop as (Hterms & Hcumul & Hmint).
  split; [exact Hterms|]. split; [exact Hcumul|].
  unfold mintRows. apply List.Forall_forall. intros r Hr.
  apply List.filter_In in Hr as [Hin Hism].
  rewrite List.Forall_forall in Hmint. exact (Hmint r Hin Hism).
Qed.

(** X6. When the sorted sell orders have prices that never decrease, the
    [orderbook] node returns rows whose prices never decrease either, and,
    for a mint price that is not zero, exactly one mint-price row among
    them (none for a zero mint price).  Without sell orders it returns the
    empty array, with no mint-price row, whatever the mint price. *)
Theorem orderbook_places_one_mint_price_row
    (cv : ContractVals) (networkCurrency : option string) (prices : option Price)
    (rows : list Row) :
  ascending (map priceNWCPerDUBLR_x1e9 (sortByPrice (allSellOrders cv))) ->
  orderbook sortByPrice (Some cv) networkCurrency prices = Normal (Some rows) ->
  ascending (map row_priceNWCPerDUBLR_x1e9 rows)
  /\ (allSellOrders cv <> [] ->
      length (mintRows rows)
      = if mintPriceNWCPerDUBLR_x1e9 cv =? 0 then 0%nat else 1%nat)
  /\ (allSellOrders cv = [] -> rows = []).
Proof.
  intros Hsorted Hnode.
  destruct (allSellOrders cv) as [|o l] eqn:Horders.
  - unfold orderbook in Hnode. rewrite Horders in Hnode. inversion Hnode; subst rows.
    split; [cbn; exact I|]. split; [intros H; contradiction | reflexivity].
  - assert (Hsome : allSellOrders cv <> []) by (rewrite Horders; discriminate).
    pose proof (orderbook_loop_of cv networkCurrency prices rows Hnode Hsome) as Hloop.
    rewrite Horders in Hloop.
    apply orderbookLoop_sorted in Hloop as [Hasc Hcount]; [|exact Hsorted].
    cbn [afterPrev] in Hasc. rewrite orb_false_r in Hcount.
    split; [exact Hasc|]. split; [intros _; exact Hcount | discriminate].
Qed.

End OrderbookNode.

Section OrderbookExamples.
Import Format Nodes Book Terms.

Lemma exampleVals_rows :
  exists rows,
    orderbook (H := Decimal.lib) insertionSort (Some exampleVals) (Some "MATIC") None
    = Normal (Some rows)
    /\ map rowTerms rows
       = [(1000000000, 30); (1500000000, 100); (2000000000, 0); (3000000000, 7)]
    /\ map cumulAmountDUBLRWEI rows = [30; 130; 130; 137].
Proof. eexists. split; [vm_compute; reflexivity|]. split; reflexivity. Qed.

(** The theorem on the example orderbook. *)
Lemma orderbook_lists_sell_orders_with_running_totals_witness :
  exists rows,
    orderbook (H := Decimal.lib) insertionSort (Some exampleVals) (Some "MATIC") None
    = Normal (Some rows)
    /\ map rowTerms (sellRows rows)
       = [(1000000000, 30); (1500000000, 100); (3000000000, 7)]
    /\ map cumulAmountDUBLRWEI rows = runningSums 0 (map row_amountDUBLRWEI rows).
Proof.
  destruct exampleVals_rows as (rows & Hnode & _).
  exists rows. split; [exact Hnode|].
  destruct (orderbook_lists_sell_orders_with_running_totals (L := Decimal.lib)
              insertionSort exampleVals (Some "MATIC") None rows Hnode
              ltac:(discriminate)) as (Hterms & Hcumul & _).
  split; [exact Hterms | exact Hcumul].
Defined.

(** The theorem on the example orderbook. *)
Lemma orderbook_places_one_mint_price_row_witness :
  exists rows,
    orderbook (H := Decimal.lib) insertionSort (Some exampleVals) (Some "MATIC") None
    = Normal (Some rows)
    /\ ascending (map row_priceNWCPerDUBLR_x1e9 rows)
    /\ length (mintRows rows) = 1%nat.
Proof.
  destruct exampleVals_rows as (rows & Hnode & _).
  exists rows. split; [exact Hnode|].
  destruct (orderbook_places_one_mint_price_row (L := Decimal.lib)
              insertionSort exampleVals (Some "MATIC") None rows
              ltac:(cbn; lia) Hnode) as (Hasc & Hcount & _).
  split; [exact Hasc|]. apply Hcount. discriminate.
Defined.

End OrderbookExamples.

(* ================================================================== *)
(** * Further properties: the orderbook feeds the buy() simulation *)
(* ================================================================== *)

Section OrderbookToSimulation.
Import Format Nodes Book Terms Vocab.

Lemma simulation_returns (cv : ContractVals) (allowBuying allowMinting : bool)
    (amt slip : Z) (book : list BookEntry) :
  wellFormedBook book ->
  0 <= amt ->
  exists result,
    amountBoughtEstDUBLRWEI (2 * length book + 2) (Some cv) (Some amt)
      (Some allowBuying) (Some allowMinting) (Some book) (Some slip)
    = Some (Normal result).
Proof.
  intros Hwf Hamt. unfold amountBoughtEstDUBLRWEI.
  destruct (negb allowBuying && negb allowMinting)%bool; [eauto|].
  destruct (buyLoop_terminates cv allowBuying (2 * length book + 2) (initSim amt book))
    as [s Hs].
  - split; [exact Hwf | cbn; lia].
  - unfold iterationsLeft. cbn [orderbookCopy initSim]. destruct (exhausted _); lia.
  - rewrite Hs. destruct (mintStep_normal cv allowMinting s) as [s' Hs']. rewrite Hs'. eauto.
Qed.

(** X7. The array the [orderbook] node returns is one the [buy()]
    simulation finishes on: when the sell orders of the contract have
    positive prices and amounts that are not negative, and sorting returns
    nothing but entries of its input, every row is a mint-price row or a
    well-formed sell order, and [amountBoughtEstDUBLRWEI] run on these rows
    returns, within two iterations per row, for any amount that is not
    negative. *)
Theorem orderbook_rows_end_the_simulation `{L : Lib}
    (sortByPrice : list SellOrder -> list SellOrder)
    (cv : ContractVals) (networkCurrency : option string) (prices : option Price)
    (rows : list Row) (allowBuying allowMinting : bool) (amt slip : Z) :
  Forall wellFormedOrder (allSellOrders cv) ->
  (forall l o, In o (sortByPrice l) -> In o l) ->
  0 <= amt ->
  orderbook sortByPrice (Some cv) networkCurrency prices = Normal (Some rows) ->
  wellFormedBook (map entryOf rows)
  /\ exists result,
       amountBoughtEstDUBLRWEI (2 * length rows + 2) (Some cv) (Some amt)
         (Some allowBuying) (Some allowMinting) (Some (map entryOf rows)) (Some slip)
       = Some (Normal result).
Proof.
  intros Horders Hsort Hamt Hnode.
  assert (Hwf : wellFormedBook (map entryOf rows)).
  { destruct (allSellOrders cv) as [|o l] eqn:Hall.
    - unfold orderbook in Hnode. rewrite Hall in Hnode. inversion Hnode. constructor.
    - assert (Hsome : allSellOrders cv <> []) by (rewrite Hall; discriminate).
      pose proof (orderbook_loop_of sortByPrice cv networkCurrency prices rows Hnode Hsome)
        as Hloop.
      apply orderbookLoop_rows in Hloop as (Hterms & _ & _).
      unfold wellFormedBook. apply List.Forall_forall. intros e He.
      apply List.in_map_iff in He as (r & <- & Hr).
      unfold wellFormedEntry. cbn [entryOf isMintPriceEntry be_priceNWCPerDUBLR_x1e9
                                   be_amountDUBLRWEI].
      destruct (row_isMintPriceEntry r) eqn:Hmint; [left; reflexivity | right].
      assert (Hin : In (rowTerms r) (map rowTerms (sellRows rows))).
      { apply List.in_map. unfold sellRows. apply List.filter_In.
        rewrite Hmint. split; [exact Hr | reflexivity]. }
      rewrite Hterms in Hin. apply List.in_map_iff in Hin as (order & Heq & Hord).
      apply Hsort in Hord. rewrite <- Hall in Horders.
      rewrite List.Forall_forall in Horders. specialize (Horders order Hord).
      unfold rowTerms, orderTerms in Heq. inversion Heq as [[Hp Ha]].
      unfold wellFormedOrder in Horders. lia. }
  split; [exact Hwf|].
  rewrite <- (length_map entryOf rows).
  apply simulation_returns; assumption.
Qed.

Lemma insertByPrice_In (o x : SellOrder) (l : list SellOrder) :
  In x (insertByPrice o l) -> x = o \/ In x l.
Proof.
  induction l as [|e l IH]; cbn.
  - intros [H|[]]; auto.
  - destruct (priceNWCPerDUBLR_x1e9 o <? priceNWCPerDUBLR_x1e9 e); cbn.
    + intros [H|[H|H]]; auto.
    + intros [H|H]; auto. destruct (IH H); auto.
Qed.

Lemma insertionSort_In (l : list SellOrder) (x : SellOrder) :
  In x (insertionSort l) -> In x l.
Proof.
  induction l as [|o l IH]; cbn; [auto|].
  intros H. apply insertByPrice_In in H as [H|H]; auto.
Qed.

(** The theorem on the example orderbook, buying for 100. *)
Lemma orderbook_rows_end_the_simulation_witness :
  exists rows result,
    orderbook (H := Decimal.lib) insertionSort (Some exampleVals) (Some "MATIC") None
    = Normal (Some rows)
    /\ amountBoughtEstDUBLRWEI (2 * length rows + 2) (Some exampleVals) (Some 100)
         (Some true) (Some true) (Some (map entryOf rows)) (Some 990000000)
       = Some (Normal result).
Proof.
  destruct exampleVals_rows as (rows & Hnode & _).
  assert (Horders : Forall wellFormedOrder (allSellOrders exampleVals)).
  { repeat constructor; cbn; lia. }
  destruct (orderbook_rows_end_the_simulation (L := Decimal.lib) insertionSort exampleVals
              (Some "MATIC") None rows true true 100 990000000 Horders insertionSort_In
              ltac:(lia) Hnode) as [_ [result Hresult]].
  exists rows, result. split; [exact Hnode | exact Hresult].
Defined.

End OrderbookToSimulation.

(* ================================================================== *)
(** * Further properties: number formatting *)
(* ================================================================== *)

Section NumberFormatting.
Import Format Terms.

Lemma prefix_cons (c : ascii) (a b : string) :
  String.prefix (String c a) (String c b) = String.prefix a b.
Proof. cbn. destruct (ascii_dec c c) as [_|Hne]; [reflexivity | contradiction]. Qed.

Lemma prefix_nil (s : string) : String.prefix EmptyString s = true.
Proof. destruct s; reflexivity. Qed.

Lemma prefix_same (s : string) : String.prefix s s = true.
Proof. induction s as [|c s IH]; [reflexivity|]. rewrite prefix_cons. exact IH. Qed.

Lemma prefix_append (d a b : string) :
  String.prefix a b = true -> String.prefix (d +:+ a) (d +:+ b) = true.
Proof.
  intros Hab. induction d as [|c d IH]; [exact Hab|].
  change (String.prefix (String c (d +:+ a)) (String c (d +:+ b)) = true).
  rewrite prefix_cons. exact IH.
Qed.

Lemma formatSF_loop_prefix (s : string) :
  forall numSF hitDot, String.prefix (formatSF_loop s numSF hitDot) s = true.
Proof.
  induction s as [|c s IH]; intros numSF hitDot; [reflexivity|].
  cbn [formatSF_loop].
  destruct (Ascii.eqb c ".").
  - destruct (targetSF <=? numSF)%nat; [apply prefix_nil|].
    rewrite prefix_cons. apply IH.
  - destruct (hitDot && (targetSF <=? numSF)%nat)%bool; [apply prefix_nil|].
    rewrite prefix_cons. apply IH.
Qed.

Lemma formatSF_loop_integerPart (s : string) :
  forall numSF, String.prefix (integerPart s) (formatSF_loop s numSF false) = true.
Proof.
  induction s as [|c s IH]; intros numSF; [reflexivity|].
  cbn [formatSF_loop integerPart].
  destruct (Ascii.eqb c "."); [apply prefix_nil|].
  cbn [andb]. rewrite prefix_cons. apply IH.
Qed.

Lemma dot_is_no_figure (c : ascii) : Ascii.eqb c "." = true -> isNaN_char c = true.
Proof. intros Hc. apply Ascii.eqb_eq in Hc. subst c. reflexivity. Qed.

Lemma formatSF_loop_figures_after_dot (s : string) :
  forall numSF,
    (figures (formatSF_loop s numSF true) + numSF <= Nat.max targetSF numSF)%nat.
Proof.
  unfold targetSF.
  induction s as [|c s IH]; intros numSF; [cbn; lia|].
  cbn [formatSF_loop]. unfold targetSF.
  destruct (Ascii.eqb c ".") eqn:Hdot.
  - destruct (Nat.leb_spec 12 numSF); [cbn; lia|].
    cbn [figures]. rewrite (dot_is_no_figure c Hdot).
    specialize (IH numSF). lia.
  - cbn [andb]. destruct (Nat.leb_spec 12 numSF); [cbn; lia|].
    cbn [figures]. destruct (isNaN_char c).
    + specialize (IH numSF). lia.
    + specialize (IH (S numSF)). lia.
Qed.

Lemma formatSF_loop_figures (s : string) :
  forall numSF,
    (figures (formatSF_loop s numSF false) + numSF
     <= Nat.max targetSF (numSF + figures (integerPart s)))%nat.
Proof.
  unfold targetSF.
  induction s as [|c s IH]; intros numSF; [cbn; lia|].
  cbn [formatSF_loop integerPart]. unfold targetSF.
  destruct (Ascii.eqb c ".") eqn:Hdot.
  - destruct (Nat.leb_spec 12 numSF); [cbn; lia|].
    cbn [figures]. rewrite (dot_is_no_figure c Hdot).
    pose proof (formatSF_loop_figures_after_dot s numSF) as Hafter.
    unfold targetSF in Hafter. lia.
  - cbn [andb figures]. destruct (isNaN_char c).
    + specialize (IH numSF). lia.
    + specialize (IH (S numSF)). lia.
Qed.

(** X8. [formatSF] only cuts its argument off: the result is an initial
    part of the argument, it contains everything in front of the first dot,
    and it holds at most 12 characters that count as figures (digits and
    white space) unless the part in front of the dot has more. *)
Theorem formatSF_cuts_after_twelve_figures (num : string) :
  String.prefix (formatSF (Some num)) num = true
  /\ String.prefix (integerPart num) (formatSF (Some num)) = true
  /\ (figures (formatSF (Some num)) <= Nat.max 12 (figures (integerPart num)))%nat.
Proof.
  unfold formatSF. split; [apply formatSF_loop_prefix|].
  split; [apply formatSF_loop_integerPart|].
  pose proof (formatSF_loop_figures num 0) as Hfig. unfold targetSF in Hfig.
  cbn [Nat.add] in Hfig. lia.
Qed.

Lemma take_digits_append (s : string) :
  fst (take_digits s) +:+ snd (take_digits s) = s.
Proof.
  induction s as [|c s IH]; [reflexivity|].
  cbn [take_digits]. destruct (is_digit c); [|reflexivity].
  destruct (take_digits s) as [d rest]. cbn [fst snd] in *.
  change (String c (d +:+ rest) = String c s). rewrite IH. reflexivity.
Qed.

(** The digits in front of cents, or of nothing, are read back as they
    are. *)
Lemma take_digits_again (s : string) :
  take_digits (fst (take_digits s) +:+ take_cents (snd (take_digits s)))
  = (fst (take_digits s), take_cents (snd (take_digits s))).
Proof.
  induction s as [|c s IH]; [reflexivity|].
  cbn [take_digits]. destruct (is_digit c) eqn:Hc.
  - destruct (take_digits s) as [d rest]. cbn [fst snd] in *.
    change (String c d +:+ take_cents rest) with (String c (d +:+ take_cents rest)).
    cbn [take_digits]. rewrite Hc, IH. reflexivity.
  - cbn [fst snd]. change (EmptyString +:+ ?x) with x.
    unfold take_cents.
    destruct s as [|c1 [|c2 s]]; try reflexivity.
    destruct (Ascii.eqb c "." && is_digit c1 && is_digit c2)%bool; [|reflexivity].
    cbn [take_digits]. rewrite Hc. reflexivity.
Qed.

Lemma take_cents_again (s : string) : take_cents (take_cents s) = take_cents s.
Proof.
  unfold take_cents. destruct s as [|d [|c1 [|c2 s]]]; try reflexivity.
  destruct (Ascii.eqb d "." && is_digit c1 && is_digit c2)%bool eqn:Hm; [|reflexivity].
  rewrite Hm. reflexivity.
Qed.

Lemma take_cents_prefix (s : string) : String.prefix (take_cents s) s = true.
Proof.
  unfold take_cents. destruct s as [|d [|c1 [|c2 s]]]; try reflexivity.
  destruct (Ascii.eqb d "." && is_digit c1 && is_digit c2)%bool; [|reflexivity].
  rewrite !prefix_cons. apply prefix_nil.
Qed.

(** The unsigned part of [formatDollars]. *)
Lemma unsigned_dollars (s : string) :
  let f := fst (take_digits s) +:+ take_cents (snd (take_digits s)) in
  String.prefix f s = true
  /\ fst (take_digits f) +:+ take_cents (snd (take_digits f)) = f.
Proof.
  cbn zeta. split.
  - rewrite <- (take_digits_append s) at 3. apply prefix_append, take_cents_prefix.
  - rewrite take_digits_again. cbn [fst snd]. rewrite take_cents_again. reflexivity.
Qed.

Lemma formatDollars_unsigned (s : string) :
  match s with String c _ => Ascii.eqb c "-" = false | EmptyString => True end ->
  formatDollars s = Some (fst (take_digits s) +:+ take_cents (snd (take_digits s))).
Proof.
  intros Hsign. unfold formatDollars.
  destruct s as [|c s]; [reflexivity|]. rewrite Hsign.
  destruct (take_digits (String c s)) as [d rest]. reflexivity.
Qed.

Lemma formatDollars_signed (s : string) :
  formatDollars (String "-" s)
  = Some (String "-" (fst (take_digits s) +:+ take_cents (snd (take_digits s)))).
Proof.
  unfold formatDollars. cbn [Ascii.eqb Bool.eqb]. cbn match.
  destruct (take_digits s) as [d rest]. reflexivity.
Qed.

(** What [take_digits] and [take_cents] leave starts with a digit or a
    dot, never with a minus sign. *)
Lemma unsigned_dollars_no_sign (s : string) :
  match fst (take_digits s) +:+ take_cents (snd (take_digits s)) with
  | String c _ => Ascii.eqb c "-" = false
  | EmptyString => True
  end.
Proof.
  destruct s as [|c s]; [exact I|].
  cbn [take_digits]. destruct (is_digit c) eqn:Hc.
  - destruct (take_digits s) as [d rest]. cbn [fst snd].
    change (String c d +:+ take_cents rest) with (String c (d +:+ take_cents rest)).
    destruct (Ascii.eqb_spec c "-") as [->|Hne]; [discriminate Hc|].
    apply Ascii.eqb_neq. exact Hne.
  - cbn [fst snd]. change (EmptyString +:+ ?x) with x.
    unfold take_cents. destruct s as [|c1 [|c2 s]]; try exact I.
    destruct (Ascii.eqb c "." && is_digit c1 && is_digit c2)%bool eqn:Hm; [|exact I].
    apply andb_prop in Hm as [Hm _]. apply andb_prop in Hm as [Hm _].
    apply Ascii.eqb_eq in Hm. subst c. reflexivity.
Qed.

(** X9. [formatDollars] always finds a match, the match is an initial part
    of the text (cents are cut, not rounded), and formatting the match
    again changes nothing. *)
Theorem formatDollars_truncates (amt : string) :
  exists f,
    formatDollars amt = Some f
    /\ String.prefix f amt = true
    /\ formatDollars f = Some f.
Proof.
  destruct amt as [|c s].
  - exists EmptyString. repeat split.
  - destruct (Ascii.eqb_spec c "-") as [->|Hne].
    + destruct (unsigned_dollars s) as [Hpre Hagain]. cbn zeta in *.
      eexists. split; [apply formatDollars_signed|].
      split; [rewrite prefix_cons; exact Hpre|].
      rewrite formatDollars_signed, Hagain. reflexivity.
    + destruct (unsigned_dollars (String c s)) as [Hpre Hagain]. cbn zeta in *.
      assert (Hc : Ascii.eqb c "-" = false) by (apply Ascii.eqb_neq; exact Hne).
      eexists. split; [apply formatDollars_unsigned; exact Hc|].
      split; [exact Hpre|].
      rewrite formatDollars_unsigned by apply unsigned_dollars_no_sign.
      rewrite Hagain. reflexivity.
Qed.

End NumberFormatting.

(* ================================================================== *)
(** * Further properties: the sell table *)
(* ================================================================== *)

Section SellTable.
Import Format Nodes Book.

(** X10. The fee and the net value that [updateSellTable] and
    [updateMySellOrderTable] show are both rounded down, so for a list
    price and an amount that are not negative they add up to the gross
    value or to one wei less, and neither is negative. *)
Theorem fee_and_net_value_add_up (listPriceNWCPerDUBLR_x1e9 sellAmountDUBLRWEI : Z) :
  0 <= listPriceNWCPerDUBLR_x1e9 ->
  0 <= sellAmountDUBLRWEI ->
  let sellValueNWCWEI := dublrToEth listPriceNWCPerDUBLR_x1e9 sellAmountDUBLRWEI in
  0 <= feeNWCWEI sellValueNWCWEI
  /\ 0 <= valueLessFeeNWCWEI sellValueNWCWEI
  /\ sellValueNWCWEI - 1
     <= feeNWCWEI sellValueNWCWEI + valueLessFeeNWCWEI sellValueNWCWEI
     <= sellValueNWCWEI.
Proof.
  intros Hprice Hamount. cbn zeta.
  assert (Hvalue : 0 <= dublrToEth listPriceNWCPerDUBLR_x1e9 sellAmountDUBLRWEI).
  { unfold dublrToEth, e9. apply Z.quot_pos; nia. }
  set (v := dublrToEth listPriceNWCPerDUBLR_x1e9 sellAmountDUBLRWEI) in *.
  unfold feeNWCWEI, valueLessFeeNWCWEI.
  rewrite !Z.quot_div_nonneg by lia.
  pose proof (Z.div_mod (v * 15) 10000 ltac:(lia)).
  pose proof (Z.mod_pos_bound (v * 15) 10000 ltac:(lia)).
  pose proof (Z.div_mod (v * 9985) 10000 ltac:(lia)).
  pose proof (Z.mod_pos_bound (v * 9985) 10000 ltac:(lia)).
  lia.
Qed.

Lemma fee_and_net_value_add_up_witness :
  0 <= 1500000000 /\ 0 <= 333
  /\ feeNWCWEI (dublrToEth 1500000000 333) + valueLessFeeNWCWEI (dublrToEth 1500000000 333)
     <= dublrToEth 1500000000 333.
Proof.
  split; [lia|]. split; [lia|].
  apply (fee_and_net_value_add_up 1500000000 333); lia.
Defined.

End SellTable.

(* ================================================================== *)
(** * Further properties: the wallet address *)
(* ================================================================== *)

Section WalletAddress.
Import Wallet Terms.

Variable P : Provider.

Lemma nodeAfter_app (name : string) (held : Val) (out out' : list Effect) :
  nodeAfter name held (out ++ out') = nodeAfter name (nodeAfter name held out) out'.
Proof.
  unfold nodeAfter, writesOf. rewrite flat_map_app, fold_left_app. reflexivity.
Qed.

(** One handler leaves the [wallet] node equal to [walletAddr]. *)
Lemma handle_keeps_wallet_node (ev : ProviderEvent) (s : State) :
  nodeAfter "wallet" (of_str (walletAddr s)) (snd (handle P ev s))
  = of_str (walletAddr (snd (fst (handle P ev s)))).
Proof.
  destruct s as [provider w c].
  destruct ev as [accounts|chainId| |].
  - destruct accounts as [[|a l]|], provider; reflexivity.
  - destruct chainId; reflexivity.
  - destruct provider as [p|]; [|reflexivity].
    unfold handle, onConnect, getWallet, getAccounts, bind, try_catch, read, await, ret.
    cbn. destruct (eth_accounts P) as [[[|a l]|]|]; reflexivity.
  - destruct provider; reflexivity.
Qed.

(** X11. The module-level [walletAddr] and the [wallet] node stay equal:
    whatever sequence of provider events is handled, from any state, the
    value the [dataflow.set] calls of the handlers leave in the [wallet] node
    is the value of [walletAddr] at the end, if it was at the start. *)
Theorem wallet_node_follows_walletAddr (evs : list ProviderEvent) (s : State) :
  nodeAfter "wallet" (of_str (walletAddr s)) (snd (handleAll P evs s))
  = of_str (walletAddr (fst (handleAll P evs s))).
Proof.
  revert s. induction evs as [|ev evs IH]; intros s; [reflexivity|].
  cbn [handleAll].
  pose proof (handle_keeps_wallet_node ev s) as Hone.
  destruct (handle P ev s) as [[r s1] out]. cbn [fst snd] in Hone.
  specialize (IH s1). destruct (handleAll P evs s1) as [s2 out']. cbn [fst snd] in *.
  rewrite nodeAfter_app, Hone. exact IH.
Qed.


End WalletAddress.


(* ================================================================== *)
(** * Further properties: what the buy() simulation reports *)
(* ================================================================== *)

Section SimulationReport.
Import Format Nodes Vocab.

Variable cv : ContractVals.
Variables allowBuying allowMinting : bool.

(** The amount a positive sum affords at a positive price is not
    negative. *)
Lemma ethToDublr_nonneg (price amtETH amount : Z) :
  0 < price -> 0 <= amtETH -> ethToDublr price amtETH = Normal amount -> 0 <= amount.
Proof.
  intros Hprice Heth. unfold ethToDublr, bn_div, e9.
  destruct (price =? 0); [discriminate|].
  intros Hq. inversion Hq; subst amount. apply Z.quot_pos; lia.
Qed.

Lemma buyStep_bought_nonneg (s s' : Sim) :
  wellFormedSim s ->
  0 <= totBoughtOrMintedDUBLRWEI s ->
  buyStep cv allowBuying s = Continue s' \/ buyStep cv allowBuying s = Stop s' ->
  0 <= totBoughtOrMintedDUBLRWEI s'.
Proof.
  intros [Hbook Hrem] Htot Hstep. unfold buyStep in Hstep.
  destruct (orderbookCopy s) as [|sellOrder rest];
    [destruct Hstep as [H|H]; inversion H; subst; exact Htot|].
  destruct (buyingEnabled cv && allowBuying && (0 <? buyOrderRemainingNWCWEI s))%bool;
    [|destruct Hstep as [H|H]; inversion H; subst; exact Htot].
  destruct (isMintPriceEntry sellOrder) eqn:Hmint;
    [destruct Hstep as [H|H]; inversion H; subst; exact Htot|].
  destruct (isOwnOrder cv s sellOrder);
    [destruct Hstep as [H|H]; inversion H; subst; exact Htot|].
  destruct ((0 <? mintPriceNWCPerDUBLR_x1e9 cv)
            && (mintPriceNWCPerDUBLR_x1e9 cv <? be_priceNWCPerDUBLR_x1e9 sellOrder))%bool;
    [destruct Hstep as [H|H]; inversion H; subst; exact Htot|].
  inversion Hbook as [|? ? Hhead Hrest]; subst.
  destruct Hhead as [Hm|[Hprice Hamount]]; [congruence|].
  destruct (ethToDublr (be_priceNWCPerDUBLR_x1e9 sellOrder) (buyOrderRemainingNWCWEI s))
    as [afford|] eqn:Hafford; [|destruct Hstep as [H|H]; discriminate H].
  pose proof (ethToDublr_nonneg _ _ _ Hprice Hrem Hafford) as Hnn.
  destruct (afford =? 0);
    [destruct Hstep as [H|H]; inversion H; subst; exact Htot|].
  destruct Hstep as [H|H]; inversion H; subst s'; cbn.
  destruct (Z.ltb_spec (be_amountDUBLRWEI sellOrder) afford); lia.
Qed.

Lemma buyLoop_bought_nonneg :
  forall (fuel : nat) (s s' : Sim),
    wellFormedSim s ->
    0 <= totBoughtOrMintedDUBLRWEI s ->
    buyLoop cv allowBuying fuel s = Some (Normal s') ->
    0 <= totBoughtOrMintedDUBLRWEI s' /\ 0 <= buyOrderRemainingNWCWEI s'.
Proof.
  induction fuel as [|fuel IH]; intros s s' Hwf Htot Hloop; [discriminate|].
  cbn [buyLoop] in Hloop.
  pose proof (buyStep_progress cv allowBuying s Hwf) as Hprogress.
  pose proof (buyStep_bought_nonneg s) as Hnn.
  pose proof (buyStep_conserved cv allowBuying
                (totSpentNWCWEI s + buyOrderRemainingNWCWEI s) s) as Hcons.
  destruct (buyStep cv allowBuying s) as [s1|s1|].
  - destruct Hprogress as [Hwf1 _]. apply (IH s1 s'); auto.
  - inversion Hloop; subst s1. split; [auto|].
    apply Hcons; [|auto]. split; [reflexivity | apply Hwf].
  - discriminate.
Qed.

Lemma mintStep_bought_nonneg (s s' : Sim) :
  0 <= totBoughtOrMintedDUBLRWEI s ->
  mintStep cv allowMinting s = Normal s' ->
  0 <= totBoughtOrMintedDUBLRWEI s'.
Proof.
  intros Htot Hmint. unfold mintStep in Hmint.
  destruct (mintingEnabled cv && allowMinting && negb (skipMinting s)
            && (0 <? mintPriceNWCPerDUBLR_x1e9 cv)
            && (0 <? buyOrderRemainingNWCWEI s))%bool;
    [|inversion Hmint; subst s'; exact Htot].
  destruct (ethToDublr (mintPriceNWCPerDUBLR_x1e9 cv) (buyOrderRemainingNWCWEI s))
    as [toMint|]; [|discriminate].
  destruct (Z.ltb_spec 0 toMint); inversion Hmint; subst s'; cbn; lia.
Qed.

(** The minting branch, when it is taken, leaves less than the price of
    one unit. *)
Lemma mintStep_remainder (s : Sim) :
  mintingEnabled cv = true -> allowMinting = true -> skipMinting s = false ->
  0 < mintPriceNWCPerDUBLR_x1e9 cv ->
  0 < buyOrderRemainingNWCWEI s ->
  exists s',
    mintStep cv allowMinting s = Normal s'
    /\ 0 <= buyOrderRemainingNWCWEI s'
    /\ buyOrderRemainingNWCWEI s' * e9 < mintPriceNWCPerDUBLR_x1e9 cv.
Proof.
  intros Hen Ham Hskip Hprice Hrem. unfold mintStep.
  rewrite Hen, Ham, Hskip.
  destruct (Z.ltb_spec 0 (mintPriceNWCPerDUBLR_x1e9 cv)) as [_|]; [|lia].
  destruct (Z.ltb_spec 0 (buyOrderRemainingNWCWEI s)) as [_|]; [|lia].
  cbn [andb negb].
  set (p := mintPriceNWCPerDUBLR_x1e9 cv) in *.
  set (R := buyOrderRemainingNWCWEI s) in *.
  unfold ethToDublr, bn_div.
  destruct (Z.eqb_spec p 0) as [|_]; [lia|].
  assert (Hq : Z.quot (R * e9) p = R * e9 / p)
    by (apply Z.quot_div_nonneg; unfold e9; lia).
  rewrite Hq.
  pose proof (Z.div_mod (R * e9) p ltac:(lia)) as Hdiv.
  pose proof (Z.mod_pos_bound (R * e9) p ltac:(lia)) as Hmod.
  set (m := R * e9 / p) in *.
  assert (Hm : 0 <= m) by (apply Z.div_pos; unfold e9; lia).
  destruct (Z.ltb_spec 0 m) as [Hpos|Hzero].
  - eexists. split; [reflexivity|]. cbn.
    unfold dublrToEthRoundUpClamped.
    assert (Hc : Z.quot (m * p + (e9 - 1)) e9 = (m * p + (e9 - 1)) / e9)
      by (apply Z.quot_div_nonneg; unfold e9; nia).
    rewrite Hc.
    pose proof (Z.div_mod (m * p + (e9 - 1)) e9 ltac:(unfold e9; lia)) as Hdiv'.
    pose proof (Z.mod_pos_bound (m * p + (e9 - 1)) e9 ltac:(unfold e9; lia)) as Hmod'.
    set (cost := (m * p + (e9 - 1)) / e9) in *.
    destruct (Z.ltb_spec cost R); unfold e9 in *; split; nia.
  - exists s. split; [reflexivity|]. fold R. assert (m = 0) by lia.
    unfold e9 in *. split; nia.
Qed.

End SimulationReport.

(** X13. On an orderbook whose sell orders have a positive price and an
    amount that is not negative, with a buy amount that is not negative and
    a slippage fraction between 0 and 1e9, the amount the simulation
    returns is not negative and the minimum number of tokens it writes lies
    between 0 and that amount; so the minimum always passes the check of
    [buyButtonParams] that it is not negative. *)
Theorem minimum_tokens_within_estimate :
  forall (cv : Nodes.ContractVals) (allowBuying allowMinting : bool)
         (buyAmountNWCWEI maxSlippageFrac_x1e9 : Z) (orderbook : list Nodes.BookEntry)
         (fuel : nat) (est : Nodes.Estimate),
    0 <= buyAmountNWCWEI ->
    0 <= maxSlippageFrac_x1e9 <= Format.e9 ->
    Vocab.wellFormedBook orderbook ->
    Nodes.amountBoughtEstDUBLRWEI fuel (Some cv) (Some buyAmountNWCWEI)
      (Some allowBuying) (Some allowMinting) (Some orderbook) (Some maxSlippageFrac_x1e9)
    = Some (Normal (Some est)) ->
    0 <= Nodes.minimumTokensToBuyOrMintDUBLRWEI est <= Nodes.amountBought est
    /\ Nodes.missing_or (fun z => z <? 0) (Some (Nodes.minimumTokensToBuyOrMintDUBLRWEI est))
       = false.
Proof.
  intros cv ab am amt slip book fuel est Hamt Hslip Hwf Hrun.
  unfold Nodes.amountBoughtEstDUBLRWEI in Hrun.
  destruct (negb ab && negb am)%bool; [discriminate|].
  destruct (Nodes.buyLoop cv ab fuel (Nodes.initSim amt book)) as [[s|]|] eqn:Hloop;
    try discriminate.
  destruct (Nodes.mintStep cv am s) as [s'|] eqn:Hmint; [|discriminate].
  inversion Hrun; subst est; clear Hrun. cbn.
  assert (Hs : 0 <= Nodes.totBoughtOrMintedDUBLRWEI s).
  { eapply (buyLoop_bought_nonneg cv ab fuel (Nodes.initSim amt book) s); [|cbn; lia|exact Hloop].
    split; [exact Hwf | cbn; lia]. }
  pose proof (mintStep_bought_nonneg cv am s s' Hs Hmint) as Hs'.
  set (t := Nodes.totBoughtOrMintedDUBLRWEI s') in *.
  unfold Format.e9 in *.
  assert (Hq : Z.quot (t * slip) 1000000000 = t * slip / 1000000000)
    by (apply Z.quot_div_nonneg; nia).
  rewrite Hq.
  pose proof (Z.div_mod (t * slip) 1000000000 ltac:(lia)) as Hdiv.
  pose proof (Z.mod_pos_bound (t * slip) 1000000000 ltac:(lia)) as Hmod.
  assert (Hbounds : 0 <= t * slip / 1000000000 <= t) by (split; nia).
  split; [exact Hbounds|].
  destruct (Z.ltb_spec (t * slip / 1000000000) 0); [lia | reflexivity].
Qed.

Lemma minimum_tokens_within_estimate_witness :
  let cv := Nodes.mkContractVals (Some 100) (Some 5) (Nodes.mkSellOrder 0 0) []
              2000000000 None None true true true (Some 30000000) in
  let book := [Nodes.mkBookEntry 1000000000 30 false;
               Nodes.mkBookEntry 1500000000 100 false;
               Nodes.mkBookEntry 2000000000 0 true] in
  exists est,
    Nodes.amountBoughtEstDUBLRWEI 8 (Some cv) (Some 100) (Some true) (Some true)
      (Some book) (Some 990000000) = Some (Normal (Some est))
    /\ 0 <= Nodes.minimumTokensToBuyOrMintDUBLRWEI est <= Nodes.amountBought est.
Proof.
  intros cv book. eexists. split; [vm_compute; reflexivity|].
  eapply (minimum_tokens_within_estimate cv true true 100 990000000 book 8).
  - lia.
  - unfold Format.e9. lia.
  - constructor; [right; cbn; lia|].
    constructor; [right; cbn; lia|].
    constructor; [left; reflexivity|].
    constructor.
  - vm_compute. reflexivity.
Defined.

(** X14. When the minting branch of the simulation is entered (minting
    enabled on the exchange and allowed by the buyer, not skipped, a
    positive mint price, funds left), it does not throw and it leaves less
    than the mint price of one further unit: the change that is refunded
    could not have minted anything more. *)
Theorem minting_spends_all_but_dust :
  forall (cv : Nodes.ContractVals) (allowMinting : bool) (s : Nodes.Sim),
    Nodes.mintingEnabled cv = true ->
    allowMinting = true ->
    Nodes.skipMinting s = false ->
    0 < Nodes.mintPriceNWCPerDUBLR_x1e9 cv ->
    0 < Nodes.buyOrderRemainingNWCWEI s ->
    exists s',
      Nodes.mintStep cv allowMinting s = Normal s'
      /\ 0 <= Nodes.buyOrderRemainingNWCWEI s'
      /\ Format.ethToDublr (Nodes.mintPriceNWCPerDUBLR_x1e9 cv)
           (Nodes.buyOrderRemainingNWCWEI s') = Normal 0.
Proof.
  intros cv am s Hen Ham Hskip Hprice Hrem.
  destruct (mintStep_remainder cv am s Hen Ham Hskip Hprice Hrem) as (s' & Hmint & Hnn & Hless).
  exists s'. split; [exact Hmint|]. split; [exact Hnn|].
  unfold Format.ethToDublr, Format.bn_div.
  destruct (Z.eqb_spec (Nodes.mintPriceNWCPerDUBLR_x1e9 cv) 0) as [|_]; [lia|].
  f_equal. apply Z.quot_small. unfold Format.e9 in *. lia.
Qed.

Lemma minting_spends_all_but_dust_witness :
  let cv := Nodes.mkContractVals (Some 100) (Some 5) (Nodes.mkSellOrder 0 0) []
              3000000000 None None true true true (Some 30000000) in
  exists s',
    Nodes.mintStep cv true (Nodes.initSim 100 []) = Normal s'
    /\ 0 <= Nodes.buyOrderRemainingNWCWEI s'
    /\ Format.ethToDublr 3000000000 (Nodes.buyOrderRemainingNWCWEI s') = Normal 0.
Proof.
  intros cv.
  apply (minting_spends_all_but_dust cv true (Nodes.initSim 100 []));
    try reflexivity; cbn; lia.
Defined.

(* ================================================================== *)
(** * Further properties: validation of the amounts typed in *)
(* ================================================================== *)

Section FormValidation.
Import Format Nodes Book Forms.

Context {L : Lib} {E : Ethers}.

Lemma andThen_inv {A B : Type} (c : Completion A) (k : A -> Completion B) (b : B) :
  andThen c k = Normal b -> exists a, c = Normal a /\ k a = Normal b.
Proof. destruct c as [a|]; cbn; [eauto | discriminate]. Qed.

(** X15. An amount that [buyAmountNWCWEI] returns is the amount
    [parseEther] read from the text typed in, it is positive, and it is
    below the wallet balance, which is known. *)
Theorem buy_amount_is_positive_and_below_balance
    (buyAmount_in : option string) (contractVals : option ContractVals)
    (networkCurrency : option string) (prices : option Price)
    (batch : Batch) (amountNWCWEI : Z) :
  buyAmountNWCWEI buyAmount_in contractVals networkCurrency prices
  = Normal (batch, Some amountNWCWEI) ->
  ethToWei buyAmount_in = Some amountNWCWEI
  /\ 0 < amountNWCWEI
  /\ exists cv balance,
       contractVals = Some cv
       /\ balanceNWCWEI cv = Some balance
       /\ amountNWCWEI < balance.
Proof.
  unfold buyAmountNWCWEI. intros Hrun.
  destruct buyAmount_in as [text|]; [|cbn in Hrun; discriminate].
  destruct (ethToWei (Some text)) as [amount|]; [|cbn in Hrun; discriminate].
  destruct (Z.ltb_spec 0 amount) as [Hpos|]; [|cbn in Hrun; discriminate].
  cbn [negb] in Hrun.
  destruct contractVals as [cv|]; [|cbn in Hrun; discriminate].
  destruct cv as [balance ? ? ? ? ? minValue ? ? ? ?].
  destruct balance as [balance|]; [|cbn in Hrun; discriminate].
  destruct (Z.ltb_spec amount balance) as [Hless|].
  2:{ cbn [negb] in Hrun. apply andThen_inv in Hrun as (usd & _ & Hrun).
      discriminate. }
  cbn [negb] in Hrun.
  assert (Hamount : amount = amountNWCWEI).
  { destruct minValue as [minSell|].
    - destruct (amount <? minSell).
      + apply andThen_inv in Hrun as (shown & _ & Hrun).
        apply andThen_inv in Hrun as (usd & _ & Hrun). congruence.
      + apply andThen_inv in Hrun as (usd & _ & Hrun). congruence.
    - apply andThen_inv in Hrun as (usd & _ & Hrun). congruence. }
  subst amount. split; [reflexivity|]. split; [exact Hpos|].
  eexists _, balance. split; [reflexivity|]. split; [reflexivity | exact Hless].
Qed.

(** What [sellAmountDUBLRWEI] has checked of an amount it returns. *)
Lemma sell_amount_within_limits
    (sellAmount_in : option string) (contractVals : option ContractVals)
    (listPriceNWCPerDUBLR_x1e9 totAvailable : option Z)
    (networkCurrency : option string) (batch : Batch) (amountDUBLRWEI : Z) :
  sellAmountDUBLRWEI sellAmount_in contractVals listPriceNWCPerDUBLR_x1e9 totAvailable
    networkCurrency
  = Normal (batch, Some amountDUBLRWEI) ->
  batch = [("sellAmountWarning_out", VStr "")]
  /\ ethToWei sellAmount_in = Some amountDUBLRWEI
  /\ 0 < amountDUBLRWEI
  /\ exists cv tot listPrice minValue minDUBLRWEI,
       totAvailable = Some tot
       /\ amountDUBLRWEI <= tot
       /\ contractVals = Some cv
       /\ minSellOrderValueNWCWEI cv = Some minValue
       /\ listPriceNWCPerDUBLR_x1e9 = Some listPrice
       /\ listPrice <> 0
       /\ ethToDublr listPrice minValue = Normal minDUBLRWEI
       /\ minDUBLRWEI <= amountDUBLRWEI.
Proof.
  unfold sellAmountDUBLRWEI. intros Hrun.
  destruct sellAmount_in as [text|]; [|cbn in Hrun; discriminate].
  destruct (match totAvailable with Some tot => tot =? 0 | None => false end);
    [cbn in Hrun; discriminate|].
  destruct (ethToWei (Some text)) as [amount|]; [|cbn in Hrun; discriminate].
  destruct (Z.ltb_spec amount 0); [cbn in Hrun; discriminate|].
  destruct (Z.eqb_spec amount 0); [cbn in Hrun; discriminate|].
  destruct totAvailable as [tot|].
  - destruct (Z.ltb_spec tot amount) as [|Hle].
    + apply andThen_inv in Hrun as ([warning value] & Hcheck & Hrun).
      unfold checkMinimum in Hcheck.
      destruct contractVals as [[? ? ? ? ? ? [minValue|] ? ? ? ?]|];
        destruct listPriceNWCPerDUBLR_x1e9 as [listPrice|];
        cbn in Hcheck; try (inversion Hcheck; subst; cbn in Hrun; discriminate).
    + apply andThen_inv in Hrun as ([warning value] & Hcheck & Hrun).
      unfold checkMinimum in Hcheck.
      destruct contractVals as [[? ? ? ? ? ? [minValue|] ? ? ? ?]|];
        destruct listPriceNWCPerDUBLR_x1e9 as [listPrice|];
        try (inversion Hcheck; subst; cbn in Hrun; discriminate).
      cbn [String.eqb andb] in Hcheck.
      destruct (Z.eqb_spec listPrice 0) as [|Hprice];
        [inversion Hcheck; subst; cbn in Hrun; discriminate|].
      cbn [negb] in Hcheck.
      apply andThen_inv in Hcheck as (minD & HminD & Hcheck).
      destruct (Z.ltb_spec amount minD) as [|Hmin];
        inversion Hcheck; subst; cbn in Hrun; inversion Hrun; subst.
      split; [reflexivity|]. split; [reflexivity|]. split; [lia|].
      eexists _, tot, listPrice, minValue, minD.
      repeat (split; [first [reflexivity | assumption]|]). exact Hmin.
  - apply andThen_inv in Hrun as ([warning value] & Hcheck & Hrun).
    unfold checkMinimum in Hcheck.
    destruct contractVals as [[? ? ? ? ? ? [minValue|] ? ? ? ?]|];
      destruct listPriceNWCPerDUBLR_x1e9 as [listPrice|];
      try (inversion Hcheck; subst; cbn in Hrun; discriminate).
    cbn [String.eqb andb] in Hcheck.
    destruct (Z.eqb_spec listPrice 0);
      [inversion Hcheck; subst; cbn in Hrun; discriminate|].
    cbn [negb] in Hcheck.
    apply andThen_inv in Hcheck as (minD & _ & Hcheck). discriminate.
Qed.

(** X16. An amount that [sellAmountDUBLRWEI] returns is positive, it is
    the amount [parseEther] read, it does not exceed the balance available
    for selling, which is known, and at the list price, which is known and
    not zero, it is worth the minimum sell order value; the warning written
    with it is empty. *)
Theorem sell_amount_is_within_balance_and_minimum
    (sellAmount_in : option string) (contractVals : option ContractVals)
    (listPriceNWCPerDUBLR_x1e9 totAvailable : option Z)
    (networkCurrency : option string) (batch : Batch) (amountDUBLRWEI : Z) :
  sellAmountDUBLRWEI sellAmount_in contractVals listPriceNWCPerDUBLR_x1e9 totAvailable
    networkCurrency
  = Normal (batch, Some amountDUBLRWEI) ->
  batch = [("sellAmountWarning_out", VStr "")]
  /\ ethToWei sellAmount_in = Some amountDUBLRWEI
  /\ 0 < amountDUBLRWEI
  /\ exists cv tot listPrice minValue minDUBLRWEI,
       totAvailable = Some tot
       /\ amountDUBLRWEI <= tot
       /\ contractVals = Some cv
       /\ minSellOrderValueNWCWEI cv = Some minValue
       /\ listPriceNWCPerDUBLR_x1e9 = Some listPrice
       /\ listPrice <> 0
       /\ ethToDublr listPrice minValue = Normal minDUBLRWEI
       /\ minDUBLRWEI <= amountDUBLRWEI.
Proof. apply sell_amount_within_limits. Qed.

(** X17. With the balance available for selling unknown, a positive amount
    typed in, and the minimum sell order value and a list price other than
    zero known, [sellAmountDUBLRWEI] throws: the amount has been set to
    [undefined] when its [lt] is called.  It writes no warning and returns
    no value. *)
Theorem sell_amount_throws_when_balance_unknown
    (text : string) (cv : ContractVals) (listPrice minValue amount : Z)
    (networkCurrency : option string) :
  ethToWei (Some text) = Some amount ->
  0 < amount ->
  minSellOrderValueNWCWEI cv = Some minValue ->
  listPrice <> 0 ->
  sellAmountDUBLRWEI (Some text) (Some cv) (Some listPrice) None networkCurrency = Throws.
Proof.
  intros Hparse Hpos Hmin Hprice. unfold sellAmountDUBLRWEI.
  rewrite Hparse.
  destruct (Z.ltb_spec amount 0); [lia|].
  destruct (Z.eqb_spec amount 0); [lia|].
  unfold checkMinimum. destruct cv as [? ? ? ? ? ? minSell ? ? ? ?].
  cbn in Hmin. subst minSell. cbn [String.eqb andb].
  destruct (Z.eqb_spec listPrice 0); [contradiction|]. cbn [negb].
  unfold ethToDublr, bn_div.
  destruct (Z.eqb_spec listPrice 0); [contradiction|]. reflexivity.
Qed.

End FormValidation.

Section FormValidationExamples.
Import Format Nodes Book Forms Terms.

Lemma buy_amount_is_positive_and_below_balance_witness :
  exists batch,
    buyAmountNWCWEI (H := Decimal.lib) (H0 := wholeEther) (Some "1") (Some exampleFunds)
      (Some "MATIC") None
    = Normal (batch, Some 1000000000000000000)
    /\ 0 < 1000000000000000000.
Proof.
  eexists. split; [vm_compute; reflexivity|].
  eapply (buy_amount_is_positive_and_below_balance (L := Decimal.lib) (E := wholeEther)
            (Some "1") (Some exampleFunds) (Some "MATIC") None).
  vm_compute. reflexivity.
Defined.

Lemma sell_amount_is_within_balance_and_minimum_witness :
  exists batch,
    sellAmountDUBLRWEI (H := Decimal.lib) (H0 := wholeEther) (Some "2") (Some exampleFunds)
      (Some 1000000000) (Some 2000000000000000000) (Some "MATIC")
    = Normal (batch, Some 2000000000000000000)
    /\ batch = [("sellAmountWarning_out", VStr "")].
Proof.
  eexists. split; [vm_compute; reflexivity|].
  eapply (sell_amount_is_within_balance_and_minimum (L := Decimal.lib) (E := wholeEther)
            (Some "2") (Some exampleFunds) (Some 1000000000) (Some 2000000000000000000)
            (Some "MATIC")).
  vm_compute. reflexivity.
Defined.

Lemma sell_amount_throws_when_balance_unknown_witness :
  ethToWei (H := wholeEther) (Some "2") = Some 2000000000000000000
  /\ sellAmountDUBLRWEI (H := Decimal.lib) (H0 := wholeEther) (Some "2") (Some exampleFunds)
       (Some 1000000000) None (Some "MATIC") = Throws.
Proof.
  split; [vm_compute; reflexivity|].
  apply (sell_amount_throws_when_balance_unknown (L := Decimal.lib) (E := wholeEther)
           "2" exampleFunds 1000000000 1000000000000000000 2000000000000000000 (Some "MATIC")).
  - vm_compute. reflexivity.
  - lia.
  - reflexivity.
  - lia.
Defined.

End FormValidationExamples.

(* ================================================================== *)
(** * Further properties: transactions and gas estimates *)
(* ================================================================== *)

Section Transactions.
Import Format Nodes Forms Tx Terms.

Lemma truthy_str_nonempty (o : option string) :
  truthy_str o = true -> str_or_undefined o <> "".
Proof.
  destruct o as [s|]; [|discriminate]. cbn.
  destruct (String.eqb_spec s ""); [discriminate | auto].
Qed.

Lemma reasonOf_nonempty (e : TxError) : reasonOf e <> "".
Proof.
  unfold reasonOf.
  destruct (truthy_str (reason (err e))) eqn:Hr; [apply truthy_str_nonempty, Hr|].
  destruct (truthy_str (message (err e))) eqn:Hm; [apply truthy_str_nonempty, Hm|].
  destruct (truthy_str (error_message (err e))) eqn:He;
    [apply truthy_str_nonempty, He | discriminate].
Qed.

(** Every warning of the branch for failed transactions is a text. *)
Lemma failureWarning_nonempty (e : TxError) (receipt : option Receipt)
    (task suggestion1 suggestion2 : string) (networkCurrency : option string) :
  failureWarning e receipt task suggestion1 suggestion2 networkCurrency <> "".
Proof.
  unfold failureWarning. pose proof (reasonOf_nonempty e) as Hreason.
  repeat match goal with
         | |- (if ?c then _ else _) <> _ => destruct c
         end; try discriminate; exact Hreason.
Qed.

(** [runTransaction] stays pending exactly when a promise it awaits never
    settles. *)
Lemma runTransaction_hangs_iff {Log : Type}
    (dublr : option Contract) (parseLog : nat -> option Log)
    (transactionPromise : Submission) (task suggestion1 suggestion2 : string)
    (networkCurrency : option string) :
  hangs transactionPromise = true
  <-> runTransaction dublr parseLog transactionPromise task suggestion1 suggestion2
        networkCurrency = Pending.
Proof.
  assert (Hcaught : forall e,
    (repriced e
     && match replacement e with
        | Some (ReplacementSent ReplacementHangs) => true
        | _ => false
        end)%bool = true
    <-> runTransaction dublr parseLog (SubmitFails e) task suggestion1 suggestion2
          networkCurrency = Pending).
  { intros e. unfold runTransaction.
    destruct (repriced e); cbn [andb]; [|split; discriminate].
    destruct (replacement e) as [[|[r|why|]]|]; split; (discriminate || reflexivity). }
  destruct transactionPromise as [[v|[r|e|]]|e|]; cbn [hangs failureOf];
    try exact (Hcaught e); split; (discriminate || reflexivity).
Qed.

(** X18. [runTransaction] is never rejected.  It stays pending exactly
    when a promise it awaits never settles; otherwise it is fulfilled, and
    its warning is empty exactly when the transaction went through: it
    resolved, or the error says it was only repriced and the replacement,
    if there is one, did not fail.  Every other error gives a warning
    text. *)
Theorem runTransaction_warns_exactly_on_failure {Log : Type}
    (dublr : option Contract) (parseLog : nat -> option Log)
    (transactionPromise : Submission)
    (task insufficientBalanceSuggestion gasLimitSuggestion : string)
    (networkCurrency : option string) :
  if hangs transactionPromise then
    runTransaction dublr parseLog transactionPromise task insufficientBalanceSuggestion
      gasLimitSuggestion networkCurrency = Pending
  else
    exists r,
      runTransaction dublr parseLog transactionPromise task insufficientBalanceSuggestion
        gasLimitSuggestion networkCurrency = Fulfilled r
      /\ (tx_warningText r = "" <-> succeeds transactionPromise = true).
Proof.
  assert (Hcaught : forall e,
    if (repriced e
        && match replacement e with
           | Some (ReplacementSent ReplacementHangs) => true
           | _ => false
           end)%bool
    then runTransaction dublr parseLog (SubmitFails e) task insufficientBalanceSuggestion
           gasLimitSuggestion networkCurrency = Pending
    else exists r,
      runTransaction dublr parseLog (SubmitFails e) task insufficientBalanceSuggestion
        gasLimitSuggestion networkCurrency = Fulfilled r
      /\ (tx_warningText r = ""
          <-> (repriced e
               && match replacement e with
                  | Some (ReplacementSent (ReplacementRejects _)) => false
                  | _ => true
                  end)%bool = true)).
  { intros e. unfold runTransaction.
    destruct (repriced e) eqn:Hrep; cbn [andb].
    - destruct (replacement e) as [[|[r|why|]]|]; try reflexivity;
        eexists; (split; [reflexivity|]); cbn [tx_warningText];
        split; auto; discriminate.
    - eexists. split; [reflexivity|]. cbn [tx_warningText]. split; [|discriminate].
      intros Hempty. exfalso. eapply failureWarning_nonempty, Hempty. }
  destruct transactionPromise as [[v|[r|e|]]|e|]; cbn [hangs succeeds failureOf].
  - eexists. split; [reflexivity|]. cbn. split; auto.
  - eexists. split; [reflexivity|]. cbn. split; auto.
  - exact (Hcaught e).
  - reflexivity.
  - exact (Hcaught e).
  - reflexivity.
Qed.

(** An estimate call that fails, for a reason other than a reprice, makes
    [estimateGas] answer with a warning and without numbers. *)
Lemma estimateGas_failure (d : Contract) (estimate : Submission) (e : TxError)
    (gasPrice : Z) (balanceAvail blockGasLimit : option Z)
    (task suggestion1 suggestion2 : string) (networkCurrency : option string) :
  failureOf estimate = Some e ->
  repriced e = false ->
  exists warning,
    estimateGas (Some d) estimate (Some gasPrice) balanceAvail blockGasLimit task
      suggestion1 suggestion2 networkCurrency
    = Fulfilled (Some (mkGasEst None None warning))
    /\ warning <> "".
Proof.
  intros Hfail Hrep. unfold estimateGas, runTransaction.
  destruct estimate as [[v|[r|e'|]]|e'|]; try discriminate Hfail;
    cbn in Hfail; inversion Hfail; subst e'; rewrite Hrep; cbn;
    (eexists; split; [reflexivity | apply failureWarning_nonempty]).
Qed.

(** X19. When the estimate call of [buyGasEst] resolves with [g], the node
    returns [g] with the cost [g * gasPrice] and writes the warning it
    returns; the warning is empty exactly when the cost is covered by what
    the wallet holds beyond the buy amount (nothing, when the amount exceeds
    the balance) and [g] does not exceed a positive block gas limit. *)
Theorem buyGasEst_warns_when_gas_is_not_covered
    (d : Contract) (cv : ContractVals) (gasPrice buyAmount : Z)
    (allowBuying allowMinting : bool) (g limit balance : Z) :
  blockGasLimit cv = Some limit ->
  balanceNWCWEI cv = Some balance ->
  exists est,
    buyGasEst (Some d) (Some cv) (Some gasPrice) (Some buyAmount) (Some allowBuying)
      (Some allowMinting) (Submitted (Value (Some g)))
    = Fulfilled ([("buyGasEstWarning_out", VStr (warningText est))], Some est)
    /\ gasEstRaw est = Some g
    /\ gasEstNWCWEI est = Some (g * gasPrice)
    /\ (warningText est = ""
        <-> g * gasPrice <= Z.max 0 (balance - buyAmount) /\ ~ 0 < limit < g).
Proof.
  intros Hlimit Hbalance. unfold buyGasEst.
  destruct cv as [bal ? ? ? ? ? ? ? ? ? lim]. cbn in Hlimit, Hbalance. subst bal lim.
  unfold estimateGas, runTransaction, publish. cbn [option_map result tx_warningText].
  set (avail := if balance - buyAmount <? 0 then 0 else balance - buyAmount).
  assert (Havail : avail = Z.max 0 (balance - buyAmount)).
  { unfold avail. destruct (Z.ltb_spec (balance - buyAmount) 0); lia. }
  destruct (Z.ltb_spec avail (g * gasPrice)) as [Hcost|Hcost].
  - eexists. split; [reflexivity|]. cbn [gasEstRaw gasEstNWCWEI warningText].
    split; [reflexivity|]. split; [reflexivity|].
    split; [discriminate | lia].
  - destruct (Z.ltb_spec 0 limit) as [Hpos|Hpos]; cbn [andb];
      [destruct (Z.ltb_spec limit g) as [Hover|Hover]|];
      (eexists; split; [reflexivity|]); cbn [gasEstRaw gasEstNWCWEI warningText];
      (split; [reflexivity|]); (split; [reflexivity|]).
    + split; [discriminate | lia].
    + split; [lia | reflexivity].
    + split; [lia | reflexivity].
Qed.

(** A gas estimate with a warning disables the buy button, whatever the
    other inputs. *)
Lemma warning_disables_buy (est : GasEst) (dublr : option Contract)
    (contractVals : option ContractVals)
    (buyAmountNWCWEI minimumTokens amountBoughtEst : option Z)
    (allowBuying allowMinting termsBuy_in : option bool) :
  warningText est <> "" ->
  buyDisabled dublr contractVals buyAmountNWCWEI minimumTokens amountBoughtEst allowBuying
    allowMinting (Some est) termsBuy_in = true.
Proof.
  intros Hwarn. unfold buyDisabled.
  destruct (String.eqb_spec (warningText est) "") as [|_]; [contradiction|].
  cbn [negb]. rewrite !orb_true_r. reflexivity.
Qed.

(** X20. A gas estimation that fails disables the buy button: when the
    estimate call of [buyGasEst] is rejected, for a reason other than a
    reprice, the node returns an estimate without numbers whose warning is
    not empty and writes that warning; with it [buyButtonParams] returns
    [undefined], whatever its other inputs, and [buyButtonEnablement] sets
    [buyButtonDisabled_out] to [true]. *)
Theorem failed_gas_estimate_disables_buy_button `{L : Lib}
    (d : Contract) (cv : ContractVals) (gasPrice buyAmount : Z)
    (allowBuying allowMinting : bool) (estimate : Submission) (e : TxError)
    (limit balance : Z) :
  blockGasLimit cv = Some limit ->
  balanceNWCWEI cv = Some balance ->
  failureOf estimate = Some e ->
  repriced e = false ->
  exists warning,
    buyGasEst (Some d) (Some cv) (Some gasPrice) (Some buyAmount) (Some allowBuying)
      (Some allowMinting) estimate
    = Fulfilled ([("buyGasEstWarning_out", VStr warning)], Some (mkGasEst None None warning))
    /\ warning <> ""
    /\ forall dublr contractVals buyAmountNWCWEI minimumTokens amountBoughtEst ab am
              gasPriceNWCWEI networkCurrency prices termsBuy_in pending,
         buyButtonParams dublr contractVals buyAmountNWCWEI minimumTokens amountBoughtEst
           ab am (Some (mkGasEst None None warning)) gasPriceNWCWEI networkCurrency prices
           termsBuy_in = None
         /\ buyButtonEnablement
              (buyButtonParams dublr contractVals buyAmountNWCWEI minimumTokens
                 amountBoughtEst ab am (Some (mkGasEst None None warning)) gasPriceNWCWEI
                 networkCurrency prices termsBuy_in) pending
            = [("buyButtonDisabled_out", VBool true)].
Proof.
  intros Hlimit Hbalance Hfail Hrep. unfold buyGasEst.
  destruct cv as [bal ? ? ? ? ? ? ? ? ? lim]. cbn in Hlimit, Hbalance. subst bal lim.
  destruct (estimateGas_failure d estimate e gasPrice
              (Some (if balance - buyAmount <? 0 then 0 else balance - buyAmount))
              (Some limit) "estimate gas for <tt>buy()</tt> function"
              ", try buying a smaller amount" ", try buying a smaller amount" None
              Hfail Hrep) as (warning & Hest & Hwarn).
  exists warning. rewrite Hest. split; [reflexivity|]. split; [exact Hwarn|].
  intros. unfold buyButtonParams.
  rewrite (warning_disables_buy (mkGasEst None None warning)) by exact Hwarn.
  split; reflexivity.
Qed.

(** X21. The gas limit the three button nodes compute is never missing:
    it falls back to the constant 2e7, so their requirement "gas limit"
    cannot fail, and [cancelButtonParams] returns [undefined] exactly when
    the contract is missing, there is no active sell order or the gas
    estimate carries a warning. *)
Theorem gas_limit_is_never_missing `{L : Lib}
    (est : option GasEst) (contractVals : option ContractVals) (dublr : option Contract)
    (gasPriceNWCWEI : option Z) (networkCurrency : option string) (prices : option Price) :
  truthy_gasLimit (gasLimitOf est contractVals) = true
  /\ (cancelButtonParams dublr contractVals est gasPriceNWCWEI networkCurrency prices = None
      <-> (negb (truthy_obj dublr) || negb (hasSellOrder contractVals) || hasWarning est)%bool
          = true).
Proof.
  assert (Hlimit : truthy_gasLimit (gasLimitOf est contractVals) = true).
  { unfold gasLimitOf.
    destruct est as [[[raw|] ? ?]|]; try reflexivity;
      destruct contractVals as [[? ? ? ? ? ? ? ? ? ? [limit|]]|]; reflexivity. }
  split; [exact Hlimit|].
  unfold cancelButtonParams, cancelDisabled. rewrite Hlimit. cbn [negb].
  rewrite orb_false_r.
  destruct (negb (truthy_obj dublr) || negb (hasSellOrder contractVals) || hasWarning est)%bool
    eqn:Hdis; [split; reflexivity|].
  apply orb_false_elim in Hdis as [Hdis _]. apply orb_false_elim in Hdis as [Hd Hs].
  destruct dublr as [d|]; [|discriminate Hd].
  destruct contractVals as [cv|]; [|discriminate Hs].
  split; discriminate.
Qed.

(** X22. [cancelGasEst] does not look for the balance and the block gas
    limit before it estimates: when there is an active sell order, the
    estimate call resolves and the balance is unknown, the node is
    rejected and writes nothing, where [sellGasEst] on the same contract
    values returns [undefined] with an empty warning. *)
Theorem cancelGasEst_rejects_without_balance
    (d : Contract) (cv : ContractVals) (gasPrice g listPrice sellAmount : Z)
    (estimate : Submission) :
  hasSellOrder (Some cv) = true ->
  balanceNWCWEI cv = None ->
  cancelGasEst (Some d) (Some cv) (Some gasPrice) (Submitted (Value (Some g))) = Rejected
  /\ sellGasEst (Some d) (Some cv) (Some gasPrice) (Some listPrice) (Some sellAmount) estimate
     = Fulfilled ([("sellGasEstWarning_out", VStr "")], None).
Proof.
  intros Horder Hbalance. unfold cancelGasEst, sellGasEst. rewrite Horder.
  destruct cv as [bal ? ? ? ? ? ? ? ? ? lim]. cbn in Hbalance. subst bal.
  split; [reflexivity|]. destruct lim; reflexivity.
Qed.

End Transactions.

Section TransactionExamples.
Import Format Nodes Forms Tx Terms.

Lemma buyGasEst_warns_when_gas_is_not_covered_witness :
  exists est,
    buyGasEst (Some 1%nat) (Some exampleFunds) (Some 30000000000)
      (Some 1000000000000000000) (Some true) (Some true) (Submitted (Value (Some 200000)))
    = Fulfilled ([("buyGasEstWarning_out", VStr (warningText est))], Some est)
    /\ gasEstRaw est = Some 200000
    /\ warningText est = "".
Proof.
  destruct (buyGasEst_warns_when_gas_is_not_covered 1%nat exampleFunds 30000000000
              1000000000000000000 true true 200000 30000000 5000000000000000000
              eq_refl eq_refl) as (est & Hrun & Hraw & _ & Hwarn).
  exists est. split; [exact Hrun|]. split; [exact Hraw|].
  apply Hwarn. lia.
Defined.

Lemma failed_gas_estimate_disables_buy_button_witness :
  let e := mkTxError (mkError (Some "execution reverted: DEX disabled") None None)
             None None None in
  exists warning,
    buyGasEst (Some 1%nat) (Some exampleFunds) (Some 30000000000)
      (Some 1000000000000000000) (Some true) (Some true) (SubmitFails e)
    = Fulfilled ([("buyGasEstWarning_out", VStr warning)], Some (mkGasEst None None warning))
    /\ warning <> "".
Proof.
  intros e.
  destruct (failed_gas_estimate_disables_buy_button (L := Decimal.lib) 1%nat exampleFunds
              30000000000 1000000000000000000 true true (SubmitFails e) e
              30000000 5000000000000000000 eq_refl eq_refl eq_refl eq_refl)
    as (warning & Hrun & Hwarn & _).
  exists warning. split; [exact Hrun | exact Hwarn].
Defined.

Lemma cancelGasEst_rejects_without_balance_witness :
  let cv := mkContractVals None (Some 5) (mkSellOrder 2000000000 5) []
              2000000000 None None true true true (Some 30000000) in
  hasSellOrder (Some cv) = true
  /\ cancelGasEst (Some 1%nat) (Some cv) (Some 30000000000)
       (Submitted (Value (Some 200000))) = Rejected.
Proof.
  intros cv. split; [reflexivity|].
  apply (cancelGasEst_rejects_without_balance 1%nat cv 30000000000 200000 1 1 SubmitHangs);
    reflexivity.
Defined.

End TransactionExamples.

(* ================================================================== *)
(** * Further properties: the transaction log and the pending flag *)
(* ================================================================== *)

Section TransactionLog.
Import Format Nodes Book Forms Tx Buttons Terms.

Context {L : Lib} {A : LogArgs}.

Variable networkCurrency : option string.
Variable prices : option Price.

Lemma andThen_throws {X Y : Type} (k : X -> Completion Y) : andThen Throws k = Throws.
Proof. reflexivity. Qed.

Lemma paramRow_unrecognised (p : Param) :
  unrecognised p = true -> paramRow p networkCurrency prices = Throws.
Proof.
  unfold unrecognised, paramRow. intros Hp.
  repeat (apply andb_prop in Hp as [Hp ?]).
  repeat match goal with
         | H : negb ?b = true |- _ => apply negb_true_iff in H; rewrite H; clear H
         end.
  reflexivity.
Qed.

Lemma paramRows_unrecognised (ps : list Param) :
  existsb unrecognised ps = true ->
  forall paramNames args, paramRows ps networkCurrency prices paramNames args = Throws.
Proof.
  induction ps as [|p ps IH]; intros Hex paramNames args; [discriminate|].
  cbn [paramRows]. cbn [existsb] in Hex.
  destruct (unrecognised p) eqn:Hp.
  - rewrite (paramRow_unrecognised p Hp). reflexivity.
  - destruct (paramRow p networkCurrency prices) as [row|]; [|reflexivity].
    cbn [andThen]. apply IH. exact Hex.
Qed.

Lemma logRows_unrecognised (logs : list Log) :
  existsb (fun log => existsb unrecognised (params log)) logs = true ->
  forall html, logRows logs networkCurrency prices html = Throws.
Proof.
  induction logs as [|log logs IH]; intros Hex html; [discriminate|].
  cbn [logRows]. cbn [existsb] in Hex.
  destruct (existsb unrecognised (params log)) eqn:Hlog.
  - unfold logRow. rewrite (paramRows_unrecognised (params log) Hlog). reflexivity.
  - destruct (logRow log networkCurrency prices) as [row|]; [|reflexivity].
    cbn [andThen]. apply IH. exact Hex.
Qed.

Lemma renderLogs_throws_lemma (scanAddress : option string) (result : TxResult Log) :
  existsb (fun log => existsb unrecognised (params log)) (logs result) = true ->
  renderLogs scanAddress result networkCurrency prices = Throws.
Proof.
  intros Hex. unfold renderLogs.
  destruct (logs result) as [|log rest] eqn:Hlogs; [discriminate|].
  cbn [length Nat.ltb Nat.leb].
  rewrite (logRows_unrecognised (log :: rest) Hex). reflexivity.
Qed.

(** X23. [renderLogs] throws whenever some logged event has a parameter
    that is not of type address, whose name does not end in
    [NWCPerDUBLR_x1e9], [NWCWEI] or [DUBLRWEI] and is none of [amount],
    [oldAmount], [newAmount]: the next test calls [paramName.equals], which
    strings do not have, so the branches for [expirationTimestamp], for
    bytes and for everything else are never reached. *)
Theorem renderLogs_throws_on_other_parameters
    (scanAddress : option string) (result : TxResult Log) :
  existsb (fun log => existsb unrecognised (params log)) (logs result) = true ->
  renderLogs scanAddress result networkCurrency prices = Throws.
Proof.
  apply renderLogs_throws_lemma.
Qed.

(** What the shared part of the handlers does with the pending flag. *)
Lemma transact_pending (stem : string) (first : Batch) (dublr : option Contract)
    (parseLog : nat -> option Log) (scanAddress : option string)
    (transactionPromise : Submission) (task suggestion1 suggestion2 : string) :
  let click := transact stem first dublr parseLog scanAddress transactionPromise task
                 suggestion1 suggestion2 networkCurrency prices in
  clears (stem +:+ "TransactionPending") [first] = false ->
  String.eqb (stem +:+ "Status_out") (stem +:+ "TransactionPending") = false ->
  String.eqb (stem +:+ "StatusIsWarning_out") (stem +:+ "TransactionPending") = false ->
  (clears (stem +:+ "TransactionPending") (sets click) = true <-> ends click = Fulfilled tt)
  /\ (hangs transactionPromise = true -> ends click = Pending)
  /\ (ends click = Fulfilled tt ->
      exists r txLogs,
        runTransaction dublr parseLog transactionPromise task suggestion1 suggestion2
          networkCurrency = Fulfilled r
        /\ List.last (sets click) []
           = [(stem +:+ "Status_out", VStr (statusText (tx_warningText r)));
              (stem +:+ "StatusIsWarning_out",
               VBool (negb (String.eqb (tx_warningText r) "")));
              (stem +:+ "TransactionPending", VBool false);
              ("txLogs_out", VStr txLogs)]).
Proof.
  intros click Hfirst Hne1 Hne2. subst click. unfold transact. cbn zeta.
  pose proof (runTransaction_hangs_iff dublr parseLog transactionPromise task suggestion1
                suggestion2 networkCurrency) as Hhangs.
  match goal with
  | |- context [if submitted transactionPromise then ?a else ?b] =>
      set (submittedSet := if submitted transactionPromise then a else b)
  end.
  assert (Hsub : clears (stem +:+ "TransactionPending") (first :: submittedSet) = false).
  { unfold clears in *. cbn [existsb] in *. apply orb_false_elim in Hfirst as [Hfirst _].
    rewrite Hfirst. unfold submittedSet.
    destruct (submitted transactionPromise); [|reflexivity].
    cbn [existsb orb]. unfold Vocab.written. cbn [List.find fst].
    rewrite Hne1, Hne2. reflexivity. }
  subst submittedSet.
  destruct (runTransaction dublr parseLog transactionPromise task suggestion1 suggestion2
              networkCurrency) as [r| |] eqn:Hrun.
  - destruct (renderLogs scanAddress r networkCurrency prices) as [txLogs|] eqn:Hrender;
      cbn [sets ends].
    + split; [|split].
      * split; [reflexivity|]. intros _.
        unfold clears. rewrite app_comm_cons, existsb_app. apply orb_true_iff. right.
        cbn [existsb]. unfold Vocab.written. cbn [List.find fst].
        rewrite Hne1, Hne2, String.eqb_refl. reflexivity.
      * intros Hh. apply Hhangs in Hh. discriminate Hh.
      * intros _. exists r, txLogs. split; [reflexivity|].
        rewrite app_comm_cons. apply List.last_last.
    + split; [|split].
      * split; [intros Hc; destruct (eq_true_false_abs _ Hc Hsub) | discriminate].
      * intros Hh. apply Hhangs in Hh. discriminate Hh.
      * discriminate.
  - cbn [sets ends]. split; [|split].
    + split; [intros Hc; destruct (eq_true_false_abs _ Hc Hsub) | discriminate].
    + intros Hh. apply Hhangs in Hh. discriminate Hh.
    + discriminate.
  - cbn [sets ends]. split; [|split].
    + split; [intros Hc; destruct (eq_true_false_abs _ Hc Hsub) | discriminate].
    + reflexivity.
    + discriminate.
Qed.

End TransactionLog.

Section PendingFlag.
Import Format Nodes Book Forms Tx Buttons Terms.

Context {L : Lib} {A : LogArgs}.

(** X24. The three click handlers clear their pending flag exactly when
    they run to their end: a [dataflow.set] with [buyTransactionPending]
    (or [sellTransactionPending], [cancelTransactionPending]) [false] is
    made if and only if [runTransaction] settles and [renderLogs] returns;
    when a promise that [runTransaction] awaits never settles the handler
    stays suspended with the flag set.  The last write of a buy that ends
    carries the status text, a warning flag that is [true] exactly when the
    warning text is not empty, the cleared flag and the rendered log. *)
Theorem pending_flag_cleared_exactly_at_the_end
    (d : Contract) (parseLog : nat -> option Log) (scanAddress : option string)
    (transactionPromise : Submission)
    (buyParams : BuyParams) (sellParams : SellParams) (cancelParams : CancelParams)
    (dublr : option Contract) :
  let buy := buyButton_onclick (Some d) (Some buyParams) parseLog scanAddress
               transactionPromise in
  let sell := sellButton_onclick (Some d) (Some sellParams) parseLog scanAddress
                transactionPromise in
  let cancel := cancelButton_onclick dublr (Some cancelParams) parseLog scanAddress
                  transactionPromise in
  (clears "buyTransactionPending" (sets buy) = true <-> ends buy = Fulfilled tt)
  /\ (clears "sellTransactionPending" (sets sell) = true <-> ends sell = Fulfilled tt)
  /\ (clears "cancelTransactionPending" (sets cancel) = true <-> ends cancel = Fulfilled tt)
  /\ (hangs transactionPromise = true ->
      ends buy = Pending /\ ends sell = Pending /\ ends cancel = Pending)
  /\ (ends buy = Fulfilled tt ->
      exists r txLogs,
        runTransaction (Some d) parseLog transactionPromise "buy tokens"
          "try buying a smaller amount" ", try buying a smaller amount"
          (bp_networkCurrency buyParams) = Fulfilled r
        /\ List.last (sets buy) []
           = [("buyStatus_out", VStr (statusText (tx_warningText r)));
              ("buyStatusIsWarning_out", VBool (negb (String.eqb (tx_warningText r) "")));
              ("buyTransactionPending", VBool false);
              ("txLogs_out", VStr txLogs)]).
Proof.
  cbn zeta. unfold buyButton_onclick, sellButton_onclick, cancelButton_onclick.
  match goal with
  | |- context [transact "buy" ?first ?dd ?pl ?sa ?tp ?t ?s1 ?s2 ?nc ?pr] =>
      pose proof (transact_pending nc pr "buy" first dd pl sa tp t s1 s2
                    eq_refl eq_refl eq_refl) as (Hbuy & Hbuyh & Hbuyl)
  end.
  match goal with
  | |- context [transact "sell" ?first ?dd ?pl ?sa ?tp ?t ?s1 ?s2 ?nc ?pr] =>
      pose proof (transact_pending nc pr "sell" first dd pl sa tp t s1 s2
                    eq_refl eq_refl eq_refl) as (Hsell & Hsellh & _)
  end.
  match goal with
  | |- context [transact "cancel" ?first ?dd ?pl ?sa ?tp ?t ?s1 ?s2 ?nc ?pr] =>
      pose proof (transact_pending nc pr "cancel" first dd pl sa tp t s1 s2
                    eq_refl eq_refl eq_refl) as (Hcancel & Hcancelh & _)
  end.
  split; [exact Hbuy|]. split; [exact Hsell|]. split; [exact Hcancel|].
  split; [intros Hh; auto|]. exact Hbuyl.
Qed.

(** X25. A mined transaction can leave its pending flag set for good: when
    the receipt carries a log that [parseLog] reads as an event with a
    parameter [renderLogs] has no test for, the buy handler has written
    [buyTransactionPending] = [true], then the note that the transaction was
    submitted, and ends there with an exception; no write clears the flag,
    and with the flag set [buyButtonEnablement] keeps the button
    disabled. *)
Theorem unrendered_log_leaves_transaction_pending
    (d : Contract) (buyParams : BuyParams) (parseLog : nat -> option Log)
    (scanAddress : option string) (rcpt : Receipt) :
  existsb (fun log => existsb unrecognised (params log))
    (parsedLogs (Some d) parseLog (Some rcpt)) = true ->
  let click := buyButton_onclick (Some d) (Some buyParams) parseLog scanAddress
                 (Submitted (Transaction (WaitResolves (Some rcpt)))) in
  ends click = Rejected
  /\ map (Vocab.written "buyTransactionPending") (sets click) = [Some (VBool true); None]
  /\ clears "buyTransactionPending" (sets click) = false
  /\ forall params,
       buyButtonEnablement params (Some true) = [("buyButtonDisabled_out", VBool true)].
Proof.
  intros Hlogs. cbn zeta.
  unfold buyButton_onclick, transact, runTransaction. cbn [submitted].
  rewrite (renderLogs_throws_lemma (bp_networkCurrency buyParams)
             (bp_priceUSDPerCurrency buyParams) scanAddress
             (mkTxResult None (Some rcpt) (parsedLogs (Some d) parseLog (Some rcpt)) "")
             Hlogs).
  cbn [ends sets]. split; [reflexivity|]. split; [reflexivity|]. split; [reflexivity|].
  intros params. unfold buyButtonEnablement. cbn. rewrite orb_true_r. reflexivity.
Qed.

End PendingFlag.

Section PendingFlagExamples.
Import Format Nodes Book Forms Tx Buttons Terms.

Lemma renderLogs_throws_on_other_parameters_witness :
  existsb (fun log => existsb (unrecognised (H0 := exampleArgs)) (params log))
    [exampleApproval] = true
  /\ renderLogs (H0 := exampleArgs) (Some "https://polygonscan.com/")
       (mkTxResult None None [exampleApproval] "") (Some "MATIC") None = Throws.
Proof.
  split; [reflexivity|].
  apply (renderLogs_throws_on_other_parameters (A := exampleArgs) (Some "MATIC") None
           (Some "https://polygonscan.com/") (mkTxResult None None [exampleApproval] "")).
  reflexivity.
Defined.

Lemma unrendered_log_leaves_transaction_pending_witness :
  let buyParams := mkBuyParams Decimal.lib 1%nat 100 90 true true None (Some "MATIC") None in
  let rcpt := mkReceipt (Some 1) (Some [7%nat]) (Some "0xfeed") in
  ends (buyButton_onclick (H0 := exampleArgs) (Some 1%nat) (Some buyParams)
          (fun _ => Some exampleApproval) None
          (Submitted (Transaction (WaitResolves (Some rcpt)))))
  = Rejected.
Proof.
  intros buyParams rcpt.
  apply (unrendered_log_leaves_transaction_pending (A := exampleArgs) 1%nat buyParams
           (fun _ => Some exampleApproval) None rcpt); reflexivity.
Defined.

End PendingFlagExamples.

(* ================================================================== *)
(** * Further properties: the price and gas price nodes settle *)
(* ================================================================== *)

Section PriceNodes.
Import Format Rpc Nodes Vocab.

(** A value [rpcCall] returns is the value some attempt resolved with. *)
Lemma rpcLoop_value_from_attempt {A : Type} (promiseFn : nat -> Attempt A) (v : A) :
  forall (n i : nat) (delay : Z) (slept : list Z),
    result (rpcLoop promiseFn n i delay slept) = Fulfilled (Some v) ->
    exists j, promiseFn j = Resolves (Some v).
Proof.
  induction n as [|n IH]; intros i delay slept Hres; [discriminate|].
  cbn [rpcLoop] in Hres.
  destruct (promiseFn i) as [|w|e|] eqn:Hi; cbn [result] in Hres; try discriminate.
  - inversion Hres; subst w. eauto.
  - destruct (retryable (errMsg e)); [|discriminate].
    destruct (i <? numRetries - 1)%nat; eapply IH; exact Hres.
Qed.

Lemma rpcCall_settles {A : Type} (promiseFn : nat -> Attempt A) :
  (forall i, promiseFn i <> NeverSettles) ->
  exists v, result (rpcCall promiseFn) = Fulfilled v.
Proof.
  intros Hsettle. destruct (rpcCall_ok promiseFn) as (_ & _ & _ & Hful & _).
  apply Hful. intros j _. apply Hsettle.
Qed.

Lemma rpcCall_not_rejected {A : Type} (promiseFn : nat -> Attempt A) :
  result (rpcCall promiseFn) <> Rejected.
Proof. destruct (rpcCall_ok promiseFn) as (_ & _ & Hrej & _). exact Hrej. Qed.

Context {L : Lib}.

(** X26. The price node always answers unless [response.json()] itself
    never settles: whatever the requests to the price API do, hang
    included, each is cut off after 5 seconds, at most five are made, and
    the node is fulfilled with a price object; it is never rejected. *)
Theorem price_node_settles (stored : option Price)
    (fetches : nat -> FetchBehaviour JsonOutcome) :
  (forall i ms, fetches i <> FetchSettles ms (inl JsonHangs)) ->
  exists price, priceUSDPerCurrency stored fetches = Fulfilled price.
Proof.
  intros Hjson. unfold priceUSDPerCurrency.
  set (promiseFn := fun i => fetchWithTimeout (Some priceTimeout) (fetches i)).
  destruct (rpcCall_settles promiseFn) as [v Hv].
  { intros i. apply fetchWithTimeout_settles. }
  rewrite Hv. destruct v as [response|]; [|eauto].
  destruct response as [e m d| |]; eauto.
  exfalso. unfold rpcCall in Hv.
  apply rpcLoop_value_from_attempt in Hv as [j Hj].
  unfold promiseFn, fetchWithTimeout in Hj.
  destruct (fetches j) as [ms [resp|err]|] eqn:Hfetch; try discriminate.
  - destruct (ms <? _); [|discriminate]. inversion Hj; subst resp.
    exact (Hjson j ms Hfetch).
  - destruct (ms <? _); discriminate.
Qed.


End PriceNodes.

Section PriceNodeExamples.
Import Format Rpc Nodes Vocab.

Lemma price_node_settles_witness :
  exists price,
    priceUSDPerCurrency (H := Decimal.lib) None (fun _ => FetchHangs) = Fulfilled price.
Proof.
  apply (price_node_settles (L := Decimal.lib) None (fun _ => FetchHangs)).
  intros i ms. discriminate.
Defined.


End PriceNodeExamples.

(* ================================================================== *)
(** * Further properties: what the sell button can submit *)
(* ================================================================== *)

Section SellPath.
Import Format Nodes Book Forms Tx Terms.

Context {L : Lib} {E : Ethers}.

(** The balance available for selling is the wallet balance plus the
    amount of the active sell order. *)
Lemma totAvailable_sum (cv : ContractVals) (tot : Z) :
  totAvailableSellerBalanceDUBLRWEI (Some cv) = Some tot ->
  exists balance,
    balanceDUBLRWEI cv = Some balance
    /\ tot = balance + amountDUBLRWEI (mySellOrder cv).
Proof.
  unfold totAvailableSellerBalanceDUBLRWEI, hasSellOrder.
  destruct cv as [? [balance|] order ? ? ? ? ? ? ? ?]; [|discriminate].
  cbn [Nodes.balanceDUBLRWEI Nodes.mySellOrder].
  destruct (Z.eqb_spec (amountDUBLRWEI order) 0) as [Hz|_]; cbn [negb];
    intros Htot; inversion Htot; subst tot; exists balance; split; auto; lia.
Qed.

(** X28. What the sell button submits is within the seller's means: when
    [sellButtonParams], fed with the amount that [sellAmountDUBLRWEI]
    returns for the text typed in and with the balance that
    [totAvailableSellerBalanceDUBLRWEI] computes, returns parameters, their
    amount is the amount parsed from the text, it is positive and at most
    the wallet's DUBLR balance plus the amount of the active sell order, it
    is worth the minimum sell order value at the list price, selling is
    enabled on the exchange, the terms are accepted and the gas estimate
    carries no warning. *)
Theorem sell_button_submits_only_validated_amounts
    (sellAmount_in : option string) (dublr : option Contract) (cv : ContractVals)
    (listPrice : option Z) (networkCurrency : option string) (prices : option Price)
    (sellGasEst : option GasEst) (gasPrice : option Z) (termsSell_in : option bool)
    (batch : Batch) (amount : option Z) (params : SellParams) :
  sellAmountDUBLRWEI sellAmount_in (Some cv) listPrice
    (totAvailableSellerBalanceDUBLRWEI (Some cv)) networkCurrency
  = Normal (batch, amount) ->
  sellButtonParams dublr (Some cv) listPrice amount sellGasEst gasPrice networkCurrency
    prices termsSell_in
  = Some params ->
  ethToWei sellAmount_in = Some (sp_sellAmountDUBLRWEI params)
  /\ 0 < sp_sellAmountDUBLRWEI params
  /\ (exists balance,
        balanceDUBLRWEI cv = Some balance
        /\ sp_sellAmountDUBLRWEI params <= balance + amountDUBLRWEI (mySellOrder cv))
  /\ (exists minValue minDUBLRWEI,
        minSellOrderValueNWCWEI cv = Some minValue
        /\ ethToDublr (sp_listPriceNWCPerDUBLR_x1e9 params) minValue = Normal minDUBLRWEI
        /\ minDUBLRWEI <= sp_sellAmountDUBLRWEI params)
  /\ 0 < sp_listPriceNWCPerDUBLR_x1e9 params
  /\ sellingEnabled cv = true
  /\ termsSell_in = Some true
  /\ hasWarning sellGasEst = false.
Proof.
  intros Hamount Hparams. unfold sellButtonParams in Hparams.
  destruct (sellDisabled dublr (Some cv) listPrice amount sellGasEst termsSell_in)
    eqn:Hdis; [discriminate|].
  destruct dublr as [d|]; [|discriminate].
  destruct listPrice as [lp|]; [|discriminate].
  destruct amount as [a|]; [|discriminate].
  inversion Hparams; subst params; clear Hparams.
  cbn [sp_sellAmountDUBLRWEI sp_listPriceNWCPerDUBLR_x1e9].
  unfold sellDisabled in Hdis. cbn [truthy_obj negb orb missing_or] in Hdis.
  repeat (apply orb_false_elim in Hdis as [Hdis ?]).
  destruct (sell_amount_within_limits sellAmount_in (Some cv) (Some lp)
              (totAvailableSellerBalanceDUBLRWEI (Some cv)) networkCurrency batch a Hamount)
    as (_ & Hparse & Hpos & cv' & tot & lp' & minValue & minD
        & Htot & Hle & Hcv & Hmin & Hlp & _ & HminD & Hge).
  inversion Hcv; subst cv'. inversion Hlp; subst lp'.
  destruct (totAvailable_sum cv tot Htot) as (balance & Hbal & Hsum).
  split; [exact Hparse|]. split; [exact Hpos|].
  split; [exists balance; split; [exact Hbal | lia]|].
  split; [exists minValue, minD; auto|].
  split; [destruct (Z.leb_spec lp 0); [discriminate | lia]|].
  split; [destruct (sellingEnabled cv); [reflexivity | discriminate]|].
  split; [destruct termsSell_in as [[|]|]; first [reflexivity | discriminate]|].
  assumption.
Qed.

End SellPath.

Section SellPathExamples.
Import Format Nodes Book Forms Tx Terms.

Lemma sell_button_submits_only_validated_amounts_witness :
  exists batch params,
    sellAmountDUBLRWEI (H := Decimal.lib) (H0 := wholeEther) (Some "2") (Some exampleFunds)
      (Some 1000000000) (totAvailableSellerBalanceDUBLRWEI (Some exampleFunds))
      (Some "MATIC")
    = Normal (batch, Some 2000000000000000000)
    /\ sellButtonParams (H := Decimal.lib) (Some 1%nat) (Some exampleFunds) (Some 1000000000)
         (Some 2000000000000000000) None None (Some "MATIC") None (Some true)
       = Some params
    /\ 0 < sp_sellAmountDUBLRWEI params.
Proof.
  eexists _, _. split; [vm_compute; reflexivity|]. split; [vm_compute; reflexivity|].
  eapply (sell_button_submits_only_validated_amounts (L := Decimal.lib) (E := wholeEther)
            (Some "2") (Some 1%nat) exampleFunds (Some 1000000000) (Some "MATIC") None
            None None (Some true)).
  - vm_compute. reflexivity.
  - vm_compute. reflexivity.
Defined.

End SellPathExamples.

(* ================================================================== *)
(** * Further properties: the orderbook table and the network *)
(* ================================================================== *)

Section OrderbookTable.
Import Format Nodes Book Forms Tables Vocab.

Lemma prefix_of_append (n t : string) : String.prefix n (n +:+ t) = true.
Proof.
  induction n as [|c n IH]; [destruct t; reflexivity|].
  change (String.prefix (String c n) (String c (n +:+ t)) = true).
  cbn. destruct (ascii_dec c c) as [_|Hne]; [exact IH | contradiction].
Qed.

Lemma prefix_append_r (n h t : string) :
  String.prefix n h = true -> String.prefix n (h +:+ t) = true.
Proof.
  revert h. induction n as [|c n IH]; intros h Hp; [destruct (h +:+ t); reflexivity|].
  destruct h as [|d h]; [discriminate|].
  change (String.prefix (String c n) (String d (h +:+ t)) = true).
  cbn in *. destruct (ascii_dec c d); [apply IH, Hp | discriminate].
Qed.

Lemma includes_append_r (n h t : string) :
  includes n h = true -> includes n (h +:+ t) = true.
Proof.
  induction h as [|c h IH]; intros Hin.
  - cbn in Hin. rewrite orb_false_r in Hin.
    destruct n; [destruct t; reflexivity | discriminate].
  - cbn [includes] in Hin. apply orb_true_iff in Hin as [Hp|Hin].
    + change (String c h +:+ t) with (String c (h +:+ t)).
      cbn [includes]. apply orb_true_iff. left.
      exact (prefix_append_r n (String c h) t Hp).
    + change (String c h +:+ t) with (String c (h +:+ t)).
      cbn [includes]. apply orb_true_iff. right. apply IH, Hin.
Qed.

Lemma includes_append_l (n p h : string) :
  includes n h = true -> includes n (p +:+ h) = true.
Proof.
  intros Hin. induction p as [|c p IH]; [exact Hin|].
  change (String c p +:+ h) with (String c (p +:+ h)).
  cbn [includes]. apply orb_true_iff. right. exact IH.
Qed.

Lemma includes_self (n : string) : includes n n = true.
Proof.
  destruct n as [|c n]; [reflexivity|].
  cbn [includes]. apply orb_true_iff. left.
  rewrite <- (prefix_of_append (String c n) "") at 1.
  f_equal. clear. induction (String c n) as [|d s IH]; [reflexivity|].
  change (String d s = String d (s +:+ "")). rewrite <- IH. reflexivity.
Qed.

Lemma addNote_includes_line (note line : string) : includes line (addNote note line) = true.
Proof.
  unfold addNote. apply includes_append_l, includes_append_l, includes_self.
Qed.

Lemma addNote_keeps (n note line : string) :
  includes n note = true -> includes n (addNote note line) = true.
Proof. intros Hin. unfold addNote. apply includes_append_r, Hin. Qed.

(** The loop only adds to the note. *)
Lemma tableLoop_keeps_note (n : string) (contractVals : option ContractVals) :
  forall (rows : list Row) (idx : nat) (st : TableState),
    includes n (note st) = true ->
    includes n (note (tableLoop contractVals rows idx st)) = true.
Proof.
  induction rows as [|sellOrder rest IH]; intros idx st Hin; [exact Hin|].
  cbn [tableLoop].
  set (st1 := if (_ && negb (matchedMySellOrder st))%bool then _ else st).
  assert (H1 : includes n (note st1) = true).
  { unfold st1. destruct (_ && negb (matchedMySellOrder st))%bool; [|exact Hin].
    cbn [note]. apply addNote_keeps, Hin. }
  set (st2 := if (aboveMintPrice contractVals sellOrder && negb (reachedMintPrice st1))%bool
              then _ else st1).
  assert (H2 : includes n (note st2) = true).
  { unfold st2.
    destruct (aboveMintPrice contractVals sellOrder && negb (reachedMintPrice st1))%bool;
      [|exact H1].
    cbn [note]. apply addNote_keeps, H1. }
  destruct (idx =? 49)%nat.
  - cbn [note]. apply addNote_keeps, H2.
  - apply IH. cbn [note]. exact H2.
Qed.

(** X29. When the mint price is zero (minting has ended), the orderbook
    table flags a sell order with a positive price as priced above the mint
    price, with the note that it cannot be bought yet, while the [buy()]
    simulation buys from that very order: the table tests the mint price
    for truthiness, which holds of every BigNumber, where the simulation
    tests that it is greater than zero. *)
Theorem zero_mint_price_flags_orders_that_can_be_bought
    (cv : ContractVals) (sellOrder : Row) (rest : list Row) (buyAmountNWCWEI : Z) :
  mintPriceNWCPerDUBLR_x1e9 cv = 0 ->
  buyingEnabled cv = true ->
  amountDUBLRWEI (mySellOrder cv) = 0 ->
  row_isMintPriceEntry sellOrder = false ->
  0 < row_amountDUBLRWEI sellOrder ->
  0 < row_priceNWCPerDUBLR_x1e9 sellOrder <= buyAmountNWCWEI * e9 ->
  (exists table note,
      updateOrderbookTable (Some cv) (Some (sellOrder :: rest))
      = [("orderbookTable_out", VStr table); ("orderbookNote_out", VStr note)]
      /\ includes aboveLine note = true)
  /\ exists s',
       buyStep cv true (initSim buyAmountNWCWEI (map entryOf (sellOrder :: rest)))
       = Continue s'
       /\ numBought s' = 1%nat
       /\ 0 < totBoughtOrMintedDUBLRWEI s'.
Proof.
  intros Hmint Hbuying Hown Hentry Hamount [Hprice Hafford]. split.
  - eexists _, _. split; [reflexivity|].
    cbn [tableLoop]. cbn [matchedMySellOrder reachedMintPrice negb andb].
    assert (Habove : aboveMintPrice (Some cv) sellOrder = true).
    { unfold aboveMintPrice. rewrite Hmint. apply Z.ltb_lt, Hprice. }
    rewrite Habove.
    assert (Hmatch : sellOrderMatches (Some cv) sellOrder = false).
    { unfold sellOrderMatches, hasSellOrder. rewrite Hown. reflexivity. }
    rewrite Hmatch. cbn [andb note tableRows matchedMySellOrder reachedMintPrice negb].
    cbn [Nat.eqb]. apply tableLoop_keeps_note. cbn [note].
    apply addNote_includes_line.
  - destruct sellOrder as [price amount cumul isMint text].
    cbn [row_priceNWCPerDUBLR_x1e9 row_amountDUBLRWEI row_isMintPriceEntry] in *.
    subst isMint. unfold buyStep, initSim, entryOf.
    cbn [orderbookCopy map buyOrderRemainingNWCWEI totBoughtOrMintedDUBLRWEI
         totSpentNWCWEI ownSellOrder skipMinting numBought
         row_priceNWCPerDUBLR_x1e9 row_amountDUBLRWEI row_isMintPriceEntry
         isMintPriceEntry be_priceNWCPerDUBLR_x1e9 be_amountDUBLRWEI].
    rewrite Hbuying. cbn [andb].
    assert (Hfunds : 0 < buyAmountNWCWEI) by (unfold e9 in *; nia).
    destruct (Z.ltb_spec 0 buyAmountNWCWEI) as [_|]; [|lia].
    unfold isOwnOrder. cbn [ownSellOrder negb andb]. rewrite Hown. cbn [Z.eqb negb andb].
    rewrite Hmint. cbn [Z.ltb Z.compare andb].
    unfold ethToDublr, bn_div.
    destruct (Z.eqb_spec price 0) as [|_]; [lia|].
    assert (Hq : 1 <= Z.quot (buyAmountNWCWEI * e9) price).
    { rewrite Z.quot_div_nonneg by (unfold e9 in *; lia).
      apply Z.div_le_lower_bound; lia. }
    destruct (Z.eqb_spec (Z.quot (buyAmountNWCWEI * e9) price) 0) as [|_]; [lia|].
    eexists. split; [reflexivity|]. cbn [numBought totBoughtOrMintedDUBLRWEI].
    split; [reflexivity|].
    destruct (Z.ltb_spec amount (Z.quot (buyAmountNWCWEI * e9) price)); lia.
Qed.

(** X30. The chains on which the currency shown is MATIC are the chains
    for which [gasPriceNWCWEI] asks the Polygon gas station and doubles the
    provider's fee, and the chains whose block explorer is a polygonscan
    site: the three functions agree on the chain id that the [network] node
    writes, for every chain id. *)
Theorem polygon_chains_agree (network : option Network) :
  let chainId := parseChainId (chainIdOf network) in
  (networkCurrency network = "MATIC" <-> isPolygon chainId = true)
  /\ (includes "polygonscan.com" (scanAddress network) = true <-> isPolygon chainId = true)
  /\ (networkCurrency network = "ETH" \/ networkCurrency network = "MATIC"
      \/ (networkCurrency network = "network currency"
          /\ scanAddress network = "https://github.com/dublr/dublr")).
Proof.
  cbn zeta. unfold networkCurrency, scanAddress, chainCase, isPolygon.
  destruct (parseChainId (chainIdOf network)) as [c|].
  - destruct (Z.eqb_spec c 1) as [->|H1]; [repeat split; auto; discriminate|].
    destruct (Z.eqb_spec c 5) as [->|H5]; [repeat split; auto; discriminate|].
    destruct (Z.eqb_spec c 137) as [->|H137]; [repeat split; auto|].
    destruct (Z.eqb_spec c 80001) as [->|H80001]; [repeat split; auto|].
    repeat split; auto; discriminate.
  - repeat split; auto; discriminate.
Qed.

End OrderbookTable.

Section OrderbookTableExamples.
Import Format Nodes Book Forms Tables Vocab.

Lemma zero_mint_price_flags_orders_that_can_be_bought_witness :
  let cv := mkContractVals (Some 100) (Some 5) (mkSellOrder 0 0) []
              0 None None true true true (Some 30000000) in
  let sellOrder := mkRow 1000000000 30 30 false "" in
  exists s',
    buyStep cv true (initSim 100 [entryOf sellOrder]) = Continue s'
    /\ numBought s' = 1%nat
    /\ 0 < totBoughtOrMintedDUBLRWEI s'.
Proof.
  intros cv sellOrder.
  apply (zero_mint_price_flags_orders_that_can_be_bought cv sellOrder [] 100);
    try reflexivity; unfold e9; cbn; lia.
Defined.

End OrderbookTableExamples.
